(** * LeadBoost: the lead processing pipeline, embedded and verified

    A shallow embedding of the pipeline of [backend/core]: the tiered
    scraper, the waterfall enricher, the lead scorer, the messenger, the
    quota gate of the bulk endpoint and the token refresh endpoint.

    Python [float] is IEEE 754 binary64; it is modelled exactly, with the
    executable specification of the Standard Library ([SpecFloat], at
    precision 53 and maximal exponent 1024).  Python [str] is modelled by
    [string]: texts of the code points up to U+00FF.  White space and
    lower case are those of Python on these code points; [\d], [\w],
    the ranges of the patterns and [title] are those of the ASCII
    range. *)

From Stdlib Require Import ZArith List String Ascii Bool Lia.
From Stdlib Require Import Floats.SpecFloat.
Import ListNotations.
Local Open Scope Z_scope.

(** ** Binary64 arithmetic, as Python's [float] *)

Module F64.

Definition prec : Z := 53.
Definition emax : Z := 1024.

Definition float := spec_float.

Definition add : float -> float -> float := SFadd prec emax.
Definition mul : float -> float -> float := SFmul prec emax.
Definition div : float -> float -> float := SFdiv prec emax.

(** Python's [<], [<=], [>], [>=] on floats: false when an operand is NaN. *)
Definition ltb : float -> float -> bool := SFltb.
Definition leb : float -> float -> bool := SFleb.
Definition gtb (x y : float) : bool := SFltb y x.
Definition geb (x y : float) : bool := SFleb y x.

(** [float(n)] for an integer [n]: round to nearest, ties to even. *)
Definition of_Z (n : Z) : float := binary_normalize prec emax n 0 false.

(** A decimal literal [n/d] (such as [0.3] = 3/10): the binary64 number
    nearest to the quotient, which the correctly rounded division of two
    exactly representable integers gives. *)
Definition lit (n d : Z) : float := div (of_Z n) (of_Z d).

(** Python's [min(a, b)]: [b] if [b < a], else [a]. *)
Definition min (a b : float) : float := if ltb b a then b else a.

Definition zero : float := S754_zero false.

Definition valid (x : float) : bool := valid_binary prec emax x.

Definition is_nan (x : float) : bool :=
  match x with S754_nan => true | _ => false end.

End F64.

Notation "x +. y" := (F64.add x y) (at level 50, left associativity).
Notation "x *. y" := (F64.mul x y) (at level 40, left associativity).

(** The literals of the source. *)
Definition f0_0 : F64.float := F64.zero.
Definition f0_1 := F64.lit 1 10.
Definition f0_15 := F64.lit 15 100.
Definition f0_2 := F64.lit 2 10.
Definition f0_25 := F64.lit 25 100.
Definition f0_3 := F64.lit 3 10.
Definition f0_5 := F64.lit 5 10.
Definition f0_6 := F64.lit 6 10.
Definition f0_7 := F64.lit 7 10.
Definition f0_8 := F64.lit 8 10.
Definition f0_9 := F64.lit 9 10.
Definition f1_0 := F64.of_Z 1.
Definition f10_0 := F64.of_Z 10.
Definition f15_0 := F64.of_Z 15.
Definition f20_0 := F64.of_Z 20.
Definition f25_0 := F64.of_Z 25.
Definition f100_0 := F64.of_Z 100.

(** ** Python values and strings *)

Local Open Scope string_scope.

(** Exceptions: a computation returns a value or raises. *)
Inductive exn (A : Type) : Type :=
| Ret (a : A)
| Raise.
Arguments Ret {A} a.
Arguments Raise {A}.

Definition ebind {A B : Type} (c : exn A) (k : A -> exn B) : exn B :=
  match c with Ret a => k a | Raise => Raise end.

Notation "x <?- c ;; k" := (ebind c (fun x => k))
  (at level 61, c at next level, right associativity).

(** Truthiness of an optional string ([None] and [""] are falsy). *)
Definition truthy (o : option string) : bool :=
  match o with
  | Some (String _ _) => true
  | _ => false
  end.

(** [o or d] for an optional string. *)
Definition or_else (o : option string) (d : string) : string :=
  match o with
  | Some (String c s) => String c s
  | _ => d
  end.

Definition is_upper (c : ascii) : bool :=
  let n := nat_of_ascii c in (Nat.leb 65 n && Nat.leb n 90)%bool.
Definition is_lower (c : ascii) : bool :=
  let n := nat_of_ascii c in (Nat.leb 97 n && Nat.leb n 122)%bool.
Definition is_digit (c : ascii) : bool :=
  let n := nat_of_ascii c in (Nat.leb 48 n && Nat.leb n 57)%bool.
(** [\s] and the white space of [strip]: tab, newline, vertical tab,
    form feed, carriage return, the four separators 0x1c-0x1f, space,
    next line (U+0085) and no-break space (U+00A0). *)
Definition is_space (c : ascii) : bool :=
  let n := nat_of_ascii c in
  ((Nat.leb 9 n && Nat.leb n 13) || (Nat.leb 28 n && Nat.leb n 32)
   || Nat.eqb n 133 || Nat.eqb n 160)%bool.
(** [\w]: letters, digits and the underscore. *)
Definition is_word (c : ascii) : bool :=
  (is_upper c || is_lower c || is_digit c || Ascii.eqb c "_")%bool.

(** The capital letters of U+00C0-U+00DE (all but the sign U+00D7). *)
Definition is_upper_latin1 (c : ascii) : bool :=
  let n := nat_of_ascii c in
  (Nat.leb 192 n && Nat.leb n 222 && negb (Nat.eqb n 215))%bool.

Definition lower_char (c : ascii) : ascii :=
  if (is_upper c || is_upper_latin1 c)%bool
  then ascii_of_nat (nat_of_ascii c + 32) else c.
Definition upper_char (c : ascii) : ascii :=
  if is_lower c then ascii_of_nat (nat_of_ascii c - 32) else c.

(** [s.lower()] *)
Fixpoint lower (s : string) : string :=
  match s with
  | EmptyString => EmptyString
  | String c s' => String (lower_char c) (lower s')
  end.

(** [s.title()]: a letter that follows a letter is lowered, any other
    letter is raised. *)
Fixpoint title_from (prev_cased : bool) (s : string) : string :=
  match s with
  | EmptyString => EmptyString
  | String c s' =>
      let cased := (is_upper c || is_lower c)%bool in
      String (if prev_cased then lower_char c else upper_char c)
             (title_from cased s')
  end.
Definition title (s : string) : string := title_from false s.

(** [s.startswith(p)] *)
Definition startswith (p s : string) : bool := String.prefix p s.

(** [sub in s] *)
Fixpoint contains (sub s : string) : bool :=
  if String.prefix sub s then true
  else match s with
       | EmptyString => false
       | String _ s' => contains sub s'
       end.

(** [s.replace(old, new)], for a non-empty [old]; [skip] counts the
    characters of a replaced occurrence that are still to pass. *)
Fixpoint replace_from (old new : string) (skip : nat) (s : string) : string :=
  match s with
  | EmptyString => EmptyString
  | String c s' =>
      match skip with
      | S k => replace_from old new k s'
      | O =>
          if String.prefix old s
          then new ++ replace_from old new (String.length old - 1) s'
          else String c (replace_from old new O s')
      end
  end.
Definition replace (old new s : string) : string := replace_from old new O s.

(** [s.strip()] *)
Fixpoint lstrip (s : string) : string :=
  match s with
  | String c s' => if is_space c then lstrip s' else s
  | EmptyString => EmptyString
  end.
Fixpoint rstrip (s : string) : string :=
  match s with
  | EmptyString => EmptyString
  | String c s' =>
      match rstrip s' with
      | EmptyString => if is_space c then EmptyString else String c EmptyString
      | r => String c r
      end
  end.
Definition strip (s : string) : string := rstrip (lstrip s).

(** [s.split(".")[0]] *)
Fixpoint before_dot (s : string) : string :=
  match s with
  | EmptyString => EmptyString
  | String c s' => if Ascii.eqb c "." then EmptyString else String c (before_dot s')
  end.

(** [sep.join(l)] *)
Fixpoint join (sep : string) (l : list string) : string :=
  match l with
  | [] => ""
  | [x] => x
  | x :: l' => x ++ sep ++ join sep l'
  end.

(** The greatest number of digits that [int] takes:
    [sys.get_int_max_str_digits()], 4300 unless it is set otherwise. *)
Definition int_max_str_digits : nat := 4300.

(** [int(s)] on a string of decimal digits, the only strings that the
    source converts; anything else is a [ValueError], and so is a run
    of more digits than the limit. *)
Fixpoint int_digits (acc : Z) (s : string) : option Z :=
  match s with
  | EmptyString => Some acc
  | String c s' =>
      if is_digit c
      then int_digits (10 * acc + Z.of_nat (nat_of_ascii c - 48)) s'
      else None
  end.
Definition int (s : string) : exn Z :=
  match s with
  | EmptyString => Raise
  | _ =>
      if Nat.ltb int_max_str_digits (String.length s) then Raise
      else match int_digits 0 s with Some n => Ret n | None => Raise end
  end.

(** [str(n)] for a natural number. *)
Fixpoint str_digits (fuel n : nat) (acc : string) : string :=
  match fuel with
  | O => acc
  | S fuel' =>
      let acc' := String (ascii_of_nat (48 + Nat.modulo n 10)) acc in
      match Nat.div n 10 with
      | O => acc'
      | q => str_digits fuel' q acc'
      end
  end.
Definition str_nat (n : nat) : string := str_digits (S n) n "".

(** ** Regular expressions, with Python's backtracking semantics

    Alternatives are tried left to right and repetitions are greedy; the
    first way to match wins.  Every pattern of the source has exactly one
    capturing group. *)

Inductive cls :=
| Digit | Space | Word | Upper | Lower
| OneOf (chars : string)
| Or (a b : cls).

Fixpoint in_cls (k : cls) (c : ascii) : bool :=
  match k with
  | Digit => is_digit c
  | Space => is_space c
  | Word => is_word c
  | Upper => is_upper c
  | Lower => is_lower c
  | OneOf chars => contains (String c "") chars
  | Or a b => (in_cls a c || in_cls b c)%bool
  end.

Inductive regex :=
| Eps
| Chr (c : ascii)
| Cls (k : cls)
| Cat (r1 r2 : regex)
| Alt (r1 r2 : regex)
| Opt (r : regex)
| Plus (r : regex)
| Grp (r : regex).

(** A literal word. *)
Fixpoint Lit (s : string) : regex :=
  match s with
  | EmptyString => Eps
  | String c EmptyString => Chr c
  | String c s' => Cat (Chr c) (Lit s')
  end.

(** [a|b|c] *)
Fixpoint Alts (l : list regex) : regex :=
  match l with
  | [] => Eps
  | [r] => r
  | r :: l' => Alt r (Alts l')
  end.

Definition Words (l : list string) : regex := Alts (map Lit l).

Definition orelse {A : Type} (a b : option A) : option A :=
  match a with Some x => Some x | None => b end.

Section Matcher.
(** [re.IGNORECASE] *)
Variable ignorecase : bool.
Context {R : Type}.

Definition chr_eq (c x : ascii) : bool :=
  if ignorecase then Ascii.eqb (lower_char c) (lower_char x)
  else Ascii.eqb c x.

(** [rmatch r s cap k]: match [r] at the head of [s], then continue
    with [k] on the rest; [cap] is the text of group 1 so far. *)
Fixpoint rmatch (r : regex) (s : string) (cap : option string)
         (k : string -> option string -> option R) {struct r} : option R :=
  match r with
  | Eps => k s cap
  | Chr c =>
      match s with
      | String x s' => if chr_eq c x then k s' cap else None
      | EmptyString => None
      end
  | Cls c =>
      match s with
      | String x s' => if in_cls c x then k s' cap else None
      | EmptyString => None
      end
  | Cat r1 r2 => rmatch r1 s cap (fun s' cap' => rmatch r2 s' cap' k)
  | Alt r1 r2 => orelse (rmatch r1 s cap k) (rmatch r2 s cap k)
  | Opt r1 => orelse (rmatch r1 s cap k) (k s cap)
  | Plus r1 =>
      (fix more (n : nat) (s : string) (cap : option string) : option R :=
         rmatch r1 s cap (fun s' cap' =>
           match n with
           | O => k s' cap'
           | S n' =>
               if Nat.ltb (String.length s') (String.length s)
               then orelse (more n' s' cap') (k s' cap')
               else k s' cap'
           end)) (String.length s) s cap
  | Grp r1 =>
      rmatch r1 s cap (fun s' _ =>
        k s' (Some (substring 0 (String.length s - String.length s') s)))
  end.
End Matcher.

(** [re.findall(r, s)[0]] for a pattern with one group: the text of the
    group in the leftmost match, [None] when [findall] is empty. *)
Fixpoint findall_first (ignorecase : bool) (r : regex) (s : string)
  : option string :=
  match rmatch ignorecase r s None (fun _ cap => Some cap) with
  | Some cap => Some (match cap with Some c => c | None => "" end)
  | None =>
      match s with
      | EmptyString => None
      | String _ s' => findall_first ignorecase r s'
      end
  end.

(** ** Python values held in dictionaries *)

Inductive value :=
| VNone
| VStr (s : string)
| VInt (n : Z)
| VList (items : list string)
| VObj (repr : string) (truth : bool).
  (** [VObj]: any other object, given by its rendering and truthiness *)

Definition dict := list (string * value).

Fixpoint dict_get (d : dict) (k : string) : option value :=
  match d with
  | [] => None
  | (k', v) :: d' => if String.eqb k k' then Some v else dict_get d' k
  end.

(** [k in d] *)
Definition has_key (d : dict) (k : string) : bool :=
  match dict_get d k with Some _ => true | None => false end.

(** [d[k] = v] *)
Fixpoint dict_set (d : dict) (k : string) (v : value) : dict :=
  match d with
  | [] => [(k, v)]
  | (k', v') :: d' =>
      if String.eqb k k' then (k, v) :: d' else (k', v') :: dict_set d' k v
  end.

Definition value_truthy (v : value) : bool :=
  match v with
  | VNone => false
  | VStr s => negb (String.eqb s "")
  | VInt n => negb (Z.eqb n 0)
  | VList l => match l with [] => false | _ => true end
  | VObj _ t => t
  end.

(** [bool(d.get(k))] *)
Definition get_truthy (d : dict) (k : string) : bool :=
  match dict_get d k with Some v => value_truthy v | None => false end.

Definition quote1 : ascii := "'"%char.
Definition quote2 : ascii := ascii_of_nat 34.
Definition backslash : ascii := ascii_of_nat 92.

Definition hex_digit (n : nat) : ascii :=
  if Nat.ltb n 10 then ascii_of_nat (48 + n) else ascii_of_nat (87 + n).

Fixpoint repr_body (q : ascii) (s : string) : string :=
  match s with
  | EmptyString => EmptyString
  | String c s' =>
      let n := nat_of_ascii c in
      let rest := repr_body q s' in
      if Ascii.eqb c backslash then String backslash (String backslash rest)
      else if Ascii.eqb c q then String backslash (String q rest)
      else if Nat.eqb n 9 then String backslash (String "t" rest)
      else if Nat.eqb n 10 then String backslash (String "n" rest)
      else if Nat.eqb n 13 then String backslash (String "r" rest)
      else if (Nat.ltb n 32 || Nat.eqb n 127)%bool
           then String backslash (String "x"
                  (String (hex_digit (Nat.div n 16))
                     (String (hex_digit (Nat.modulo n 16)) rest)))
      else String c rest
  end.

(** [repr(s)] of a string: single quotes, unless the text has a single
    quote and no double quote. *)
Definition repr_str (s : string) : string :=
  let q := if (contains (String quote1 "") s
               && negb (contains (String quote2 "") s))%bool
           then quote2 else quote1 in
  String q (repr_body q s ++ String q "").

Definition str_Z (n : Z) : string :=
  match n with
  | Zneg p => "-" ++ str_nat (Pos.to_nat p)
  | _ => str_nat (Z.to_nat n)
  end.

Definition py_repr (v : value) : string :=
  match v with
  | VNone => "None"
  | VStr s => repr_str s
  | VInt n => str_Z n
  | VList l => "[" ++ join ", " (map repr_str l) ++ "]"
  | VObj r _ => r
  end.

(** [str(v)] *)
Definition py_str (v : value) : string :=
  match v with
  | VStr s => s
  | _ => py_repr v
  end.

(** [str(d)] of a dictionary *)
Definition str_dict (d : dict) : string :=
  "{" ++ join ", " (map (fun kv => repr_str (fst kv) ++ ": " ++ py_repr (snd kv)) d)
      ++ "}".

(** ** The lead ([core/domain/models/lead.py]) *)

Record Lead := {
  lead_id : Z;
  organization_id : Z;
  owner_id : Z;
  company_name : option string;
  website : string;
  industry : option string;
  about_text : option string;
  contact_name : option string;
  contact_title : option string;
  email : option string;
  phone : option string;
  linkedin_url : option string;
  employees : option string;
  revenue_band : option string;
  founded_year : option Z;
  score : F64.float;
  qualification_label : string;
  scrape_confidence : F64.float;
  email_confidence : F64.float;
  enrichment_confidence : F64.float;
  enrichment_source : string;
  scrape_source : string;
  outreach_message : option string;
  created_day : Z;  (** the UTC day of [created_at] *)
}.

(** A lead as [create_lead] makes it from a [LeadCreate]: the columns'
    defaults everywhere else. *)
Definition new_lead (i org owner : Z) (url : string) (day : Z) : Lead :=
  {| lead_id := i; organization_id := org; owner_id := owner;
     company_name := None; website := url; industry := None;
     about_text := None; contact_name := None; contact_title := None;
     email := None; phone := None; linkedin_url := None;
     employees := None; revenue_band := None; founded_year := None;
     score := f0_0; qualification_label := "Low Priority";
     scrape_confidence := f0_0; email_confidence := f0_0;
     enrichment_confidence := f0_0;
     enrichment_source := "none"; scrape_source := "none";
     outreach_message := None; created_day := day |}.

(** ** The waterfall enricher ([enrichment/enricher.py]) *)

Inductive EnrichmentMethod := HEURISTIC | EXTERNAL_API | LLM.

Record EnrichmentResult := {
  e_success : bool;
  e_data : dict;
  e_method : EnrichmentMethod;
  e_confidence : F64.float;
  e_processing_time : Z;
}.

Definition set_processing_time (r : EnrichmentResult) (t : Z) : EnrichmentResult :=
  {| e_success := e_success r; e_data := e_data r; e_method := e_method r;
     e_confidence := e_confidence r; e_processing_time := t |}.

Definition industry_keywords : list (string * list string) :=
  [ ("Software", ["software"; "saas"; "platform"; "cloud"; "api"; "app";
                  "application"; "tech"; "technology"]);
    ("Consulting", ["consulting"; "advisory"; "services"; "strategy";
                    "business"; "management"]);
    ("E-commerce", ["ecommerce"; "retail"; "shop"; "store"; "marketplace";
                    "buy"; "sell"]);
    ("Finance", ["finance"; "banking"; "investment"; "fintech"; "payment";
                 "financial"; "money"]);
    ("Healthcare", ["health"; "medical"; "clinic"; "hospital"; "care";
                    "pharma"; "healthcare"]);
    ("Marketing", ["marketing"; "advertising"; "media"; "social";
                   "campaign"; "brand"]);
    ("Education", ["education"; "learning"; "school"; "university";
                   "course"; "training"; "edu"]);
    ("Real Estate", ["real estate"; "property"; "realestate"; "estate";
                     "housing"; "rent"; "buy"]);
    ("Travel", ["travel"; "tourism"; "hotel"; "booking"; "vacation";
                "flight"; "airline"]);
    ("Food & Beverage", ["restaurant"; "food"; "beverage"; "cafe";
                         "catering"; "delivery"]) ].

Definition employee_keywords : list (string * list string) :=
  [ ("1-10", ["startup"; "early stage"; "small team"; "small business"]);
    ("11-50", ["growing"; "medium sized"; "expanding"; "scale up"]);
    ("51-200", ["established"; "mid sized"; "corporate"; "professional"]);
    ("201-500", ["large"; "enterprise"; "major"; "substantial"]);
    ("500+", ["huge"; "massive"; "very large"; "major corporation"]) ].

(** The strings of a list of values; an item that is not a string makes
    [" ".join] raise. *)
Fixpoint all_strs (l : list value) : exn (list string) :=
  match l with
  | [] => Ret []
  | VStr s :: l' => ss <?- all_strs l' ;; Ret (s :: ss)
  | _ :: _ => Raise
  end.

(** [_get_text_for_analysis] *)
Definition _get_text_for_analysis (lead : Lead) (scraped_data : dict)
  : exn string :=
  let texts1 :=
    if truthy (company_name lead)
    then [VStr ("Company: " ++ or_else (company_name lead) "")] else [] in
  let texts2 :=
    if truthy (about_text lead)
    then [VStr (or_else (about_text lead) "")] else [] in
  let texts3 :=
    match dict_get scraped_data "text_content" with
    | Some v => [v]
    | None =>
      match dict_get scraped_data "description" with
      | Some v => [v]
      | None =>
        match dict_get scraped_data "og_description" with
        | Some v => [v]
        | None =>
          match dict_get scraped_data "title" with
          | Some v => [v]
          | None => []
          end
        end
      end
    end in
  let texts4 :=
    match dict_get scraped_data "jsonld" with
    | Some v => [VStr (py_str v)]
    | None => []
    end in
  ss <?- all_strs (texts1 ++ texts2 ++ texts3 ++ texts4)%list ;;
  Ret (join " " ss).

(** [_infer_industry]: the industry with the most keywords in the text,
    the first one among equals. *)
Definition keyword_score (text : string) (keywords : list string) : nat :=
  List.length (filter (fun k => contains k text) keywords).

Fixpoint best_industry (text : string) (l : list (string * list string))
         (best : option (string * nat)) : option (string * nat) :=
  match l with
  | [] => best
  | (name, keywords) :: l' =>
      let sc := keyword_score text keywords in
      let best' :=
        if Nat.ltb 0 sc then
          match best with
          | None => Some (name, sc)
          | Some (_, b) => if Nat.ltb b sc then Some (name, sc) else best
          end
        else best in
      best_industry text l' best'
  end.

Definition _infer_industry (text : string) : option string :=
  option_map fst (best_industry text industry_keywords None).

Declare Scope regex_scope.
Delimit Scope regex_scope with re.
Bind Scope regex_scope with regex.
Infix ">>" := Cat (at level 40, left associativity) : regex_scope.

Definition dg : regex := Cls Digit.
Definition ws : regex := Plus (Cls Space).

Definition employee_patterns : list regex :=
  [ (Grp (Plus dg) >> ws >> Lit "employee" >> Opt (Chr "s"))%re;
    (Lit "team" >> ws >> Lit "of" >> ws >> Grp (Plus dg))%re;
    (Grp (Plus dg) >> ws >> Lit "person" >> ws >> Lit "team")%re;
    (Grp (Plus dg) >> ws >> Lit "staff")%re ].

Definition band_of_count (count : Z) : string :=
  if (count <=? 10)%Z then "1-10"
  else if (count <=? 50)%Z then "11-50"
  else if (count <=? 200)%Z then "51-200"
  else if (count <=? 500)%Z then "201-500"
  else "500+".

(** The first keyword list with a keyword in the text. *)
Fixpoint first_band (text : string) (l : list (string * list string))
  : option string :=
  match l with
  | [] => None
  | (size_range, keywords) :: l' =>
      if existsb (fun k => contains k text) keywords then Some size_range
      else first_band text l'
  end.

Fixpoint first_count (text : string) (patterns : list regex)
  : exn (option string) :=
  match patterns with
  | [] => Ret None
  | p :: patterns' =>
      match findall_first false p text with
      | Some m => count <?- int m ;; Ret (Some (band_of_count count))
      | None => first_count text patterns'
      end
  end.

(** [_estimate_employees] *)
Definition _estimate_employees (text : string) : exn (option string) :=
  match first_band text employee_keywords with
  | Some size_range => Ret (Some size_range)
  | None => first_count text employee_patterns
  end.

(** [_estimate_revenue_from_employees] *)
Definition _estimate_revenue_from_employees (employees : string)
  : option string :=
  if String.eqb employees "1-10" then Some "$0-1M"
  else if String.eqb employees "11-50" then Some "$1M-10M"
  else if String.eqb employees "51-200" then Some "$10M-50M"
  else if String.eqb employees "201-500" then Some "$50M-100M"
  else if String.eqb employees "500+" then Some "$100M+"
  else None.

Definition full_name : regex :=
  (Cls Upper >> Plus (Cls Lower) >> Cls Space >> Cls Upper >> Plus (Cls Lower))%re.

Definition contact_patterns : list regex :=
  [ (Words ["CEO"; "Founder"; "President"; "CTO"; "CFO"; "COO"; "Director";
            "Manager"; "Lead"] >> ws >> Grp full_name)%re;
    (Words ["Founder"; "Owner"; "Director"; "Manager"; "Lead"] >> ws
       >> Grp full_name)%re;
    (Words ["CEO"; "CTO"; "CFO"; "COO"] >> ws >> Grp full_name)%re;
    (Grp full_name >> ws
       >> Words ["CEO"; "Founder"; "President"; "CTO"; "CFO"; "COO";
                "Director"; "Manager"; "Lead"])%re ].

Fixpoint first_match (ignorecase : bool) (text : string)
         (patterns : list regex) : option string :=
  match patterns with
  | [] => None
  | p :: patterns' =>
      match findall_first ignorecase p text with
      | Some m => Some m
      | None => first_match ignorecase text patterns'
      end
  end.

(** [_extract_contact_person] *)
Definition _extract_contact_person (text : string) : option string :=
  first_match false text contact_patterns.

Definition title_patterns : list regex :=
  [ Grp (Words ["CEO"; "Founder"; "President"; "CTO"; "CFO"; "COO";
                "Director"; "Manager"; "Lead"; "VP"; "President"; "Owner"]);
    Grp (Lit "Chief" >> ws >> Plus (Cls Word) >> ws >> Lit "Officer")%re ].

(** [_extract_contact_title] *)
Definition _extract_contact_title (text : string) : option string :=
  option_map title (first_match true text title_patterns).

Definition founding_verbs : regex :=
  Words ["founded"; "established"; "started"; "launched"; "incorporated"].

Definition year4 : regex :=
  Alt (Lit "19" >> dg >> dg)%re (Lit "20" >> dg >> dg)%re.
Definition year4_or_2 : regex :=
  Alts [ (Lit "19" >> dg >> dg)%re; (Lit "20" >> dg >> dg)%re;
         (Chr quote1 >> dg >> dg)%re ].

Definition founded_patterns : list regex :=
  [ (founding_verbs >> ws >> Chr "i" >> Opt (Chr "n") >> ws >> Grp year4_or_2)%re;
    (founding_verbs >> ws >> Grp year4_or_2)%re;
    (Grp year4 >> ws >> founding_verbs)%re;
    (Words ["since"; "from"] >> ws >> Grp year4)%re ].

(** The body of the loop of [_extract_founded_year] for one matched
    text: [None] stands for going on with the next pattern. *)
Definition expand_year (year_str : string) : exn string :=
  if startswith "'" year_str
  then Ret ("20" ++ substring 1 (String.length year_str - 1) year_str)
  else if Nat.eqb (String.length year_str) 2
  then n <?- int year_str ;;
       Ret (if (n <? 50)%Z then "20" ++ year_str else "19" ++ year_str)
  else Ret year_str.

Definition accept_year (year_str : string) : option Z :=
  match int year_str with
  | Ret year => if ((1900 <=? year)%Z && (year <=? 2030)%Z)%bool
                then Some year else None
  | Raise => None
  end.

(** [_extract_founded_year] *)
Fixpoint founded_year_loop (text : string) (patterns : list regex)
  : exn (option Z) :=
  match patterns with
  | [] => Ret None
  | p :: patterns' =>
      match findall_first true p text with
      | Some m =>
          year_str <?- expand_year m ;;
          match accept_year year_str with
          | Some year => Ret (Some year)
          | None => founded_year_loop text patterns'
          end
      | None => founded_year_loop text patterns'
      end
  end.

Definition _extract_founded_year (text : string) : exn (option Z) :=
  founded_year_loop text founded_patterns.

(** A record of which operations ran, in order. *)
Definition traced (E A : Type) : Type := (list E * A)%type.
Definition tret {E A : Type} (a : A) : traced E A := ([], a).
Definition tbind {E A B : Type} (c : traced E A) (k : A -> traced E B)
  : traced E B :=
  let (l1, a) := c in let (l2, b) := k a in ((l1 ++ l2)%list, b).
Definition ran {E A : Type} (e : E) (a : A) : traced E A := ([e], a).

Notation "x <- c ;; k" := (tbind c (fun x => k))
  (at level 61, c at next level, right associativity).

(** One step of [_heuristic_enrichment]: a found field is stored and
    raises the confidence. *)
Definition found (k : string) (v : option value) (inc : F64.float)
           (acc : dict * F64.float) : dict * F64.float :=
  match v with
  | Some x => (dict_set (fst acc) k x, snd acc +. inc)
  | None => acc
  end.

Definition some_str (o : option string) : option value :=
  if truthy o then option_map VStr o else None.

Definition some_year (o : option Z) : option value :=
  match o with
  | Some y => if (y =? 0)%Z then None else Some (VInt y)
  | None => None
  end.

(** The body of the [try] of [_heuristic_enrichment]. *)
Definition heuristic_body (lead : Lead) (scraped_data : dict)
  : exn (option EnrichmentResult) :=
  text_to_analyze <?- _get_text_for_analysis lead scraped_data ;;
  let text_lower := lower text_to_analyze in
  let acc := ([], f0_0) in
  let industry := _infer_industry text_lower in
  let acc := found "industry" (some_str industry) f0_3 acc in
  employees <?- _estimate_employees text_lower ;;
  let acc := found "employees" (some_str employees) f0_2 acc in
  let acc :=
    if truthy employees
    then found "revenue_band"
           (some_str (_estimate_revenue_from_employees (or_else employees "")))
           f0_1 acc
    else acc in
  let contact_name := _extract_contact_person text_to_analyze in
  let acc := found "contact_name" (some_str contact_name) f0_15 acc in
  let contact_title := _extract_contact_title text_to_analyze in
  let acc := found "contact_title" (some_str contact_title) f0_1 acc in
  founded_year <?- _extract_founded_year text_to_analyze ;;
  let acc := found "founded_year" (some_year founded_year) f0_15 acc in
  match fst acc with
  | [] => Ret None
  | enriched_data =>
      Ret (Some {| e_success := true; e_data := enriched_data;
                   e_method := HEURISTIC;
                   e_confidence := F64.min (snd acc) f0_9;
                   e_processing_time := 0 |})
  end.

(** [_heuristic_enrichment]: any exception gives [None]. *)
Definition _heuristic_enrichment (lead : Lead) (scraped_data : dict)
  : option EnrichmentResult :=
  match heuristic_body lead scraped_data with
  | Ret r => r
  | Raise => None
  end.

(** [_external_api_enrichment]: a placeholder. *)
Definition _external_api_enrichment (lead : Lead) (scraped_data : dict)
  : option EnrichmentResult := None.

(** What the language model call comes to, from the request to the
    parsed reply. *)
Inductive llm_outcome :=
| LlmFailed                 (** the call raised *)
| LlmNoJson                 (** no [{...}] in the reply *)
| LlmBadJson                (** [json.loads] raised *)
| LlmParsed (parsed_data : dict).

Record LlmEnv := {
  langchain_installed : bool;
  GROQ_API_KEY : option string;
  (** the reply to the prompt made of company name, website and text *)
  chain_invoke : string -> string -> string -> llm_outcome;
}.

Definition not_none (kv : string * value) : bool :=
  match snd kv with VNone => false | _ => true end.

(** [_llm_enrichment] *)
Definition _llm_enrichment (env : LlmEnv) (lead : Lead) (scraped_data : dict)
  : option EnrichmentResult :=
  if negb (langchain_installed env) then None
  else if (negb (truthy (GROQ_API_KEY env))
           || String.eqb (or_else (GROQ_API_KEY env) "") "local_test_mode")%bool
  then None
  else
    match _get_text_for_analysis lead scraped_data with
    | Raise => None
    | Ret text_to_analyze =>
        match chain_invoke env (or_else (company_name lead) "Unknown")
                (website lead) (substring 0 2000 text_to_analyze) with
        | LlmParsed parsed_data =>
            match filter not_none parsed_data with
            | [] => None
            | enriched_data =>
                let confidence :=
                  f0_5 +. (F64.of_Z (Z.of_nat (List.length enriched_data)) *. f0_1) in
                Some {| e_success := true; e_data := enriched_data;
                        e_method := LLM;
                        e_confidence := F64.min confidence f0_8;
                        e_processing_time := 0 |}
            end
        | _ => None
        end
    end.

Definition accepted (gate : F64.float) (r : option EnrichmentResult) : bool :=
  match r with
  | Some res => F64.gtb (e_confidence res) gate
  | None => false
  end.

(** The waterfall of [enrich_lead_data] over its three strategies;
    [elapsed] is the clock reading at the return. *)
Section Waterfall.
Variables heuristic external_api llm : Lead -> dict -> option EnrichmentResult.

Definition waterfall (elapsed : Z) (lead : Lead) (scraped_data : dict)
  : traced EnrichmentMethod (option EnrichmentResult) :=
  heuristic_result <- ran HEURISTIC (heuristic lead scraped_data) ;;
  if accepted f0_7 heuristic_result
  then tret (option_map (fun r => set_processing_time r elapsed) heuristic_result)
  else
    api_result <- ran EXTERNAL_API (external_api lead scraped_data) ;;
    if accepted f0_6 api_result
    then tret (option_map (fun r => set_processing_time r elapsed) api_result)
    else
      llm_result <- ran LLM (llm lead scraped_data) ;;
      match llm_result with
      | Some r => tret (Some (set_processing_time r elapsed))
      | None => tret None
      end.
End Waterfall.

(** [enrich_lead_data] *)
Definition enrich_lead_data (env : LlmEnv) (elapsed : Z)
           (lead : Lead) (scraped_data : dict)
  : traced EnrichmentMethod (option EnrichmentResult) :=
  waterfall _heuristic_enrichment _external_api_enrichment
            (_llm_enrichment env) elapsed lead scraped_data.

(** The enrichment step of [process_lead_task]: the result, if any, is
    turned into a [LeadUpdate] and applied; without a result the lead is
    left as it is.  [LeadUpdate] is the schema's validation, which gives
    the assignments to make or raises. *)
Inductive field :=
| FVal (v : value)
| FFloat (x : F64.float).

Definition method_value (m : EnrichmentMethod) : string :=
  match m with
  | HEURISTIC => "heuristic"
  | EXTERNAL_API => "external_api"
  | LLM => "llm"
  end.

(** [if k in enriched_data: update_data[k] = enriched_data[k]] *)
Definition copy_key (from : dict) (to : list (string * field)) (k : string)
  : list (string * field) :=
  match dict_get from k with
  | Some v => (to ++ [(k, FVal v)])%list
  | None => to
  end.

Definition enrichment_update (r : EnrichmentResult) : list (string * field) :=
  fold_left (copy_key (e_data r))
    ["industry"; "employees"; "revenue_band"; "founded_year";
     "contact_name"; "contact_title"]
    [ ("enrichment_confidence", FFloat (e_confidence r));
      ("enrichment_source", FVal (VStr (method_value (e_method r)))) ].

Section Orchestrator.
Variable LeadUpdate : list (string * field) -> exn (Lead -> Lead).

Definition enrichment_step (can_use_ai : bool) (env : LlmEnv) (elapsed : Z)
           (lead : Lead) (scraped_data : dict) : exn Lead :=
  let enrichment_result :=
    if can_use_ai then snd (enrich_lead_data env elapsed lead scraped_data)
    else None in
  match enrichment_result with
  | Some r => upd <?- LeadUpdate (enrichment_update r) ;; Ret (upd lead)
  | None => Ret lead
  end.
End Orchestrator.

(** ** The lead scorer ([domain/services/scoring.py]) *)

Record ScoringCriteria := {
  name : string;
  weight : F64.float;
  threshold : F64.float;
  max_score : F64.float;
  description : string;
}.

Record ScoreResult := {
  total_score : F64.float;
  criteria_scores : list (string * F64.float);
  result_label : string;
  raw_score : F64.float;
}.

Definition default_criteria : list ScoringCriteria :=
  [ {| name := "industry_match"; weight := f0_25; threshold := f0_5;
       max_score := f25_0; description := "Matches preferred industry" |};
    {| name := "company_size"; weight := f0_2; threshold := f0_5;
       max_score := f20_0;
       description := "Company size within preferred range" |};
    {| name := "email_quality"; weight := f0_15; threshold := f0_6;
       max_score := f15_0; description := "Email confidence score" |};
    {| name := "scrape_quality"; weight := f0_15; threshold := f0_6;
       max_score := f15_0; description := "Scraping confidence score" |};
    {| name := "enrichment_quality"; weight := f0_15; threshold := f0_6;
       max_score := f15_0; description := "Enrichment confidence score" |};
    {| name := "linkedin_presence"; weight := f0_1; threshold := f0_5;
       max_score := f10_0; description := "Has LinkedIn profile" |} ].

(** [o and o in l] for an optional string. *)
Definition one_of (o : option string) (l : list string) : bool :=
  (truthy o && existsb (String.eqb (or_else o "")) l)%bool.

Definition _evaluate_industry_match (lead : Lead) (criterion : ScoringCriteria)
  : F64.float :=
  if one_of (industry lead)
       ["Software"; "SaaS"; "Technology"; "Fintech"; "Healthcare";
        "E-commerce"; "AI"; "Data"]
  then max_score criterion else f0_0.

Definition _evaluate_company_size (lead : Lead) (criterion : ScoringCriteria)
  : F64.float :=
  if one_of (employees lead) ["11-50"; "51-200"; "201-500"]
  then max_score criterion else f0_0.

(** The three quality criteria share one shape. *)
Definition quality (confidence : F64.float) (criterion : ScoringCriteria)
  : F64.float :=
  if F64.geb confidence (threshold criterion)
  then max_score criterion *. F64.div confidence f1_0
  else f0_0.

Definition _evaluate_email_quality (lead : Lead) (criterion : ScoringCriteria)
  : F64.float := quality (email_confidence lead) criterion.

Definition _evaluate_scrape_quality (lead : Lead) (criterion : ScoringCriteria)
  : F64.float := quality (scrape_confidence lead) criterion.

Definition _evaluate_enrichment_quality (lead : Lead)
           (criterion : ScoringCriteria) : F64.float :=
  quality (enrichment_confidence lead) criterion.

Definition _evaluate_linkedin_presence (lead : Lead)
           (criterion : ScoringCriteria) : F64.float :=
  if truthy (linkedin_url lead) then max_score criterion else f0_0.

Definition _evaluate_criterion (lead : Lead) (criterion : ScoringCriteria)
  : F64.float :=
  if String.eqb (name criterion) "industry_match"
  then _evaluate_industry_match lead criterion
  else if String.eqb (name criterion) "company_size"
  then _evaluate_company_size lead criterion
  else if String.eqb (name criterion) "email_quality"
  then _evaluate_email_quality lead criterion
  else if String.eqb (name criterion) "scrape_quality"
  then _evaluate_scrape_quality lead criterion
  else if String.eqb (name criterion) "enrichment_quality"
  then _evaluate_enrichment_quality lead criterion
  else if String.eqb (name criterion) "linkedin_presence"
  then _evaluate_linkedin_presence lead criterion
  else f0_0.

Definition _classify_lead (score : F64.float) : string :=
  if F64.geb score (F64.of_Z 80) then "Hot Lead"
  else if F64.geb score (F64.of_Z 60) then "Warm Lead"
  else if F64.geb score (F64.of_Z 40) then "Cold Lead"
  else "Disqualified".

(** [d[k] = x] on the scores. *)
Fixpoint scores_set (l : list (string * F64.float)) (k : string)
         (x : F64.float) : list (string * F64.float) :=
  match l with
  | [] => [(k, x)]
  | (k', x') :: l' =>
      if String.eqb k k' then (k, x) :: l' else (k', x') :: scores_set l' k x
  end.

(** The loop of [score_lead]. *)
Fixpoint score_loop (lead : Lead) (criteria : list ScoringCriteria)
         (criteria_scores : list (string * F64.float)) (total : F64.float)
  : list (string * F64.float) * F64.float :=
  match criteria with
  | [] => (criteria_scores, total)
  | criterion :: criteria' =>
      let score := _evaluate_criterion lead criterion in
      score_loop lead criteria'
        (scores_set criteria_scores (name criterion) score) (total +. score)
  end.

Definition score_lead (lead : Lead)
           (custom_criteria : option (list ScoringCriteria)) : ScoreResult :=
  let criteria :=
    match custom_criteria with
    | Some (c :: l) => c :: l
    | _ => default_criteria
    end in
  let (criteria_scores, total) := score_loop lead criteria [] f0_0 in
  let normalized_score := F64.min total f100_0 in
  {| total_score := normalized_score;
     criteria_scores := criteria_scores;
     result_label := _classify_lead normalized_score;
     raw_score := total |}.

(** ** The messenger ([messaging/messenger.py]) *)

Definition nl : string := String (ascii_of_nat 10) "".

Section Messenger.
(** [self.sender_org] *)
Variable sender_org : string.
(** [_generate_llm_message]: the call to the language model *)
Variable _generate_llm_message : Lead -> option string.

Definition _has_sufficient_data (lead : Lead) : bool :=
  let point (b : bool) : nat := if b then 1%nat else 0%nat in
  let data_points :=
    (point (truthy (company_name lead))
     + point (truthy (industry lead))
     + point (truthy (about_text lead)
              && Nat.ltb 50%nat (String.length (or_else (about_text lead) "")))
     + point (truthy (contact_name lead))
     + point (truthy (employees lead)))%nat in
  Nat.leb 2%nat data_points.

Definition signature : string :=
  nl ++ nl ++ "Best regards," ++ nl ++ sender_org.

Definition software_template (contact_ref company_ref : string) : string :=
  "Hi " ++ contact_ref ++ "," ++ nl ++ nl ++ "I came across " ++ company_ref
  ++ " in the software space and was impressed by your work. At "
  ++ sender_org
  ++ ", we help software companies optimize their operations and growth. I'd love to explore how we might add value to "
  ++ company_ref ++ "'s journey." ++ signature.

Definition consulting_template (contact_ref company_ref : string) : string :=
  "Hi " ++ contact_ref ++ "," ++ nl ++ nl ++ "I noticed " ++ company_ref
  ++ " in the consulting field and thought there might be synergies with our work at "
  ++ sender_org
  ++ ". We specialize in helping consulting firms enhance their client value proposition. Would you be open to a brief conversation?"
  ++ signature.

Definition ecommerce_template (contact_ref company_ref : string) : string :=
  "Hi " ++ contact_ref ++ "," ++ nl ++ nl ++ "I discovered " ++ company_ref
  ++ " in the e-commerce space and was intrigued by your approach. "
  ++ sender_org
  ++ " works with e-commerce businesses to streamline their operations and drive growth. I'd be keen to learn more about your current challenges and see if there's alignment with our expertise."
  ++ signature.

(** The default of [_get_industry_template]; [industry] is the text
    that [{lead.industry}] formats to. *)
Definition default_industry_template (contact_ref company_ref industry : string)
  : string :=
  "Hi " ++ contact_ref ++ "," ++ nl ++ nl ++ "I came across " ++ company_ref
  ++ " in the " ++ industry
  ++ " space and thought there could be value in a brief conversation. We at "
  ++ sender_org
  ++ " work with companies like yours to explore growth and efficiency opportunities."
  ++ signature.

Definition str_opt (o : option string) : string :=
  match o with Some s => s | None => "None" end.

Definition _get_industry_template (lead : Lead) : string :=
  let contact_ref := or_else (contact_name lead) "the team" in
  let company_ref := or_else (company_name lead) "your company" in
  let industry_key := replace " " "" (lower (or_else (industry lead) "")) in
  if String.eqb industry_key "software"
  then software_template contact_ref company_ref
  else if String.eqb industry_key "consulting"
  then consulting_template contact_ref company_ref
  else if String.eqb industry_key "ecommerce"
  then ecommerce_template contact_ref company_ref
  else default_industry_template contact_ref company_ref
         (str_opt (industry lead)).

Definition _get_generic_template (lead : Lead) : string :=
  let contact_ref := or_else (contact_name lead) "the team" in
  let company_ref := or_else (company_name lead) "your company" in
  "Hi " ++ contact_ref ++ "," ++ nl ++ nl ++ "I discovered " ++ company_ref
  ++ " and was interested in what you're building. At " ++ sender_org
  ++ ", we work with innovative companies to help them achieve their growth objectives. I'd love to learn more about your current initiatives and see if there's potential for collaboration."
  ++ signature.

Definition website_only_text (website company_ref : string) : string :=
  "Hi team," ++ nl ++ nl ++ "I visited " ++ website
  ++ " and was impressed by " ++ company_ref ++ "'s work. At " ++ sender_org
  ++ ", we help companies like yours navigate growth challenges and operational efficiencies. I'd be interested in exploring potential synergies."
  ++ signature.

Definition _get_website_only_template (lead : Lead) : string :=
  let website := or_else (Some (website lead)) "your website" in
  let company_ref := or_else (company_name lead) "your company" in
  website_only_text website company_ref.

Definition _generate_template_message (lead : Lead) : string :=
  if (truthy (company_name lead) && truthy (industry lead))%bool
  then _get_industry_template lead
  else if truthy (company_name lead)
  then _get_generic_template lead
  else _get_website_only_template lead.

Definition generate_message (lead : Lead) : string :=
  let template := _generate_template_message lead in
  if _has_sufficient_data lead then
    match _generate_llm_message lead with
    | Some (String c m) => String c m
    | _ => template
    end
  else template.
End Messenger.

(** ** The quota gate ([billing/subscription_service.py]) and the bulk
       endpoint ([api/endpoints/leads.py]) *)

(** The environment variables that the service reads: the integer that a
    cap parses to, and the text of a flag, when the variable is set. *)
Record Environ := {
  FREE_MAX_LEADS_PER_DAY : option Z;
  PRO_MAX_LEADS_PER_DAY : option Z;
  ENTERPRISE_MAX_LEADS_PER_DAY : option Z;
  CAN_EXPORT_FREE : option string;
  CAN_EXPORT_PRO : option string;
  CAN_EXPORT_ENTERPRISE : option string;
  CAN_USE_AI_FREE : option string;
  CAN_USE_AI_PRO : option string;
  CAN_USE_AI_ENTERPRISE : option string;
}.

Record Subscription := {
  sub_organization_id : Z;
  plan_name : string;
}.

(** The database session: the rows, and the clock's UTC day. *)
Record Db := {
  leads : list Lead;
  subscriptions : list Subscription;
  today : Z;
}.

Record PlanUsage := {
  u_plan_name : string;
  max_leads_per_day : Z;
  can_export : bool;
  can_use_ai : bool;
  current_usage : Z;
  remaining_daily_leads : Z;
  can_process_more_today : bool;
}.

Definition getenv {A : Type} (var : option A) (default : A) : A :=
  match var with Some x => x | None => default end.

Definition flag (var : option string) : bool :=
  String.eqb (lower (getenv var "false")) "true".

(** [_get_daily_usage] *)
Definition _get_daily_usage (db : Db) (org_id : Z) : Z :=
  Z.of_nat (List.length
    (filter (fun l => (organization_id l =? org_id)%Z
                      && (created_day l =? today db)%Z)%bool
            (leads db))).

Definition first_subscription (db : Db) (organization_id : Z)
  : option Subscription :=
  find (fun s => (sub_organization_id s =? organization_id)%Z)
       (subscriptions db).

(** [get_organization_usage] *)
Definition get_organization_usage (env : Environ) (db : Db)
           (organization_id : Z) : PlanUsage :=
  let plan_name :=
    match first_subscription db organization_id with
    | Some s => plan_name s
    | None => "free"
    end in
  let '(max_leads_per_day, can_export, can_use_ai) :=
    if String.eqb plan_name "pro"
    then (getenv (PRO_MAX_LEADS_PER_DAY env) 500,
          flag (CAN_EXPORT_PRO env), flag (CAN_USE_AI_PRO env))
    else if String.eqb plan_name "enterprise"
    then (getenv (ENTERPRISE_MAX_LEADS_PER_DAY env) 10000,
          flag (CAN_EXPORT_ENTERPRISE env), flag (CAN_USE_AI_ENTERPRISE env))
    else (getenv (FREE_MAX_LEADS_PER_DAY env) 10,
          flag (CAN_EXPORT_FREE env), flag (CAN_USE_AI_FREE env)) in
  let current_usage := _get_daily_usage db organization_id in
  let remaining_daily_leads := Z.max 0 (max_leads_per_day - current_usage) in
  {| u_plan_name := plan_name;
     max_leads_per_day := max_leads_per_day;
     can_export := can_export;
     can_use_ai := can_use_ai;
     current_usage := current_usage;
     remaining_daily_leads := remaining_daily_leads;
     can_process_more_today := (0 <? remaining_daily_leads)%Z |}.

(** [can_create_lead] *)
Definition can_create_lead (env : Environ) (db : Db) (organization_id : Z)
  : bool :=
  can_process_more_today (get_organization_usage env db organization_id).

Record User := {
  user_id : Z;
  user_organization_id : Z;
  is_active : bool;
}.

(** What a handler answers: a body, or an [HTTPException]. *)
Inductive response (A : Type) : Type :=
| OK (body : A)
| HTTPException (status_code : Z) (detail : string).
Arguments OK {A} body.
Arguments HTTPException {A} status_code detail.

(** The state that the handler works on: the database and the
    background tasks, a [process_lead_async] job for each lead id. *)
Record Server := {
  db : Db;
  background_tasks : list Z;
}.

(** [create_lead]: the row gets the next id and today's date. *)
Definition create_lead (db : Db) (url : string) (org owner : Z) : Lead * Db :=
  let i := 1 + fold_right Z.max 0 (map lead_id (leads db)) in
  let row := new_lead i org owner url (today db) in
  (row, {| leads := (leads db ++ [row])%list;
           subscriptions := subscriptions db; today := today db |}).

(** The loop of [create_leads_from_urls]. *)
Fixpoint create_all (current_user : User) (urls : list string)
         (created_leads : list Lead) (srv : Server) : list Lead * Server :=
  match urls with
  | [] => (created_leads, srv)
  | url :: urls' =>
      let (db_lead, db') :=
        create_lead (db srv) url (user_organization_id current_user)
                    (user_id current_user) in
      create_all current_user urls' (created_leads ++ [db_lead])%list
        {| db := db';
           background_tasks :=
             (background_tasks srv ++ [lead_id db_lead])%list |}
  end.

(** [create_leads_from_urls], for an authenticated user *)
Definition create_leads_from_urls (env : Environ) (current_user : User)
           (urls : list string) (srv : Server)
  : response (list Lead) * Server :=
  match urls with
  | [] => (HTTPException 400 "No URLs provided", srv)
  | _ =>
    if negb (can_create_lead env (db srv) (user_organization_id current_user))
    then (HTTPException 429
            "Daily lead limit exceeded for your subscription plan", srv)
    else
      let usage :=
        get_organization_usage env (db srv) (user_organization_id current_user) in
      if (remaining_daily_leads usage <? Z.of_nat (List.length urls))%Z
      then (HTTPException 429
              ("Cannot create " ++ str_nat (List.length urls)
               ++ " leads. Only " ++ str_Z (remaining_daily_leads usage)
               ++ " leads remaining for today."), srv)
      else
        let (created_leads, srv') := create_all current_user urls [] srv in
        (OK created_leads, srv')
  end.

(** ** Tokens ([auth/security.py]) and the refresh endpoint
       ([api/endpoints/auth.py]) *)

Section Auth.
(** [jwt.decode] with the secret key: the claims of a token whose
    signature and expiry are good, [None] for a [PyJWTError]. *)
Variable jwt_decode : string -> option dict.
(** [get_user] *)
Variable get_user : value -> option User.
(** [create_access_token] for a user id, valid for 30 minutes *)
Variable create_access_token : Z -> string.

Record TokenData := {
  td_user_id : value;
  td_token_type : value;
}.

Definition get_or_none (d : dict) (k : string) : value :=
  match dict_get d k with Some v => v | None => VNone end.

Definition is_str (v : value) (s : string) : bool :=
  match v with VStr s' => String.eqb s' s | _ => false end.

Definition is_none (v : value) : bool :=
  match v with VNone => true | _ => false end.

(** [verify_token] *)
Definition verify_token (token : string) : response TokenData :=
  match jwt_decode token with
  | Some payload =>
      let user_id := get_or_none payload "sub" in
      let token_type := get_or_none payload "type" in
      if (is_none user_id || negb (is_str token_type "access"))%bool
      then HTTPException 401 "Invalid token"
      else OK {| td_user_id := user_id; td_token_type := token_type |}
  | None => HTTPException 401 "Invalid token"
  end.

Record TokenResponse := {
  access_token : string;
  token_type : string;
}.

(** The body of the [try] of [refresh_token]. *)
Definition refresh_body (refresh_token : string) : response TokenResponse :=
  match verify_token refresh_token with
  | HTTPException c m => HTTPException c m
  | OK token_data =>
      if negb (is_str (td_token_type token_data) "refresh")
      then HTTPException 401 "Invalid refresh token"
      else
        match get_user (td_user_id token_data) with
        | Some user =>
            if is_active user
            then OK {| access_token := create_access_token (user_id user);
                       token_type := "bearer" |}
            else HTTPException 401 "User not found or inactive"
        | None => HTTPException 401 "User not found or inactive"
        end
  end.

(** [refresh_token]: every exception of the body, the [HTTPException]s
    too, is answered by the same 401. *)
Definition refresh_token (refresh_token : string) : response TokenResponse :=
  match refresh_body refresh_token with
  | OK r => OK r
  | HTTPException _ _ => HTTPException 401 "Invalid refresh token"
  end.
End Auth.

(** ** The tiered scraper ([scraping/scraper.py]) *)

Inductive ScrapingMethod :=
| JSON_LD | STRUCTURED_DATA | PLAYWRIGHT | REQUESTS | BEAUTIFULSOUP.

Record ScrapingResult := {
  success : bool;
  data : dict;
  method : ScrapingMethod;
  confidence : F64.float;
  processing_time : F64.float;
  error_message : option string;
}.

Definition failure (m : ScrapingMethod) (c : F64.float) (msg : string)
  : ScrapingResult :=
  {| success := false; data := []; method := m; confidence := c;
     processing_time := f0_0; error_message := Some msg |}.

Definition extracted (m : ScrapingMethod) (d : dict) (c : F64.float)
           (t : F64.float) : ScrapingResult :=
  {| success := true; data := d; method := m; confidence := c;
     processing_time := t; error_message := None |}.

Definition set_time (r : ScrapingResult) (t : F64.float) : ScrapingResult :=
  {| success := success r; data := data r; method := method r;
     confidence := confidence r; processing_time := t;
     error_message := error_message r |}.

(** Parsed JSON. *)
Local Unset Elimination Schemes.
Inductive json :=
| JNull
| JBool (b : bool)
| JInt (n : Z)
| JFloat (repr : string) (nonzero : bool)
| JStr (s : string)
| JArr (items : list json)
| JObj (members : list (string * json)).
Local Set Elimination Schemes.

Definition scalar (j : json) : value :=
  match j with
  | JNull => VNone
  | JBool b => VObj (if b then "True" else "False") b
  | JInt n => VInt n
  | JFloat r t => VObj r t
  | JStr s => VStr s
  | _ => VNone
  end.

(** [dict(items)]: a later item replaces an earlier one with its key. *)
Definition dict_of_items (items : list (string * value)) : dict :=
  fold_left (fun d kv => dict_set d (fst kv) (snd kv)) items [].

(** [d.update(d')] *)
Definition dict_update (d d' : dict) : dict :=
  fold_left (fun d kv => dict_set d (fst kv) (snd kv)) d' d.

Definition new_key (parent_key sep k : string) : string :=
  if String.eqb parent_key "" then k else parent_key ++ sep ++ k.

(** [_flatten_json]: the items of the flattened object, before [dict]
    is made of them. *)
Fixpoint flatten_items (obj : json) (parent_key sep : string)
  : list (string * value) :=
  match obj with
  | JObj members =>
      (fix members_items (l : list (string * json)) : list (string * value) :=
         match l with
         | [] => []
         | (k, v) :: l' =>
             let key := new_key parent_key sep k in
             (match v with
              | JObj _ | JArr _ => dict_of_items (flatten_items v key sep)
              | _ => [(key, scalar v)]
              end ++ members_items l')%list
         end) members
  | JArr items =>
      (fix array_items (i : nat) (l : list json) : list (string * value) :=
         match l with
         | [] => []
         | v :: l' =>
             let key := new_key parent_key sep (str_nat i) in
             (match v with
              | JObj _ | JArr _ => dict_of_items (flatten_items v key sep)
              | _ => [(key, scalar v)]
              end ++ array_items (S i) l')%list
         end) O items
  | _ => []
  end.

Definition _flatten_json (obj : json) : dict :=
  dict_of_items (flatten_items obj "" "_").

(** [score += inc] when the flag holds. *)
Definition bump (flag : bool) (inc : F64.float) (score : F64.float)
  : F64.float := if flag then score +. inc else score.

Definition business_properties : list string :=
  ["employeeCount"; "revenue"; "founded"; "industry"; "contactPoint";
   "location"; "logo"].

(** [_calculate_json_ld_confidence] *)
Definition _calculate_json_ld_confidence (data : dict) : F64.float :=
  let score := f0_0 in
  let score := bump (has_key data "name" || has_key data "legalName") f0_3 score in
  let score := bump (has_key data "description") f0_2 score in
  let score := bump (has_key data "url") f0_1 score in
  let score := bump (has_key data "email" || has_key data "telephone") f0_1 score in
  let score := bump (has_key data "address") f0_2 score in
  let score := bump (has_key data "foundingDate") f0_1 score in
  let score :=
    fold_left (fun score prop =>
                 bump (contains prop (lower (str_dict data))) f0_1 score)
              business_properties score in
  F64.min score f1_0.

(** [len(d.get("links", []))] *)
Definition links_len (d : dict) : nat :=
  match dict_get d "links" with
  | Some (VList l) => List.length l
  | _ => O
  end.

(** [_calculate_meta_confidence] *)
Definition _calculate_meta_confidence (data : dict) : F64.float :=
  let score := f0_0 in
  let score := bump (get_truthy data "title") f0_3 score in
  let score := bump (get_truthy data "description") f0_3 score in
  let score :=
    bump (get_truthy data "og_title" || get_truthy data "og_description")
         f0_2 score in
  let score := bump (Nat.ltb 0 (links_len data)) f0_1 score in
  let score := bump (get_truthy data "og_image") f0_1 score in
  F64.min score f1_0.

(** [_calculate_playwright_confidence] *)
Definition _calculate_playwright_confidence (data : dict) : F64.float :=
  let score := f0_3 in
  let score := bump (get_truthy data "title") f0_2 score in
  let score :=
    bump (get_truthy data "meta_description" || get_truthy data "og_description")
         f0_2 score in
  let score := bump (get_truthy data "email") f0_2 score in
  let score := bump (get_truthy data "phone") f0_1 score in
  let score :=
    bump (get_truthy data "links" && Nat.ltb 5 (links_len data)) f0_1 score in
  let score := bump (get_truthy data "potential_company_name") f0_1 score in
  F64.min score f1_0.

(** What the outside world gives to one call of a tier. *)

(** An exception with its text. *)
Inductive try (A : Type) : Type :=
| Done (a : A)
| Failed (msg : string).
Arguments Done {A} a.
Arguments Failed {A} msg.

(** An HTTP GET: an exception with its text, raised before there is a
    response, or a response.  The body of a response is read and parsed
    only when the status is 200; [page] is what the parser finds in it,
    or the exception that reading or parsing it raises. *)
Inductive http (A : Type) : Type :=
| Threw (msg : string)
| Responded (status : Z) (page : try A).
Arguments Threw {A} msg.
Arguments Responded {A} status page.

(** A [<script type="application/ld+json">] under [json.loads]. *)
Inductive script :=
| Parsed (j : json)
| JSONDecodeError
| OtherError (msg : string).

(** What [BeautifulSoup] finds for the meta tier. *)
Record MetaPage := {
  title_tag : option string;              (** [get_text()] of [<title>] *)
  desc_tag : option string;               (** [content] of the description *)
  og_tags : list (string * string);       (** [property], [content] *)
  twitter_tags : list (string * string);  (** [name], [content] *)
  hrefs : list string;
}.

(** What [BeautifulSoup] finds for the plain-request fallback. *)
Record PlainPage := {
  p_title_tag : option string;
  p_desc_tag : option string;
  p_og_desc : option string;
  p_scripts : list script;
  p_body_text : string;
  p_hrefs : list string;
}.

(** A run of the headless browser. *)
Inductive browser_run :=
| NotInstalled
| LaunchFailed (msg : string)
| RunThrew (msg : string)
| Evaluated (status : option Z) (data : option dict).

Record World := {
  session : bool;                         (** [self.session is not None] *)
  get_json_ld : http (list script);
  get_meta : http MetaPage;
  browser : browser_run;
  requests_get : http PlainPage;
  netloc : try string;                    (** [urlparse(url).netloc] *)
  fallback_time : F64.float;
    (** [time.time() - start_time] when the fallback returns *)
}.

(** The loop over the scripts of [_extract_json_ld]. *)
Fixpoint collect_json_ld (scripts : list script) (all_data : dict) : try dict :=
  match scripts with
  | [] => Done all_data
  | Parsed (JArr items) :: scripts' =>
      collect_json_ld scripts'
        (fold_left (fun acc item => dict_update acc (_flatten_json item))
                   items all_data)
  | Parsed json_data :: scripts' =>
      collect_json_ld scripts' (dict_update all_data (_flatten_json json_data))
  | JSONDecodeError :: scripts' => collect_json_ld scripts' all_data
  | OtherError msg :: _ => Failed msg
  end.

(** [_extract_json_ld] *)
Definition _extract_json_ld (w : World) : ScrapingResult :=
  if negb (session w) then failure JSON_LD f0_0 "Session is not initialized"
  else
    match get_json_ld w with
    | Threw msg => failure JSON_LD f0_0 msg
    | Responded status page =>
        if negb (status =? 200)%Z
        then failure JSON_LD f0_0 ("HTTP " ++ str_Z status)
        else
          match page with
          | Failed msg => failure JSON_LD f0_0 msg
          | Done [] => failure JSON_LD f0_0 "No JSON-LD found"
          | Done json_ld_scripts =>
              match collect_json_ld json_ld_scripts [] with
              | Failed msg => failure JSON_LD f0_0 msg
              | Done [] => failure JSON_LD f0_0 "Invalid JSON-LD"
              | Done all_data =>
                  extracted JSON_LD all_data
                    (_calculate_json_ld_confidence all_data) f0_0
              end
          end
    end.

Section Links.
(** [urljoin(url, href)]: the joined URL, or the [ValueError] that it
    raises. *)
Variable urljoin : string -> try string.

(** The loop over the links: an exception of [urljoin] ends it. *)
Fixpoint meta_links (hrefs : list string) (links : list string)
  : try (list string) :=
  match hrefs with
  | [] => Done links
  | href :: hrefs' =>
      if (startswith "http://" href || startswith "https://" href)%bool
      then meta_links hrefs' (links ++ [href])%list
      else if startswith "/" href
      then match urljoin href with
           | Done joined => meta_links hrefs' (links ++ [joined])%list
           | Failed msg => Failed msg
           end
      else meta_links hrefs' links
  end.

(** The tags of one family, keyed by their name without its prefix. *)
Definition add_tags (prefix key_prefix : string)
           (tags : list (string * string)) (data : dict) : dict :=
  fold_left (fun data tag =>
               let prop := replace prefix "" (fst tag) in
               if String.eqb prop "" then data
               else dict_set data (key_prefix ++ prop) (VStr (strip (snd tag))))
            tags data.

Definition meta_data (page : MetaPage) : try dict :=
  let data := [] in
  let data :=
    match title_tag page with
    | Some t => dict_set data "title" (VStr (strip t))
    | None => data
    end in
  let data :=
    match desc_tag page with
    | Some c => dict_set data "description" (VStr (strip c))
    | None => data
    end in
  let data := add_tags "og:" "og_" (og_tags page) data in
  let data := add_tags "twitter:" "twitter_" (twitter_tags page) data in
  match meta_links (hrefs page) [] with
  | Done links => Done (dict_set data "links" (VList links))
  | Failed msg => Failed msg
  end.

(** [_extract_meta_data] *)
Definition _extract_meta_data (w : World) : ScrapingResult :=
  if negb (session w)
  then failure STRUCTURED_DATA f0_0 "Session is not initialized"
  else
    match get_meta w with
    | Threw msg => failure STRUCTURED_DATA f0_0 msg
    | Responded status page =>
        if negb (status =? 200)%Z
        then failure STRUCTURED_DATA f0_0 ("HTTP " ++ str_Z status)
        else
          match page with
          | Failed msg => failure STRUCTURED_DATA f0_0 msg
          | Done soup =>
              match meta_data soup with
              | Failed msg => failure STRUCTURED_DATA f0_0 msg
              | Done data =>
                  let confidence := _calculate_meta_confidence data in
                  match data with
                  | [] => failure STRUCTURED_DATA f0_0 "No meta data found"
                  | _ => extracted STRUCTURED_DATA data confidence f0_0
                  end
              end
          end
    end.
End Links.

(** [repr] of parsed JSON, as Python shows its objects. *)
Fixpoint repr_json (j : json) : string :=
  match j with
  | JNull => "None"
  | JBool b => if b then "True" else "False"
  | JInt n => str_Z n
  | JFloat r _ => r
  | JStr s => repr_str s
  | JArr items => "[" ++ join ", " (map repr_json items) ++ "]"
  | JObj members =>
      "{" ++ join ", " (map (fun '(k, v) => repr_str k ++ ": " ++ repr_json v)
                            members) ++ "}"
  end.

Definition alnum : cls := Or Lower (Or Upper Digit).
Definition letter : cls := Or Lower Upper.

(** [([a-zA-Z0-9._%+-]+@[a-zA-Z0-9.-]+\.[a-zA-Z]{2,})] *)
Definition email_pattern : regex :=
  Grp (Plus (Cls (Or alnum (OneOf "._%+-"))) >> Chr "@"
       >> Plus (Cls (Or alnum (OneOf ".-"))) >> Chr "."
       >> Cls letter >> Cls letter >> Opt (Plus (Cls letter)))%re.

Definition sep : regex := Opt (Cls (Or (OneOf "-.") Space)).

(** [(\+?\d{1,2}[-.\s]?\(?\d{3}\)?[-.\s]?\d{3}[-.\s]?\d{4})] *)
Definition phone_pattern : regex :=
  Grp (Opt (Chr "+") >> dg >> Opt dg >> sep >> Opt (Chr "(")
       >> dg >> dg >> dg >> Opt (Chr ")") >> sep
       >> dg >> dg >> dg >> sep >> dg >> dg >> dg >> dg)%re.

Fixpoint parsed_scripts (scripts : list script) : list json :=
  match scripts with
  | [] => []
  | Parsed j :: scripts' => j :: parsed_scripts scripts'
  | _ :: scripts' => parsed_scripts scripts'
  end.

Definition set_if (k : string) (o : option string) (data : dict) : dict :=
  match o with
  | Some s => dict_set data k (VStr s)
  | None => data
  end.

(** The data of the fallback, up to the company name: all that is taken
    of the parsed page. *)
Definition plain_data (page : PlainPage) : dict :=
  let data := [] in
  let data := set_if "title" (option_map strip (p_title_tag page)) data in
  let data := set_if "meta_description" (option_map strip (p_desc_tag page)) data in
  let data := set_if "og_description" (option_map strip (p_og_desc page)) data in
  let jsonld_data := parsed_scripts (p_scripts page) in
  let data :=
    dict_set data "jsonld"
      (VObj (repr_json (JArr jsonld_data))
            (match jsonld_data with [] => false | _ => true end)) in
  let text_content := substring 0 (8 * 1000) (p_body_text page) in
  let data := dict_set data "text_content" (VStr text_content) in
  let links :=
    filter (fun href =>
              (startswith "http://" href || startswith "https://" href)%bool)
           (p_hrefs page) in
  let data := dict_set data "links" (VList links) in
  let text_lower := lower text_content in
  let data := set_if "email" (findall_first false email_pattern text_lower) data in
  set_if "phone" (findall_first false phone_pattern text_lower) data.

(** The company name from the domain. *)
Definition with_company_name (domain_netloc : string) (data : dict) : dict :=
  let domain := replace "www." "" domain_netloc in
  dict_set data "potential_company_name" (VStr (before_dot domain)).

(** [_scrape_with_requests_fallback] *)
Definition _scrape_with_requests_fallback (w : World) : ScrapingResult :=
  match requests_get w with
  | Threw msg => failure REQUESTS f0_0 msg
  | Responded status page =>
      if negb (status =? 200)%Z
      then set_time (failure REQUESTS f0_0 ("HTTP " ++ str_Z status))
                    (fallback_time w)
      else
        match page with
        | Failed msg => failure REQUESTS f0_0 msg
        | Done soup =>
            let data := plain_data soup in
            match netloc w with
            | Failed msg => failure REQUESTS f0_0 msg
            | Done domain_netloc =>
                match with_company_name domain_netloc data with
                | [] =>
                    set_time
                      (failure REQUESTS f0_2
                         "No data extracted by requests fallback")
                      (fallback_time w)
                | data =>
                    extracted REQUESTS data
                      (_calculate_playwright_confidence data *. f0_8)
                      (fallback_time w)
                end
            end
        end
  end.

(** The test that turns a failure of the browser into the fallback. *)
Definition is_platform_error (msg : string) : bool :=
  (contains "NotImplementedError" msg || contains "subprocess" (lower msg))%bool.

(** [_scrape_with_playwright]; the record tells whether the fallback was
    called. *)
Definition _scrape_with_playwright (w : World)
  : traced ScrapingMethod ScrapingResult :=
  _ <- ran PLAYWRIGHT tt ;;
  match browser w with
  | NotInstalled => tret (failure PLAYWRIGHT f0_0 "Playwright not installed")
  | LaunchFailed msg =>
      if is_platform_error msg
      then ran REQUESTS (_scrape_with_requests_fallback w)
      else tret (failure PLAYWRIGHT f0_0 ("Browser launch failed: " ++ msg))
  | RunThrew msg =>
      if is_platform_error msg
      then ran REQUESTS (_scrape_with_requests_fallback w)
      else tret (failure PLAYWRIGHT f0_0 msg)
  | Evaluated status data =>
      match status with
      | Some st =>
          if negb (st =? 200)%Z
          then tret (failure PLAYWRIGHT f0_0 ("HTTP " ++ str_Z st))
          else
            match data with
            | Some (kv :: d) =>
                tret (extracted PLAYWRIGHT (kv :: d)
                        (_calculate_playwright_confidence (kv :: d)) f0_0)
            | _ => tret (failure PLAYWRIGHT f0_3 "No data extracted by Playwright")
            end
      | None =>
          match data with
          | Some (kv :: d) =>
              tret (extracted PLAYWRIGHT (kv :: d)
                      (_calculate_playwright_confidence (kv :: d)) f0_0)
          | _ => tret (failure PLAYWRIGHT f0_3 "No data extracted by Playwright")
          end
      end
  end.

Definition gate (g : F64.float) (result : ScrapingResult) : bool :=
  (success result && F64.gtb (confidence result) g)%bool.

Section Scrape.
Variable urljoin : string -> try string.

(** [scrape]; [elapsed] is the clock reading at the return. *)
Definition scrape (w : World) (elapsed : F64.float)
  : traced ScrapingMethod ScrapingResult :=
  result <- ran JSON_LD (_extract_json_ld w) ;;
  if gate f0_7 result then tret (set_time result elapsed)
  else
    result <- ran STRUCTURED_DATA (_extract_meta_data urljoin w) ;;
    if gate f0_5 result then tret (set_time result elapsed)
    else
      result <- _scrape_with_playwright w ;;
      tret (set_time result elapsed).
End Scrape.

(** * Sample inputs *)

(** The failing input of C9: a token that decodes to the claims of a
    refresh token ([sub] = "1", [type] = "refresh") of an active user. *)
Definition decode_refresh (token : string) : option dict :=
  if String.eqb token "valid-refresh-token"
  then Some [("sub", VStr "1"); ("exp", VInt 4102444800); ("type", VStr "refresh")]
  else None.

Definition user_1 (v : value) : option User :=
  Some {| user_id := 1; user_organization_id := 1; is_active := true |}.


(** No variable set: the defaults of the source. *)
Definition environ0 : Environ :=
  {| FREE_MAX_LEADS_PER_DAY := None; PRO_MAX_LEADS_PER_DAY := None;
     ENTERPRISE_MAX_LEADS_PER_DAY := None;
     CAN_EXPORT_FREE := None; CAN_EXPORT_PRO := None;
     CAN_EXPORT_ENTERPRISE := None;
     CAN_USE_AI_FREE := None; CAN_USE_AI_PRO := None;
     CAN_USE_AI_ENTERPRISE := None |}.

Definition user0 : User :=
  {| user_id := 1; user_organization_id := 1; is_active := true |}.

(** Organization 1, on the free plan, with [n] leads made today. *)
Definition server_with (n : nat) : Server :=
  {| db := {| leads := map (fun i => new_lead (Z.of_nat i) 1 1
                                       "https://example.com" 0)
                           (seq 1 n);
              subscriptions := [ {| sub_organization_id := 1;
                                    plan_name := "free" |} ];
              today := 0 |};
     background_tasks := [] |}.

(** C7 as the specification words it, for one request. *)
Definition quota_claim_as_stated (env : Environ) (current_user : User)
           (urls : list string) (srv : Server) : Prop :=
  let remaining :=
    remaining_daily_leads
      (get_organization_usage env (db srv) (user_organization_id current_user)) in
  let (answer, srv') := create_leads_from_urls env current_user urls srv in
  (remaining = 0 ->
   (exists detail, answer = HTTPException 429 detail) /\ srv' = srv)
  /\ (remaining < Z.of_nat (List.length urls) ->
      answer = HTTPException 429
                 ("Cannot create " ++ str_nat (List.length urls)
                  ++ " leads. Only " ++ str_Z remaining
                  ++ " leads remaining for today.")
      /\ srv' = srv).

(** A lead with the given company name, industry and about text, and
    the defaults elsewhere. *)
Definition lead_of (company industry about : option string) : Lead :=
  {| lead_id := 1; organization_id := 1; owner_id := 1;
     company_name := company; website := "https://example.com";
     industry := industry; about_text := about;
     contact_name := None; contact_title := None;
     email := None; phone := None; linkedin_url := None;
     employees := None; revenue_band := None; founded_year := None;
     score := f0_0; qualification_label := "Low Priority";
     scrape_confidence := f0_0; email_confidence := f0_0;
     enrichment_confidence := f0_0;
     enrichment_source := "none"; scrape_source := "none";
     outreach_message := None; created_day := 0 |}.

(** The page of the scraping scenario: one JSON-LD block, an
    [Organization] with a name, a description, a URL and an address. *)
Definition organization_json : json :=
  JObj [ ("@context", JStr "https://schema.org");
         ("@type", JStr "Organization");
         ("name", JStr "Acme");
         ("description", JStr "Acme makes anvils");
         ("url", JStr "https://acme.io");
         ("address", JStr "1 Main Street, Springfield") ].

Definition organization_world : World :=
  {| session := true;
     get_json_ld := Responded 200 (Done [Parsed organization_json]);
     get_meta := Threw "not fetched";
     browser := NotInstalled;
     requests_get := Threw "not fetched";
     netloc := Done "acme.io";
     fallback_time := f0_0 |}.

(** The same organization with its address as a [PostalAddress] object. *)
Definition organization_json_nested : json :=
  JObj [ ("@type", JStr "Organization");
         ("name", JStr "Acme");
         ("description", JStr "Acme makes anvils");
         ("url", JStr "https://acme.io");
         ("address", JObj [ ("@type", JStr "PostalAddress");
                            ("streetAddress", JStr "1 Main Street") ]) ].

(** * Notions used in the proofs *)

(** The loop of a repetition, over the matcher of its body. *)
Section PlusLoop.
Context {R : Type}.
Variable body : string -> option string ->
                (string -> option string -> option R) -> option R.
Variable k : string -> option string -> option R.

Fixpoint plus_loop (n : nat) (s : string) (cap : option string) : option R :=
  body s cap (fun s' cap' =>
    match n with
    | O => k s' cap'
    | S n' =>
        if Nat.ltb (String.length s') (String.length s)
        then orelse (plus_loop n' s' cap') (k s' cap')
        else k s' cap'
    end).
End PlusLoop.

(** A pattern without a group. *)
Fixpoint nogrp (r : regex) : bool :=
  match r with
  | Eps | Chr _ | Cls _ => true
  | Cat a b | Alt a b => (nogrp a && nogrp b)%bool
  | Opt a | Plus a => nogrp a
  | Grp _ => false
  end.

(** The least and the greatest length of a text that a pattern without
    repetition and group matches. *)
Fixpoint bounds (r : regex) : option (nat * nat) :=
  match r with
  | Eps => Some (0, 0)%nat
  | Chr _ | Cls _ => Some (1, 1)%nat
  | Cat a b =>
      match bounds a, bounds b with
      | Some (la, ha), Some (lb, hb) => Some (la + lb, ha + hb)%nat
      | _, _ => None
      end
  | Alt a b =>
      match bounds a, bounds b with
      | Some (la, ha), Some (lb, hb) => Some (Nat.min la lb, Nat.max ha hb)
      | _, _ => None
      end
  | Opt a =>
      match bounds a with
      | Some (_, ha) => Some (0%nat, ha)
      | None => None
      end
  | Plus _ | Grp _ => None
  end.

(** The text [n] as two digits. *)
Definition two_digits (n : nat) : string :=
  String (ascii_of_nat (48 + Nat.div n 10))
         (String (ascii_of_nat (48 + Nat.modulo n 10)) "").

(** C4 as the specification words it, for the two-digit year [n]. *)
Definition two_digit_claim_as_stated (n : nat) : Prop :=
  _extract_founded_year ("founded in '" ++ two_digits n)
  = Ret (Some (if Nat.ltb n 50 then 2000 + Z.of_nat n else 1900 + Z.of_nat n)%Z).

(** The text of the enrichment scenario. *)
Definition scenario_text : string :=
  "We are a 120-person SaaS platform founded in 2014".
Definition scenario_scraped : dict := [("text_content", VStr scenario_text)].

(** No credential for the language model. *)
Definition no_credential : LlmEnv :=
  {| langchain_installed := true; GROQ_API_KEY := None;
     chain_invoke := fun _ _ _ => LlmFailed |}.

(** C3 as the specification words it. *)
Definition heuristic_claim_as_stated (lead : Lead) : Prop :=
  exists r,
    _heuristic_enrichment lead scenario_scraped = Some r
    /\ dict_get (e_data r) "industry" = Some (VStr "Software")
    /\ dict_get (e_data r) "employees" = Some (VStr "51-200")
    /\ dict_get (e_data r) "revenue_band" = Some (VStr "$10M-50M")
    /\ dict_get (e_data r) "founded_year" = Some (VInt 2014)
    /\ F64.gtb (e_confidence r) f0_7 = true.

(** A number that is not NaN and not below zero. *)
Definition nonneg (x : F64.float) : bool :=
  match x with
  | S754_zero _ => true
  | S754_infinity s => negb s
  | S754_finite s _ _ => negb s
  | S754_nan => false
  end.

(** The values of the six default criteria for a lead. *)
Definition industry_points (lead : Lead) : F64.float :=
  if one_of (industry lead)
       ["Software"; "SaaS"; "Technology"; "Fintech"; "Healthcare";
        "E-commerce"; "AI"; "Data"]
  then f25_0 else f0_0.
Definition size_points (lead : Lead) : F64.float :=
  if one_of (employees lead) ["11-50"; "51-200"; "201-500"]
  then f20_0 else f0_0.
Definition quality_points (confidence : F64.float) : F64.float :=
  if F64.geb confidence f0_6 then f15_0 *. F64.div confidence f1_0 else f0_0.
Definition linkedin_points (lead : Lead) : F64.float :=
  if truthy (linkedin_url lead) then f10_0 else f0_0.

(** Their sum, in the order of the loop. *)
Definition points_sum (lead : Lead) : F64.float :=
  f0_0 +. industry_points lead +. size_points lead
  +. quality_points (email_confidence lead)
  +. quality_points (scrape_confidence lead)
  +. quality_points (enrichment_confidence lead)
  +. linkedin_points lead.

(** The sum of the recorded scores, in their order. *)
Definition sum_scores (l : list (string * F64.float)) : F64.float :=
  fold_left (fun t kv => t +. snd kv) l f0_0.

(** [0 <= x <= hi] *)
Definition between_0 (hi x : F64.float) : bool :=
  (F64.leb F64.zero x && F64.leb x hi)%bool.

(** [0 <= x <= 1] *)
Definition in_unit (x : F64.float) : bool := between_0 f1_0 x.

(** * More of the scorer ([domain/services/scoring.py]) *)

Definition fsub : F64.float -> F64.float -> F64.float := SFsub F64.prec F64.emax.
Definition fabs : F64.float -> F64.float := SFabs.

(** [sum(c.weight for c in criteria)]: the sum starts from 0. *)
Definition sum_weights (criteria : list ScoringCriteria) : F64.float :=
  fold_left (fun t c => t +. weight c) criteria F64.zero.

(** [get_scoring_config] *)
Definition get_scoring_config (organization_id : Z) : list ScoringCriteria :=
  default_criteria.

(** [update_scoring_config]: the validation, which is all it does. *)
Definition update_scoring_config (organization_id : Z)
           (criteria : list ScoringCriteria) : bool :=
  let total_weight := sum_weights criteria in
  if F64.gtb (fabs (fsub total_weight f1_0)) (F64.lit 1 100) then false
  else true.

Definition with_weight (w : F64.float) (c : ScoringCriteria) : ScoringCriteria :=
  {| name := name c; weight := w; threshold := threshold c;
     max_score := max_score c; description := description c |}.

(** [next((c for c in self.default_criteria if c.name == name), None)] *)
Definition original_criterion (n : string) : option ScoringCriteria :=
  find (fun c => String.eqb (name c) n) default_criteria.

(** The loop that makes [temp_criteria] of the custom weights. *)
Fixpoint temp_criteria (custom_weights : list (string * F64.float))
  : list ScoringCriteria :=
  match custom_weights with
  | [] => []
  | (n, w) :: rest =>
      match original_criterion n with
      | Some original => with_weight w original :: temp_criteria rest
      | None => temp_criteria rest
      end
  end.

(** The normalization of the weights. *)
Definition normalize_weights (criteria : list ScoringCriteria)
  : list ScoringCriteria :=
  let total_weight := sum_weights criteria in
  if F64.gtb total_weight F64.zero
  then map (fun c => with_weight (F64.div (weight c) total_weight) c) criteria
  else criteria.

(** [calculate_custom_score]; [temp_lead] is the lead made of
    [lead_data]. *)
Definition calculate_custom_score (temp_lead : Lead)
           (custom_weights : list (string * F64.float)) : ScoreResult :=
  score_lead temp_lead (Some (normalize_weights (temp_criteria custom_weights))).

(** The default criteria of the given names, in their order; a name
    that is not a default criterion's is passed over. *)
Fixpoint criteria_named (names : list string) : list ScoringCriteria :=
  match names with
  | [] => []
  | n :: rest =>
      match original_criterion n with
      | Some original => original :: criteria_named rest
      | None => criteria_named rest
      end
  end.

(** * More notions used in the proofs *)

(** The table entry [(n, keywords)] is the first of the greatest keyword
    score in [table], and its score is not 0. *)
Definition first_best (text : string) (table : list (string * list string))
           (n : string) : Prop :=
  exists keywords before after,
    table = (before ++ (n, keywords) :: after)%list
    /\ (0 < keyword_score text keywords)%nat
    /\ (forall x, In x before ->
                  (keyword_score text (snd x) < keyword_score text keywords)%nat)
    /\ (forall x, In x after ->
                  (keyword_score text (snd x) <= keyword_score text keywords)%nat).

(** Every character of the text is in the class. *)
Fixpoint all_in (p : ascii -> bool) (s : string) : bool :=
  match s with
  | EmptyString => true
  | String c s' => (p c && all_in p s')%bool
  end.

(** What a match of the pattern has for the text of its group. *)
Definition captures (ic : bool) (r : regex) (P : string -> Prop) : Prop :=
  forall (R : Type) (s : string) (cap : option string)
         (k : string -> option string -> option R) (x : R),
    rmatch ic r s cap k = Some x ->
    exists s' w, P w /\ k s' (Some w) = Some x.

(** What a match of a pattern without group takes from the text. *)
Definition consumes (ic : bool) (r : regex) (P : string -> Prop) : Prop :=
  forall (R : Type) (s : string) (cap : option string)
         (k : string -> option string -> option R) (x : R),
    rmatch ic r s cap k = Some x ->
    exists w s', s = w ++ s' /\ P w /\ k s' cap = Some x.

Definition employee_bands : list string :=
  ["1-10"; "11-50"; "51-200"; "201-500"; "500+"].

(** * More of the scraper *)

(** The body of [_calculate_json_ld_confidence], over the list of the
    business properties. *)
Definition json_ld_score (properties : list string) (data : dict) : F64.float :=
  let score := f0_0 in
  let score := bump (has_key data "name" || has_key data "legalName") f0_3 score in
  let score := bump (has_key data "description") f0_2 score in
  let score := bump (has_key data "url") f0_1 score in
  let score := bump (has_key data "email" || has_key data "telephone") f0_1 score in
  let score := bump (has_key data "address") f0_2 score in
  let score := bump (has_key data "foundingDate") f0_1 score in
  let score :=
    fold_left (fun score prop =>
                 bump (contains prop (lower (str_dict data))) f0_1 score)
              properties score in
  F64.min score f1_0.

(** The business properties that are written in lower case. *)
Definition lowercase_properties : list string :=
  ["revenue"; "founded"; "industry"; "location"; "logo"].

(** A page without anything, answered 200. *)
Definition empty_page : MetaPage :=
  {| title_tag := None; desc_tag := None; og_tags := []; twitter_tags := [];
     hrefs := [] |}.

Definition empty_plain_page : PlainPage :=
  {| p_title_tag := None; p_desc_tag := None; p_og_desc := None;
     p_scripts := []; p_body_text := ""; p_hrefs := [] |}.

Definition empty_world (with_session : bool) : World :=
  {| session := with_session;
     get_json_ld := Responded 200 (Done []);
     get_meta := Responded 200 (Done empty_page);
     browser := LaunchFailed "NotImplementedError";
     requests_get := Responded 200 (Done empty_plain_page);
     netloc := Done "";
     fallback_time := f0_1 |}.

(** [urljoin] for a site: the path after the origin. *)
Definition join_acme (href : string) : try string :=
  Done ("https://acme.io" ++ href).

(** A page with a link that [urljoin] refuses. *)
Definition bad_link_world : World :=
  {| session := true;
     get_json_ld := Responded 200 (Done []);
     get_meta :=
       Responded 200
         (Done {| title_tag := Some "Acme"; desc_tag := None; og_tags := [];
                  twitter_tags := []; hrefs := ["/about"; "//["] |});
     browser := LaunchFailed "NotImplementedError";
     requests_get := Responded 200 (Done empty_plain_page);
     netloc := Failed "Invalid IPv6 URL";
     fallback_time := f0_1 |}.
Definition join_strict (href : string) : try string :=
  if String.eqb href "//[" then Failed "Invalid IPv6 URL"
  else Done ("https://acme.io" ++ href).

(** * More of the messenger *)

(** [context], as [_build_context] makes it. *)
Record Context := {
  c_company_name : string;
  c_industry : string;
  c_about_text : string;
  c_contact_name : string;
  c_employees : string;
  c_website : string;
  c_sender_org : string;
}.

Definition _build_context (sender_org : string) (lead : Lead) : Context :=
  {| c_company_name := or_else (company_name lead) "their company";
     c_industry := or_else (industry lead) "their industry";
     c_about_text := or_else (about_text lead) "";
     c_contact_name := or_else (contact_name lead) "the team";
     c_employees := or_else (employees lead) "";
     c_website := website lead;
     c_sender_org := sender_org |}.

(** [_validate_response] *)
Definition _validate_response (response : string) (context : Context) : string :=
  if negb (String.eqb (c_company_name context) "their company")
  then
    if negb (contains (lower (c_company_name context)) (lower response))
    then "Hi " ++ c_company_name context ++ " team," ++ nl ++ nl ++ response
    else response
  else response.

(** [s.split("\n")] *)
Fixpoint split_lines (s : string) : list string :=
  match s with
  | EmptyString => [EmptyString]
  | String c s' =>
      if Ascii.eqb c (ascii_of_nat 10) then EmptyString :: split_lines s'
      else match split_lines s' with
           | line :: lines => String c line :: lines
           | [] => [String c EmptyString]
           end
  end.

Inductive MessageStyle := PROFESSIONAL | FRIENDLY | SHORT.

(** [_make_professional] *)
Definition _make_professional (sender_org message : string) : string :=
  let message := replace "Hi " "Dear " message in
  if negb (contains "Best regards," message)
  then message ++ nl ++ nl ++ "Best regards," ++ nl ++ sender_org
  else message.

(** [_make_friendly] *)
Definition _make_friendly (message : string) : string :=
  let message := replace "Dear " "Hi " message in
  if contains "Best regards," message
  then replace "Best regards," "Cheers," message
  else message.

(** [_make_short] *)
Definition _make_short (message : string) : string :=
  let lines := split_lines message in
  if Nat.ltb 4 (List.length lines) then join nl (firstn 4 lines) else message.

(** [generate_message_with_style] *)
Definition generate_message_with_style (sender_org : string)
           (llm : Lead -> option string) (lead : Lead) (style : MessageStyle)
  : string :=
  let base_message := generate_message sender_org llm lead in
  match style with
  | PROFESSIONAL => _make_professional sender_org base_message
  | FRIENDLY => _make_friendly base_message
  | SHORT => _make_short base_message
  end.

(** A text without a newline. *)
Definition one_line (s : string) : bool :=
  all_in (fun c => negb (Ascii.eqb c (ascii_of_nat 10))) s.

Definition acme_context : Context :=
  {| c_company_name := "Acme"; c_industry := "their industry";
     c_about_text := ""; c_contact_name := "the team"; c_employees := "";
     c_website := "https://acme.io"; c_sender_org := "Our Company" |}.

(** * More of the lead endpoints ([api/endpoints/leads.py]) and of the
      subscription service ([billing/subscription_service.py]) *)

(** The body of [POST /leads/single]. *)
Record LeadCreate := {
  lc_website : string;
  lc_organization_id : Z;
  lc_owner_id : Z;
}.

(** [create_lead_endpoint], for an authenticated user *)
Definition create_lead_endpoint (env : Environ) (current_user : User)
           (lead : LeadCreate) (srv : Server) : response Lead * Server :=
  if negb (user_organization_id current_user =? lc_organization_id lead)%Z
  then (HTTPException 403
          "Not authorized to create leads for this organization", srv)
  else if negb (user_id current_user =? lc_owner_id lead)%Z
  then (HTTPException 403 "Not authorized to create leads for this owner", srv)
  else if negb (can_create_lead env (db srv) (user_organization_id current_user))
  then (HTTPException 429
          "Daily lead limit exceeded for your subscription plan", srv)
  else
    let (db_lead, db') :=
      create_lead (db srv) (lc_website lead) (lc_organization_id lead)
                  (lc_owner_id lead) in
    (OK db_lead,
     {| db := db';
        background_tasks := (background_tasks srv ++ [lead_id db_lead])%list |}).

(** [get_lead] *)
Definition get_lead (db : Db) (id : Z) : option Lead :=
  find (fun l => (lead_id l =? id)%Z) (leads db).

(** [get_leads_by_organization], for an offset and a limit that are not
    negative. *)
Definition get_leads_by_organization (db : Db) (org_id : Z) (skip limit : nat)
  : list Lead :=
  firstn limit
    (skipn skip (filter (fun l => (organization_id l =? org_id)%Z) (leads db))).

(** [read_leads] *)
Definition read_leads (current_user : User) (skip limit : nat) (db : Db)
  : list Lead :=
  get_leads_by_organization db (user_organization_id current_user) skip limit.

(** [read_lead] *)
Definition read_lead (current_user : User) (id : Z) (db : Db) : response Lead :=
  match get_lead db id with
  | None => HTTPException 404 "Lead not found"
  | Some lead =>
      if negb (organization_id lead =? user_organization_id current_user)%Z
      then HTTPException 403 "Not authorized to access this lead"
      else OK lead
  end.

(** [can_use_ai_features] *)
Definition can_use_ai_features (env : Environ) (db : Db) (organization_id : Z)
  : bool :=
  let plan_name :=
    match first_subscription db organization_id with
    | Some s => plan_name s
    | None => "free"
    end in
  if String.eqb plan_name "pro" then flag (CAN_USE_AI_PRO env)
  else if String.eqb plan_name "enterprise" then flag (CAN_USE_AI_ENTERPRISE env)
  else flag (CAN_USE_AI_FREE env).

(** [can_export_data] *)
Definition can_export_data (env : Environ) (db : Db) (organization_id : Z)
  : bool :=
  let plan_name :=
    match first_subscription db organization_id with
    | Some s => plan_name s
    | None => "free"
    end in
  if String.eqb plan_name "pro" then flag (CAN_EXPORT_PRO env)
  else if String.eqb plan_name "enterprise" then flag (CAN_EXPORT_ENTERPRISE env)
  else flag (CAN_EXPORT_FREE env).

(** The requests that create leads, with the user that the token names;
    the server handles them one after another. *)
Inductive request :=
| Bulk (current_user : User) (urls : list string)
| Single (current_user : User) (lead : LeadCreate).

Definition requester (r : request) : User :=
  match r with Bulk u _ => u | Single u _ => u end.

Definition handle (env : Environ) (srv : Server) (r : request) : Server :=
  match r with
  | Bulk u urls => snd (create_leads_from_urls env u urls srv)
  | Single u lead => snd (create_lead_endpoint env u lead srv)
  end.

Definition serve (env : Environ) (requests : list request) (srv : Server)
  : Server :=
  fold_left (handle env) requests srv.

(** A row of [subscriptions] with the columns that the service writes:
    [columns] are the two that the quota reads. *)
Record SubscriptionRow := {
  columns : Subscription;
  stripe_subscription_id : string;
  status : string;
  cancel_at_period_end : bool;
}.

(** The database with the whole rows, and the session over it. *)
Record Billing := {
  rows : list SubscriptionRow;
  b_leads : list Lead;
  b_today : Z;
}.

Definition db_of (b : Billing) : Db :=
  {| leads := b_leads b; subscriptions := map columns (rows b);
     today := b_today b |}.

Definition of_organization (organization_id : Z) (r : SubscriptionRow) : bool :=
  (sub_organization_id (columns r) =? organization_id)%Z.

(** An assignment to the attributes of the first row of the query. *)
Fixpoint update_first (p : SubscriptionRow -> bool)
         (f : SubscriptionRow -> SubscriptionRow) (l : list SubscriptionRow)
  : list SubscriptionRow :=
  match l with
  | [] => []
  | r :: rest => if p r then f r :: rest else r :: update_first p f rest
  end.

Definition valid_plans : list string := ["free"; "pro"; "enterprise"].

(** [assign_plan_to_organization]; [timestamp] is
    [int(datetime.now().timestamp())]. *)
Definition assign_plan_to_organization (timestamp : Z) (b : Billing)
           (organization_id : Z) (plan : string) : bool * Billing :=
  if negb (existsb (String.eqb plan) valid_plans) then (false, b)
  else
    let rows' :=
      match find (of_organization organization_id) (rows b) with
      | Some _ =>
          update_first (of_organization organization_id)
            (fun r => {| columns :=
                           {| sub_organization_id := sub_organization_id (columns r);
                              plan_name := plan |};
                         stripe_subscription_id := stripe_subscription_id r;
                         status := "active";
                         cancel_at_period_end := cancel_at_period_end r |})
            (rows b)
      | None =>
          (rows b ++
           [ {| columns := {| sub_organization_id := organization_id;
                              plan_name := plan |};
                stripe_subscription_id :=
                  "sub_" ++ str_Z organization_id ++ "_" ++ plan ++ "_"
                  ++ str_Z timestamp;
                status := "active";
                cancel_at_period_end := false |} ])%list
      end in
    (true, {| rows := rows'; b_leads := b_leads b; b_today := b_today b |}).

(** [cancel_subscription] *)
Definition cancel_subscription (b : Billing) (organization_id : Z)
           (immediate : bool) : bool * Billing :=
  match find (of_organization organization_id) (rows b) with
  | None => (false, b)
  | Some _ =>
      let rows' :=
        update_first (of_organization organization_id)
          (fun r => {| columns := columns r;
                       stripe_subscription_id := stripe_subscription_id r;
                       status := if immediate then "canceled" else "active";
                       cancel_at_period_end := negb immediate |})
          (rows b) in
      (true, {| rows := rows'; b_leads := b_leads b; b_today := b_today b |})
  end.

(** Organization 1 on the pro plan, organization 2 without a row. *)
Definition billing0 : Billing :=
  {| rows := [ {| columns := {| sub_organization_id := 1; plan_name := "pro" |};
                  stripe_subscription_id := "sub_1";
                  status := "active";
                  cancel_at_period_end := false |} ];
     b_leads := []; b_today := 0 |}.

(** The lead is of the user's organization, owned by the user, and made
    on the day. *)
Definition made_by (u : User) (day : Z) (l : Lead) : Prop :=
  organization_id l = user_organization_id u
  /\ owner_id l = user_id u
  /\ created_day l = day.

(** * The lead update ([schemas/lead.py], [update_lead] of
      [database/crud.py]) and the steps of the pipeline that use it
      ([workers/orchestrator.py]) *)

(** The fields of the schema [LeadUpdate], by their types. *)
Definition str_fields : list string :=
  ["company_name"; "industry"; "about_text"; "contact_name"; "contact_title";
   "email"; "phone"; "address"; "linkedin_url"; "twitter_url"; "facebook_url";
   "employees"; "revenue_band"; "outreach_message"].
Definition int_fields : list string := ["founded_year"].
Definition bool_fields : list string := ["is_active"].

(** A field that is set in a [LeadUpdate], with its validated value. *)
Inductive assignment :=
| SetStr (k : string) (s : option string)
| SetInt (k : string) (n : option Z)
| SetBool (k : string) (b : option bool).

(** [setattr(db_lead, field, value)] on the columns of the record. *)
Definition set_company_name (lead : Lead) (s : option string) : Lead :=
  {| lead_id := lead_id lead; organization_id := organization_id lead;
     owner_id := owner_id lead; company_name := s;
     website := website lead; industry := industry lead;
     about_text := about_text lead; contact_name := contact_name lead;
     contact_title := contact_title lead; email := email lead;
     phone := phone lead; linkedin_url := linkedin_url lead;
     employees := employees lead; revenue_band := revenue_band lead;
     founded_year := founded_year lead; score := score lead;
     qualification_label := qualification_label lead;
     scrape_confidence := scrape_confidence lead;
     email_confidence := email_confidence lead;
     enrichment_confidence := enrichment_confidence lead;
     enrichment_source := enrichment_source lead;
     scrape_source := scrape_source lead;
     outreach_message := outreach_message lead;
     created_day := created_day lead |}.

Definition set_industry (lead : Lead) (s : option string) : Lead :=
  {| lead_id := lead_id lead; organization_id := organization_id lead;
     owner_id := owner_id lead; company_name := company_name lead;
     website := website lead; industry := s;
     about_text := about_text lead; contact_name := contact_name lead;
     contact_title := contact_title lead; email := email lead;
     phone := phone lead; linkedin_url := linkedin_url lead;
     employees := employees lead; revenue_band := revenue_band lead;
     founded_year := founded_year lead; score := score lead;
     qualification_label := qualification_label lead;
     scrape_confidence := scrape_confidence lead;
     email_confidence := email_confidence lead;
     enrichment_confidence := enrichment_confidence lead;
     enrichment_source := enrichment_source lead;
     scrape_source := scrape_source lead;
     outreach_message := outreach_message lead;
     created_day := created_day lead |}.

Definition set_about_text (lead : Lead) (s : option string) : Lead :=
  {| lead_id := lead_id lead; organization_id := organization_id lead;
     owner_id := owner_id lead; company_name := company_name lead;
     website := website lead; industry := industry lead; about_text := s;
     contact_name := contact_name lead;
     contact_title := contact_title lead; email := email lead;
     phone := phone lead; linkedin_url := linkedin_url lead;
     employees := employees lead; revenue_band := revenue_band lead;
     founded_year := founded_year lead; score := score lead;
     qualification_label := qualification_label lead;
     scrape_confidence := scrape_confidence lead;
     email_confidence := email_confidence lead;
     enrichment_confidence := enrichment_confidence lead;
     enrichment_source := enrichment_source lead;
     scrape_source := scrape_source lead;
     outreach_message := outreach_message lead;
     created_day := created_day lead |}.

Definition set_contact_name (lead : Lead) (s : option string) : Lead :=
  {| lead_id := lead_id lead; organization_id := organization_id lead;
     owner_id := owner_id lead; company_name := company_name lead;
     website := website lead; industry := industry lead;
     about_text := about_text lead; contact_name := s;
     contact_title := contact_title lead; email := email lead;
     phone := phone lead; linkedin_url := linkedin_url lead;
     employees := employees lead; revenue_band := revenue_band lead;
     founded_year := founded_year lead; score := score lead;
     qualification_label := qualification_label lead;
     scrape_confidence := scrape_confidence lead;
     email_confidence := email_confidence lead;
     enrichment_confidence := enrichment_confidence lead;
     enrichment_source := enrichment_source lead;
     scrape_source := scrape_source lead;
     outreach_message := outreach_message lead;
     created_day := created_day lead |}.

Definition set_contact_title (lead : Lead) (s : option string) : Lead :=
  {| lead_id := lead_id lead; organization_id := organization_id lead;
     owner_id := owner_id lead; company_name := company_name lead;
     website := website lead; industry := industry lead;
     about_text := about_text lead; contact_name := contact_name lead;
     contact_title := s; email := email lead; phone := phone lead;
     linkedin_url := linkedin_url lead; employees := employees lead;
     revenue_band := revenue_band lead; founded_year := founded_year lead;
     score := score lead; qualification_label := qualification_label lead;
     scrape_confidence := scrape_confidence lead;
     email_confidence := email_confidence lead;
     enrichment_confidence := enrichment_confidence lead;
     enrichment_source := enrichment_source lead;
     scrape_source := scrape_source lead;
     outreach_message := outreach_message lead;
     created_day := created_day lead |}.

Definition set_email (lead : Lead) (s : option string) : Lead :=
  {| lead_id := lead_id lead; organization_id := organization_id lead;
     owner_id := owner_id lead; company_name := company_name lead;
     website := website lead; industry := industry lead;
     about_text := about_text lead; contact_name := contact_name lead;
     contact_title := contact_title lead; email := s; phone := phone lead;
     linkedin_url := linkedin_url lead; employees := employees lead;
     revenue_band := revenue_band lead; founded_year := founded_year lead;
     score := score lead; qualification_label := qualification_label lead;
     scrape_confidence := scrape_confidence lead;
     email_confidence := email_confidence lead;
     enrichment_confidence := enrichment_confidence lead;
     enrichment_source := enrichment_source lead;
     scrape_source := scrape_source lead;
     outreach_message := outreach_message lead;
     created_day := created_day lead |}.

Definition set_phone (lead : Lead) (s : option string) : Lead :=
  {| lead_id := lead_id lead; organization_id := organization_id lead;
     owner_id := owner_id lead; company_name := company_name lead;
     website := website lead; industry := industry lead;
     about_text := about_text lead; contact_name := contact_name lead;
     contact_title := contact_title lead; email := email lead; phone := s;
     linkedin_url := linkedin_url lead; employees := employees lead;
     revenue_band := revenue_band lead; founded_year := founded_year lead;
     score := score lead; qualification_label := qualification_label lead;
     scrape_confidence := scrape_confidence lead;
     email_confidence := email_confidence lead;
     enrichment_confidence := enrichment_confidence lead;
     enrichment_source := enrichment_source lead;
     scrape_source := scrape_source lead;
     outreach_message := outreach_message lead;
     created_day := created_day lead |}.

Definition set_linkedin_url (lead : Lead) (s : option string) : Lead :=
  {| lead_id := lead_id lead; organization_id := organization_id lead;
     owner_id := owner_id lead; company_name := company_name lead;
     website := website lead; industry := industry lead;
     about_text := about_text lead; contact_name := contact_name lead;
     contact_title := contact_title lead; email := email lead;
     phone := phone lead; linkedin_url := s; employees := employees lead;
     revenue_band := revenue_band lead; founded_year := founded_year lead;
     score := score lead; qualification_label := qualification_label lead;
     scrape_confidence := scrape_confidence lead;
     email_confidence := email_confidence lead;
     enrichment_confidence := enrichment_confidence lead;
     enrichment_source := enrichment_source lead;
     scrape_source := scrape_source lead;
     outreach_message := outreach_message lead;
     created_day := created_day lead |}.

Definition set_employees (lead : Lead) (s : option string) : Lead :=
  {| lead_id := lead_id lead; organization_id := organization_id lead;
     owner_id := owner_id lead; company_name := company_name lead;
     website := website lead; industry := industry lead;
     about_text := about_text lead; contact_name := contact_name lead;
     contact_title := contact_title lead; email := email lead;
     phone := phone lead; linkedin_url := linkedin_url lead;
     employees := s; revenue_band := revenue_band lead;
     founded_year := founded_year lead; score := score lead;
     qualification_label := qualification_label lead;
     scrape_confidence := scrape_confidence lead;
     email_confidence := email_confidence lead;
     enrichment_confidence := enrichment_confidence lead;
     enrichment_source := enrichment_source lead;
     scrape_source := scrape_source lead;
     outreach_message := outreach_message lead;
     created_day := created_day lead |}.

Definition set_revenue_band (lead : Lead) (s : option string) : Lead :=
  {| lead_id := lead_id lead; organization_id := organization_id lead;
     owner_id := owner_id lead; company_name := company_name lead;
     website := website lead; industry := industry lead;
     about_text := about_text lead; contact_name := contact_name lead;
     contact_title := contact_title lead; email := email lead;
     phone := phone lead; linkedin_url := linkedin_url lead;
     employees := employees lead; revenue_band := s;
     founded_year := founded_year lead; score := score lead;
     qualification_label := qualification_label lead;
     scrape_confidence := scrape_confidence lead;
     email_confidence := email_confidence lead;
     enrichment_confidence := enrichment_confidence lead;
     enrichment_source := enrichment_source lead;
     scrape_source := scrape_source lead;
     outreach_message := outreach_message lead;
     created_day := created_day lead |}.

Definition set_outreach_message (lead : Lead) (s : option string) : Lead :=
  {| lead_id := lead_id lead; organization_id := organization_id lead;
     owner_id := owner_id lead; company_name := company_name lead;
     website := website lead; industry := industry lead;
     about_text := about_text lead; contact_name := contact_name lead;
     contact_title := contact_title lead; email := email lead;
     phone := phone lead; linkedin_url := linkedin_url lead;
     employees := employees lead; revenue_band := revenue_band lead;
     founded_year := founded_year lead; score := score lead;
     qualification_label := qualification_label lead;
     scrape_confidence := scrape_confidence lead;
     email_confidence := email_confidence lead;
     enrichment_confidence := enrichment_confidence lead;
     enrichment_source := enrichment_source lead;
     scrape_source := scrape_source lead; outreach_message := s;
     created_day := created_day lead |}.

Definition set_founded_year (lead : Lead) (n : option Z) : Lead :=
  {| lead_id := lead_id lead; organization_id := organization_id lead;
     owner_id := owner_id lead; company_name := company_name lead;
     website := website lead; industry := industry lead;
     about_text := about_text lead; contact_name := contact_name lead;
     contact_title := contact_title lead; email := email lead;
     phone := phone lead; linkedin_url := linkedin_url lead;
     employees := employees lead; revenue_band := revenue_band lead;
     founded_year := n; score := score lead;
     qualification_label := qualification_label lead;
     scrape_confidence := scrape_confidence lead;
     email_confidence := email_confidence lead;
     enrichment_confidence := enrichment_confidence lead;
     enrichment_source := enrichment_source lead;
     scrape_source := scrape_source lead;
     outreach_message := outreach_message lead;
     created_day := created_day lead |}.

(** The columns [address], [twitter_url], [facebook_url] and [is_active]
    are not in the record: setting them leaves it as it is. *)
Definition setattr (lead : Lead) (a : assignment) : Lead :=
  match a with
  | SetStr k s =>
      if String.eqb k "company_name" then set_company_name lead s else
      if String.eqb k "industry" then set_industry lead s else
      if String.eqb k "about_text" then set_about_text lead s else
      if String.eqb k "contact_name" then set_contact_name lead s else
      if String.eqb k "contact_title" then set_contact_title lead s else
      if String.eqb k "email" then set_email lead s else
      if String.eqb k "phone" then set_phone lead s else
      if String.eqb k "linkedin_url" then set_linkedin_url lead s else
      if String.eqb k "employees" then set_employees lead s else
      if String.eqb k "revenue_band" then set_revenue_band lead s else
      if String.eqb k "outreach_message" then set_outreach_message lead s else
      lead
  | SetInt k n =>
      if String.eqb k "founded_year" then set_founded_year lead n else lead
  | SetBool k b => lead
  end.

Section LeadUpdateSchema.
(** The validation of a value for an [Optional[str]], [Optional[int]] or
    [Optional[bool]] field: the validated value, or a
    [ValidationError]. *)
Variable validate_str : field -> exn (option string).
Variable validate_int : field -> exn (option Z).
Variable validate_bool : field -> exn (option bool).

(** [LeadUpdate] made of [update_data]: a key that is not a field of the schema
    is ignored; the value of a field is validated.  The result has the
    fields that are set. *)
Fixpoint LeadUpdate_of (update_data : list (string * field))
  : exn (list assignment) :=
  match update_data with
  | [] => Ret []
  | (k, v) :: rest =>
      if existsb (String.eqb k) str_fields then
        s <?- validate_str v ;; set <?- LeadUpdate_of rest ;;
        Ret (SetStr k s :: set)
      else if existsb (String.eqb k) int_fields then
        n <?- validate_int v ;; set <?- LeadUpdate_of rest ;;
        Ret (SetInt k n :: set)
      else if existsb (String.eqb k) bool_fields then
        b <?- validate_bool v ;; set <?- LeadUpdate_of rest ;;
        Ret (SetBool k b :: set)
      else LeadUpdate_of rest
  end.

(** [update_lead] over [lead_update.dict(exclude_unset=True)] *)
Definition update_lead (lead : Lead) (lead_update : list assignment) : Lead :=
  fold_left setattr lead_update lead.

(** [update_lead] with the [LeadUpdate] made of [update_data] *)
Definition apply_update (update_data : list (string * field)) (lead : Lead)
  : exn Lead :=
  lead_update <?- LeadUpdate_of update_data ;;
  Ret (update_lead lead lead_update).

(** [LeadUpdate] as the enrichment step takes it. *)
Definition lead_update_schema (update_data : list (string * field))
  : exn (Lead -> Lead) :=
  lead_update <?- LeadUpdate_of update_data ;;
  Ret (fun lead => update_lead lead lead_update).

(** Step 3 of [process_lead_task]: the score. *)
Definition score_update (lead : Lead) : list (string * field) :=
  let score_result := score_lead lead None in
  [ ("score", FFloat (total_score score_result));
    ("qualification_label", FVal (VStr (result_label score_result))) ].

Definition score_step (lead : Lead) : exn Lead :=
  apply_update (score_update lead) lead.

(** Step 4 of [process_lead_task]: the outreach message. *)
Definition message_step (can_use_ai : bool) (sender_org : string)
           (llm : Lead -> option string) (lead : Lead) : exn Lead :=
  let outreach_message :=
    if can_use_ai then generate_message sender_org llm lead
    else "No outreach message generated - AI features not available on your plan" in
  if truthy (Some outreach_message)
  then apply_update [("outreach_message", FVal (VStr outreach_message))] lead
  else Ret lead.

(** Steps 2 to 4, on the lead as step 1 left it; the two booleans are
    the answers of [can_use_ai_features] in steps 2 and 4. *)
Definition process_steps (ai_for_enrichment ai_for_message : bool)
           (env : LlmEnv) (elapsed : Z)
           (sender_org : string) (llm : Lead -> option string)
           (lead : Lead) (scraped_data : dict) : exn Lead :=
  lead <?- enrichment_step lead_update_schema ai_for_enrichment env elapsed
                           lead scraped_data ;;
  lead <?- score_step lead ;;
  message_step ai_for_message sender_org llm lead.
End LeadUpdateSchema.

(** A validation that takes a string or [None] for a string field, an
    integer or [None] for an integer field, and nothing else. *)
Definition strict_str (v : field) : exn (option string) :=
  match v with
  | FVal (VStr s) => Ret (Some s)
  | FVal VNone => Ret None
  | _ => Raise
  end.
Definition strict_int (v : field) : exn (option Z) :=
  match v with
  | FVal (VInt n) => Ret (Some n)
  | FVal VNone => Ret None
  | _ => Raise
  end.
Definition strict_bool (v : field) : exn (option bool) := Raise.

(** The three confidences of the lead are 0.0. *)
Definition zero_confidences (lead : Lead) : Prop :=
  email_confidence lead = f0_0
  /\ scrape_confidence lead = f0_0
  /\ enrichment_confidence lead = f0_0.

(** What no update changes. *)
Definition same_scores (lead lead' : Lead) : Prop :=
  score lead' = score lead
  /\ qualification_label lead' = qualification_label lead
  /\ scrape_confidence lead' = scrape_confidence lead
  /\ email_confidence lead' = email_confidence lead
  /\ enrichment_confidence lead' = enrichment_confidence lead
  /\ scrape_source lead' = scrape_source lead
  /\ enrichment_source lead' = enrichment_source lead
  /\ lead_id lead' = lead_id lead
  /\ organization_id lead' = organization_id lead
  /\ owner_id lead' = owner_id lead
  /\ website lead' = website lead
  /\ created_day lead' = created_day lead.

(** * API keys ([models/api_key.py], [database/crud.py],
      [auth/security.py]) *)

(** A row of [api_keys], with the columns that [verify_api_key] reads. *)
Record APIKey := {
  key_prefix : string;
  key_user_id : Z;
  key_is_active : bool;
  key_is_revoked : bool;
}.

(** [APIKey.generate_key]: the key, and the [key_prefix] that the row
    gets; [token] is [secrets.token_urlsafe(32)]. *)
Definition generate_key (token : string) : string * string :=
  let key := "lb_" ++ token in
  (key, substring 0 8 key).

(** [create_api_key]: the key, and the table with the new row; the
    columns [is_active] and [is_revoked] have their defaults. *)
Definition create_api_key (keys : list APIKey) (token : string) (user : Z)
  : string * list APIKey :=
  let (key, prefix) := generate_key token in
  (key,
   (keys ++ [ {| key_prefix := prefix; key_user_id := user;
                 key_is_active := true; key_is_revoked := false |} ])%list).

(** [get_api_key_by_prefix] *)
Definition get_api_key_by_prefix (keys : list APIKey) (prefix : string)
  : option APIKey :=
  find (fun k => String.eqb (key_prefix k) prefix) keys.

(** [verify_api_key]; [get_user] is the lookup of a user by id. *)
Definition verify_api_key (get_user : Z -> option User) (keys : list APIKey)
           (api_key : string) : option User :=
  if (negb (startswith "lb_" api_key)
      || Nat.ltb (String.length api_key) 11)%bool
  then None
  else
    let key_prefix := substring 3 8 api_key in
    match get_api_key_by_prefix keys key_prefix with
    | Some db_api_key =>
        if (key_is_active db_api_key && negb (key_is_revoked db_api_key))%bool
        then get_user (key_user_id db_api_key)
        else None
    | None => None
    end.

(** The prefix of the row is one that [generate_key] makes. *)
Definition generated (k : APIKey) : Prop :=
  exists token, key_prefix k = snd (generate_key token).

(** * More of the tokens ([auth/security.py]) *)

(** [create_access_token] and [create_refresh_token]; [jwt_encode] is
    [jwt.encode] with the secret key, and [expire] the instant of
    expiry. *)
Definition create_access_token (jwt_encode : dict -> string) (data : dict)
           (expire : Z) : string :=
  let to_encode := data in
  let to_encode :=
    dict_set (dict_set to_encode "exp" (VInt expire)) "type" (VStr "access") in
  jwt_encode to_encode.

Definition create_refresh_token (jwt_encode : dict -> string) (data : dict)
           (expire : Z) : string :=
  let to_encode := data in
  let to_encode :=
    dict_set (dict_set to_encode "exp" (VInt expire)) "type" (VStr "refresh") in
  jwt_encode to_encode.

(** [get_current_user] *)
Definition get_current_user (jwt_decode : string -> option dict)
           (get_user : value -> option User) (token : string) : response User :=
  match verify_token jwt_decode token with
  | HTTPException status_code detail => HTTPException status_code detail
  | OK token_data =>
      match get_user (td_user_id token_data) with
      | None => HTTPException 401 "User not found"
      | Some user =>
          if negb (is_active user) then HTTPException 401 "Inactive user"
          else OK user
      end
  end.

(** [get_current_active_user] *)
Definition get_current_active_user (current_user : User) : response User :=
  if negb (is_active current_user) then HTTPException 400 "Inactive user"
  else OK current_user.

(** A signing that keeps the type of the token only, for user 1. *)
Definition toy_encode (payload : dict) : string :=
  match dict_get payload "type" with
  | Some (VStr s) => s
  | _ => ""
  end.
Definition toy_decode (token : string) : option dict :=
  Some [("sub", VStr "1"); ("exp", VInt 0); ("type", VStr token)].

(** * More notions for the enricher *)

(** What makes [_estimate_employees] raise: the first match of one of
    the patterns is a run of more digits than [int] takes. *)
Definition employees_overflow (text : string) : Prop :=
  exists p m,
    In p employee_patterns
    /\ findall_first false p text = Some m
    /\ all_in is_digit m = true
    /\ (int_max_str_digits < String.length m <= String.length text)%nat.

(** A run of 4301 digits. *)
Fixpoint repeat_char (c : ascii) (n : nat) : string :=
  match n with
  | O => EmptyString
  | S n' => String c (repeat_char c n')
  end.
Definition long_number : string := repeat_char "1" 4301.
(** * Properties *)

Local Open Scope Z_scope.

(** ** The literals are the binary64 numbers that Python reads *)

Example f0_3_bits : f0_3 = S754_finite false 0x13333333333333 (-54).
Proof. reflexivity. Qed.

Example f0_7_bits : f0_7 = S754_finite false 0x16666666666666 (-53).
Proof. reflexivity. Qed.

Example f0_15_bits : f0_15 = S754_finite false 0x13333333333333 (-55).
Proof. reflexivity. Qed.

(** [0.3 + 0.15] is [0.44999999999999996]. *)
Example sum_03_015 : f0_3 +. f0_15 = S754_finite false 0x1ccccccccccccc (-54).
Proof. reflexivity. Qed.

(** ** The refresh endpoint *)

Section RefreshFacts.
Variable jwt_decode : string -> option dict.
Variable get_user : value -> option User.
Variable create_access_token : Z -> string.

(** [verify_token] lets through the tokens of type [access] only. *)
Lemma verify_token_access (token : string) (td : TokenData) :
  verify_token jwt_decode token = OK td ->
  is_str (td_token_type td) "access" = true.
Proof.
  unfold verify_token. destruct (jwt_decode token) as [payload|]; [|discriminate].
  destruct (is_none _) ; simpl; [discriminate|].
  destruct (is_str (get_or_none payload "type") "access") eqn:E; simpl;
    [|discriminate].
  intros H. injection H as <-. exact E.
Qed.

Lemma access_is_not_refresh (v : value) :
  is_str v "access" = true -> is_str v "refresh" = false.
Proof.
  destruct v as [|s|n|l|r t]; simpl; try discriminate.
  intros H. apply String.eqb_eq in H. subst s. reflexivity.
Qed.

(** No token gets through the body of [refresh_token]. *)
Lemma refresh_body_fails (token : string) :
  exists code msg,
    refresh_body jwt_decode get_user create_access_token token
    = HTTPException code msg.
Proof.
  unfold refresh_body.
  destruct (verify_token jwt_decode token) as [td|c m] eqn:V.
  - apply verify_token_access in V. apply access_is_not_refresh in V.
    rewrite V. simpl. eauto.
  - eauto.
Qed.
End RefreshFacts.

(** C9, as the code behaves: whatever the token, a valid refresh token of
    an active user included, [POST /refresh] answers 401 "Invalid refresh
    token" and never a new access token. *)
Theorem refresh_token_always_401 :
  forall (jwt_decode : string -> option dict)
         (get_user : value -> option User)
         (create_access_token : Z -> string) (token : string),
    refresh_token jwt_decode get_user create_access_token token
    = HTTPException 401 "Invalid refresh token".
Proof.
  intros jwt_decode get_user create_access_token token. unfold refresh_token.
  destruct (refresh_body_fails jwt_decode get_user create_access_token token)
    as (code & msg & E).
  rewrite E. reflexivity.
Qed.

(** The failing input of C9. *)
Example refresh_with_valid_refresh_token :
  refresh_token decode_refresh user_1 (fun _ => "new-access-token")
                "valid-refresh-token"
  = HTTPException 401 "Invalid refresh token".
Proof. reflexivity. Qed.

(** ** The quota gate of the bulk endpoint *)

(** The remaining count is the plan's cap less today's leads, and never
    negative. *)
Lemma remaining_is_cap_less_usage (env : Environ) (db : Db) (org : Z) :
  let usage := get_organization_usage env db org in
  remaining_daily_leads usage
  = Z.max 0 (max_leads_per_day usage - _get_daily_usage db org)
  /\ can_create_lead env db org = (0 <? remaining_daily_leads usage).
Proof.
  unfold can_create_lead, get_organization_usage.
  destruct (first_subscription db org) as [s|];
    repeat match goal with |- context [if ?b then _ else _] => destruct b end;
    simpl; split; reflexivity.
Qed.

(** C7 as stated fails on an empty list of URLs, answered 400 whatever
    the quota, and on a batch of one when nothing remains, whose 429 has
    the other detail. *)
Lemma quota_claim_counterexample :
  ~ quota_claim_as_stated environ0 user0 [] (server_with 10)
  /\ ~ quota_claim_as_stated environ0 user0 ["https://acme.io"] (server_with 10).
Proof.
  split; intros [H1 H2].
  - destruct (H1 eq_refl) as [[detail H] _]. discriminate H.
  - destruct (H2 eq_refl) as [H _]. discriminate H.
Qed.

(** C7, amended: for a request with at least one URL, when no lead
    remains today the answer is 429, and when some remain but fewer than
    the batch the answer is 429 with the counts in its detail; in both
    cases the server is left as it was: no lead is created and no job is
    enqueued.  Otherwise the leads are created. *)
Theorem bulk_create_quota
        (env : Environ) (current_user : User) (urls : list string)
        (srv : Server) (Hurls : urls <> []) :
  let usage :=
    get_organization_usage env (db srv) (user_organization_id current_user) in
  let remaining := remaining_daily_leads usage in
  remaining = Z.max 0 (max_leads_per_day usage - current_usage usage)
  /\ create_leads_from_urls env current_user urls srv
     = if remaining =? 0
       then (HTTPException 429
               "Daily lead limit exceeded for your subscription plan", srv)
       else if remaining <? Z.of_nat (List.length urls)
       then (HTTPException 429
               ("Cannot create " ++ str_nat (List.length urls)
                ++ " leads. Only " ++ str_Z remaining
                ++ " leads remaining for today."), srv)
       else let (created_leads, srv') := create_all current_user urls [] srv in
            (OK created_leads, srv').
Proof.
  intros usage remaining.
  destruct (remaining_is_cap_less_usage env (db srv)
              (user_organization_id current_user)) as [Hr Hc].
  fold usage in Hr, Hc. fold remaining in Hr, Hc.
  split.
  - rewrite Hr. unfold usage, get_organization_usage.
    destruct (first_subscription _ _);
      repeat match goal with |- context [if ?b then _ else _] => destruct b end;
      reflexivity.
  - unfold create_leads_from_urls.
    destruct urls as [|url urls']; [contradiction|].
    rewrite Hc. fold usage. fold remaining.
    assert (0 <= remaining) by (rewrite Hr; apply Z.le_max_l).
    destruct (remaining =? 0) eqn:E0.
    + apply Z.eqb_eq in E0. rewrite E0. reflexivity.
    + apply Z.eqb_neq in E0.
      replace (0 <? remaining) with true by (symmetry; apply Z.ltb_lt; lia).
      reflexivity.
Qed.

Lemma bulk_create_quota_witness :
  create_leads_from_urls environ0 user0 ["u1"; "u2"; "u3"; "u4"] (server_with 7)
  = (HTTPException 429
       "Cannot create 4 leads. Only 3 leads remaining for today.",
     server_with 7).
Proof.
  exact (proj2 (bulk_create_quota environ0 user0 ["u1"; "u2"; "u3"; "u4"]
                  (server_with 7) ltac:(discriminate))).
Defined.

(** Ten leads today on the free plan: nothing remains, and the answer is
    the 429 of the daily limit. *)
Example quota_exhausted :
  create_leads_from_urls environ0 user0 ["x"] (server_with 10)
  = (HTTPException 429 "Daily lead limit exceeded for your subscription plan",
     server_with 10).
Proof. reflexivity. Qed.

(** With room for the batch, one lead and one job per URL. *)
Example quota_room :
  let (answer, srv') :=
    create_leads_from_urls environ0 user0 ["u1"; "u2"] (server_with 7) in
  (exists l, answer = OK l /\ List.length l = 2%nat)
  /\ background_tasks srv' = [8; 9]
  /\ List.length (leads (db srv')) = 9%nat.
Proof. vm_compute. split; [eexists; split; reflexivity | split; reflexivity]. Qed.

(** ** The messenger's templates *)

Lemma prefix_app (w b : string) : String.prefix w (w ++ b) = true.
Proof.
  induction w as [|c w IH]; simpl.
  - destruct b; reflexivity.
  - destruct (ascii_dec c c) as [_|N]; [exact IH | contradiction].
Qed.

Lemma contains_unfold (w s : string) :
  contains w s
  = if String.prefix w s then true
    else match s with
         | EmptyString => false
         | String _ s' => contains w s'
         end.
Proof. destruct s; reflexivity. Qed.

Lemma contains_here (w b : string) : contains w (w ++ b) = true.
Proof. rewrite contains_unfold, prefix_app. reflexivity. Qed.

Lemma contains_later (w a s : string) :
  contains w s = true -> contains w (a ++ s) = true.
Proof.
  intros H. induction a as [|c a IH]; [exact H|].
  change (String c a ++ s) with (String c (a ++ s)).
  rewrite contains_unfold, IH.
  destruct (String.prefix w (String c (a ++ s))); reflexivity.
Qed.

Lemma website_only_text_mentions (sender_org website company_ref : string) :
  contains website (website_only_text sender_org website company_ref) = true.
Proof.
  unfold website_only_text.
  do 4 apply contains_later. apply contains_here.
Qed.

Lemma falsy_or_else (o : option string) (dflt : string) :
  truthy o = false -> or_else o dflt = dflt.
Proof. destruct o as [[|c s]|]; simpl; [reflexivity|discriminate|reflexivity]. Qed.

(** C8: the template is chosen by the fields of the lead: an industry
    template (keyed [software], [consulting], [ecommerce], else the
    default that names the industry) with a company name and an industry,
    the generic template with a company name only, the website-only
    template without a company name.  A lead with nothing but its website
    gets the website-only text, which mentions the URL and is made of the
    URL and the sender only. *)
Theorem template_selection :
  forall (sender_org : string),
    (forall lead : Lead,
        _generate_template_message sender_org lead
        = let contact_ref := or_else (contact_name lead) "the team" in
          let company_ref := or_else (company_name lead) "your company" in
          if truthy (company_name lead) then
            if truthy (industry lead) then
              let key := replace " " "" (lower (or_else (industry lead) "")) in
              if String.eqb key "software"
              then software_template sender_org contact_ref company_ref
              else if String.eqb key "consulting"
              then consulting_template sender_org contact_ref company_ref
              else if String.eqb key "ecommerce"
              then ecommerce_template sender_org contact_ref company_ref
              else default_industry_template sender_org contact_ref company_ref
                     (or_else (industry lead) "")
            else _get_generic_template sender_org lead
          else website_only_text sender_org
                 (or_else (Some (website lead)) "your website") "your company")
    /\ (forall (llm : Lead -> option string) (i org owner : Z) (url : string)
               (day : Z),
           let lead := new_lead i org owner url day in
           let message := generate_message sender_org llm lead in
           message = website_only_text sender_org
                       (or_else (Some url) "your website") "your company"
           /\ contains (or_else (Some url) "your website") message = true).
Proof.
  intros sender_org. split.
  - intros lead. unfold _generate_template_message.
    destruct (truthy (company_name lead)) eqn:Ec; simpl.
    + destruct (truthy (industry lead)) eqn:Ei; simpl; [|reflexivity].
      unfold _get_industry_template.
      destruct (industry lead) as [[|c s]|]; try discriminate Ei.
      reflexivity.
    + unfold _get_website_only_template.
      rewrite (falsy_or_else _ _ Ec). reflexivity.
  - intros llm i org owner url day lead message.
    assert (E : message = website_only_text sender_org
                            (or_else (Some url) "your website") "your company")
      by reflexivity.
    split; [exact E|]. rewrite E. apply website_only_text_mentions.
Qed.

(** The lead of the scenario: only [https://acme.io]. *)
Example website_only_acme :
  generate_message "Our Company" (fun _ => Some "A made-up message")
                   (new_lead 1 1 1 "https://acme.io" 0)
  = "Hi team," ++ nl ++ nl
    ++ "I visited https://acme.io and was impressed by your company's work. At Our Company, we help companies like yours navigate growth challenges and operational efficiencies. I'd be interested in exploring potential synergies."
    ++ nl ++ nl ++ "Best regards," ++ nl ++ "Our Company".
Proof. reflexivity. Qed.

(** The enricher's [E-commerce] is not the key [ecommerce]: the default
    template is used. *)
Example template_e_commerce :
  _generate_template_message "Our Company"
    (lead_of (Some "Acme") (Some "E-commerce") None)
  = default_industry_template "Our Company" "the team" "Acme" "E-commerce".
Proof. reflexivity. Qed.

(** ** The tiers of the scraper *)

Lemma json_ld_method (w : World) : method (_extract_json_ld w) = JSON_LD.
Proof.
  unfold _extract_json_ld.
  destruct (session w); simpl; [|reflexivity].
  destruct (get_json_ld w) as [msg|status page]; [reflexivity|].
  destruct (negb (status =? 200)); [reflexivity|].
  destruct page as [[|s scripts]|msg]; try reflexivity.
  destruct (collect_json_ld (s :: scripts) []) as [[|kv all_data]|msg];
    reflexivity.
Qed.

Lemma meta_method (urljoin : string -> try string) (w : World) :
  method (_extract_meta_data urljoin w) = STRUCTURED_DATA.
Proof.
  unfold _extract_meta_data.
  destruct (session w); simpl; [|reflexivity].
  destruct (get_meta w) as [msg|status page]; [reflexivity|].
  destruct (negb (status =? 200)); [reflexivity|].
  destruct page as [soup|msg]; [|reflexivity].
  destruct (meta_data urljoin soup) as [[|kv data]|msg]; reflexivity.
Qed.

(** The headless tier runs alone, or hands over to the plain-request
    fallback. *)
Lemma playwright_or_fallback (w : World) :
  let (ran_tiers, result) := _scrape_with_playwright w in
  (ran_tiers = [PLAYWRIGHT] /\ method result = PLAYWRIGHT)
  \/ (ran_tiers = [PLAYWRIGHT; REQUESTS]
      /\ result = _scrape_with_requests_fallback w).
Proof.
  unfold _scrape_with_playwright.
  destruct (browser w) as [|msg|msg|status data]; simpl.
  - left; split; reflexivity.
  - destruct (is_platform_error msg); simpl;
      [right | left]; split; reflexivity.
  - destruct (is_platform_error msg); simpl;
      [right | left]; split; reflexivity.
  - destruct status as [st|]; [destruct (negb (st =? 200))|];
      try destruct data as [[|kv d]|]; simpl; left; split; reflexivity.
Qed.

(** C1: [scrape] returns the result of the first tier whose gate is met:
    the JSON-LD tier if it succeeds with a confidence above 0.7, else the
    meta tier if it succeeds with a confidence above 0.5, else the
    headless tier or its plain-request fallback; and the tiers that ran
    are those up to the returned one and no later one. *)
Theorem scrape_first_gate :
  forall (urljoin : string -> try string) (w : World) (elapsed : F64.float),
    let r1 := _extract_json_ld w in
    let r2 := _extract_meta_data urljoin w in
    let r3 := _scrape_with_playwright w in
    scrape urljoin w elapsed
    = (if (success r1 && F64.gtb (confidence r1) f0_7)%bool
       then ([JSON_LD], set_time r1 elapsed)
       else if (success r2 && F64.gtb (confidence r2) f0_5)%bool
       then ([JSON_LD; STRUCTURED_DATA], set_time r2 elapsed)
       else (JSON_LD :: STRUCTURED_DATA :: fst r3, set_time (snd r3) elapsed))
    /\ method r1 = JSON_LD
    /\ method r2 = STRUCTURED_DATA
    /\ ((fst r3 = [PLAYWRIGHT] /\ method (snd r3) = PLAYWRIGHT)
        \/ (fst r3 = [PLAYWRIGHT; REQUESTS]
            /\ snd r3 = _scrape_with_requests_fallback w)).
Proof.
  intros urljoin w elapsed r1 r2 r3.
  split; [|split; [apply json_ld_method | split; [apply meta_method|]]].
  - unfold scrape, gate, tbind, ran, tret. fold r1 r2 r3.
    destruct (success r1 && F64.gtb (confidence r1) f0_7)%bool; [reflexivity|].
    destruct (success r2 && F64.gtb (confidence r2) f0_5)%bool; [reflexivity|].
    destruct r3 as [t3 res3]. simpl. rewrite app_nil_r. reflexivity.
  - pose proof (playwright_or_fallback w) as H. fold r3 in H.
    destruct r3 as [t3 res3]. exact H.
Qed.

(** The scenario: the JSON-LD tier alone runs, and its confidence is
    0.8. *)
Example scrape_organization (urljoin : string -> try string) (elapsed : F64.float) :
  let (ran_tiers, result) := scrape urljoin organization_world elapsed in
  ran_tiers = [JSON_LD]
  /\ method result = JSON_LD
  /\ success result = true
  /\ confidence result = f0_8
  /\ F64.geb (confidence result) f0_7 = true.
Proof. vm_compute. repeat split. Qed.

(** An address given as an object is flattened into [address_...] keys:
    no [address] key is left, and the confidence is 0.6. *)
Example nested_address_confidence :
  let data := _flatten_json organization_json_nested in
  has_key data "address" = false
  /\ has_key data "address_streetAddress" = true
  /\ F64.gtb (_calculate_json_ld_confidence data) f0_7 = false.
Proof. vm_compute. repeat split. Qed.

(** ** The waterfall of the enricher *)

Lemma heuristic_method (lead : Lead) (scraped_data : dict) (r : EnrichmentResult) :
  _heuristic_enrichment lead scraped_data = Some r -> e_method r = HEURISTIC.
Proof.
  unfold _heuristic_enrichment, heuristic_body, ebind.
  destruct (_get_text_for_analysis lead scraped_data) as [text|]; [|discriminate].
  destruct (_estimate_employees (lower text)) as [emp|]; [|discriminate].
  destruct (_extract_founded_year text) as [year|]; [|discriminate].
  match goal with |- context [match fst ?a with _ => _ end] =>
    destruct (fst a) end; [discriminate|].
  intros H.
  assert (E : option_map e_method (Some r) = Some HEURISTIC)
    by (rewrite <- H; reflexivity).
  injection E as E. exact E.
Qed.

Lemma llm_method (env : LlmEnv) (lead : Lead) (scraped_data : dict)
      (r : EnrichmentResult) :
  _llm_enrichment env lead scraped_data = Some r ->
  e_method r = LLM /\ e_data r <> [].
Proof.
  unfold _llm_enrichment.
  destruct (negb (langchain_installed env)); [discriminate|].
  destruct (_ || _)%bool; [discriminate|].
  destruct (_get_text_for_analysis lead scraped_data) as [text|]; [|discriminate].
  destruct (chain_invoke env _ _ _) as [| | |parsed]; try discriminate.
  destruct (filter not_none parsed) as [|kv l]; [discriminate|].
  intros H.
  assert (E : option_map (fun r => (e_method r, e_data r)) (Some r)
              = Some (LLM, kv :: l))
    by (rewrite <- H; reflexivity).
  injection E as E1 E2. rewrite E2. split; [exact E1 | discriminate].
Qed.

(** The waterfall over any three strategies: the order is fixed, the
    heuristic result is returned above 0.7 only, that of the external
    service above 0.6 only, that of the language model whenever there is
    one. *)
Lemma waterfall_gates
      (heuristic external_api llm : Lead -> dict -> option EnrichmentResult)
      (elapsed : Z) (lead : Lead) (scraped_data : dict) :
  let timed := option_map (fun r => set_processing_time r elapsed) in
  waterfall heuristic external_api llm elapsed lead scraped_data
  = if accepted f0_7 (heuristic lead scraped_data)
    then ([HEURISTIC], timed (heuristic lead scraped_data))
    else if accepted f0_6 (external_api lead scraped_data)
    then ([HEURISTIC; EXTERNAL_API], timed (external_api lead scraped_data))
    else ([HEURISTIC; EXTERNAL_API; LLM], timed (llm lead scraped_data)).
Proof.
  unfold waterfall, tbind, ran, tret.
  destruct (accepted f0_7 (heuristic lead scraped_data)); [reflexivity|].
  destruct (accepted f0_6 (external_api lead scraped_data)); [reflexivity|].
  destruct (llm lead scraped_data); reflexivity.
Qed.

(** C2: [enrich_lead_data] tries the heuristic, the external service and
    the language model in this order; it returns the heuristic result
    when, and only when, its confidence is above 0.7, never a result of
    the external service (a placeholder, whose gate is 0.6), and else the
    result of the language model whenever it has data.  When it returns
    nothing the enrichment step leaves the lead, and with it its
    [enrichment_confidence], as it was. *)
Theorem enrich_waterfall :
  forall (env : LlmEnv) (elapsed : Z) (lead : Lead) (scraped_data : dict),
    let timed := option_map (fun r => set_processing_time r elapsed) in
    let h := _heuristic_enrichment lead scraped_data in
    let l := _llm_enrichment env lead scraped_data in
    let tried := fst (enrich_lead_data env elapsed lead scraped_data) in
    let result := snd (enrich_lead_data env elapsed lead scraped_data) in
    (if accepted f0_7 h
     then tried = [HEURISTIC] /\ result = timed h
     else tried = [HEURISTIC; EXTERNAL_API; LLM] /\ result = timed l)
    /\ match result with
       | Some r =>
           (e_method r = HEURISTIC /\ timed h = Some r
            /\ F64.gtb (e_confidence r) f0_7 = true)
           \/ (e_method r = LLM /\ timed l = Some r /\ e_data r <> [])
       | None =>
           accepted f0_7 h = false /\ l = None
           /\ forall (LeadUpdate : list (string * field) -> exn (Lead -> Lead))
                     (can_use_ai : bool),
               enrichment_step LeadUpdate can_use_ai env elapsed lead scraped_data
               = Ret lead
       end.
Proof.
  intros env elapsed lead scraped_data timed h l tried result.
  assert (E : (tried, result)
              = if accepted f0_7 h then ([HEURISTIC], timed h)
                else ([HEURISTIC; EXTERNAL_API; LLM], timed l)).
  { unfold tried, result. rewrite <- surjective_pairing.
    unfold enrich_lead_data. rewrite waterfall_gates. reflexivity. }
  destruct (accepted f0_7 h) eqn:Eh.
  - injection E as Et Er. split; [split; assumption|].
    rewrite Er. unfold accepted in Eh.
    destruct h as [r|] eqn:Hh; [|discriminate]. simpl.
    left. split; [|split; [reflexivity | exact Eh]].
    simpl. exact (heuristic_method _ _ _ Hh).
  - injection E as Et Er. split; [split; assumption|].
    destruct result as [r|] eqn:Hr.
    + right. destruct l as [r'|] eqn:Hl; [|discriminate].
      simpl in Er. injection Er as ->. simpl.
      destruct (llm_method _ _ _ _ Hl) as [Hm Hd]. repeat split; assumption.
    + destruct l as [r'|] eqn:Hl; [discriminate|].
      split; [reflexivity | split; [reflexivity|]].
      intros LeadUpdate can_use_ai. unfold enrichment_step.
      fold result. fold result in Hr. rewrite Hr.
      destruct can_use_ai; reflexivity.
Qed.

(** A lead that was just created keeps the confidence 0. *)
Example no_enrichment_keeps_zero
        (LeadUpdate : list (string * field) -> exn (Lead -> Lead)) :
  let env := {| langchain_installed := true; GROQ_API_KEY := None;
                chain_invoke := fun _ _ _ => LlmFailed |} in
  let lead := new_lead 1 1 1 "https://example.com" 0 in
  enrich_lead_data env 5 lead [] = ([HEURISTIC; EXTERNAL_API; LLM], None)
  /\ exists lead', enrichment_step LeadUpdate true env 5 lead [] = Ret lead'
                   /\ enrichment_confidence lead' = f0_0.
Proof. split; [reflexivity | eexists; split; reflexivity]. Qed.

(** ** The heuristic strategy on the scenario text *)

(** C3 as stated fails: no employee band, hence no revenue band, is
    found in the text, and the confidence is not above 0.7. *)
Lemma heuristic_claim_counterexample :
  ~ heuristic_claim_as_stated (new_lead 1 1 1 "https://example.com" 0).
Proof.
  intros (r & Hr & _ & He & _).
  vm_compute in Hr. injection Hr as <-. vm_compute in He. discriminate He.
Qed.

(** C3, amended: on the scenario text, and without a company name or an
    about text on the lead, the heuristic strategy finds the industry
    "Software" and the founding year 2014 and nothing else ("120-person"
    is none of the employee patterns), with the confidence 0.3 + 0.15,
    which is not above 0.7; without a credential for the language model,
    [enrich_lead_data] then returns nothing. *)
Theorem heuristic_on_scenario :
  forall (i org owner : Z) (url : string) (day : Z) (elapsed : Z),
    let lead := new_lead i org owner url day in
    _heuristic_enrichment lead scenario_scraped
    = Some {| e_success := true;
              e_data := [("industry", VStr "Software");
                         ("founded_year", VInt 2014)];
              e_method := HEURISTIC;
              e_confidence := f0_3 +. f0_15;
              e_processing_time := 0 |}
    /\ _estimate_employees (lower scenario_text) = Ret None
    /\ F64.gtb (f0_3 +. f0_15) f0_7 = false
    /\ F64.ltb (f0_3 +. f0_15) f0_5 = true
    /\ enrich_lead_data no_credential elapsed lead scenario_scraped
       = ([HEURISTIC; EXTERNAL_API; LLM], None).
Proof.
  intros i org owner url day elapsed lead.
  repeat split; vm_compute; reflexivity.
Qed.

(** With "120 employees" in the text the band, the revenue band and a
    confidence above 0.7 are there. *)
Example heuristic_with_employees :
  _heuristic_enrichment (new_lead 1 1 1 "https://example.com" 0)
    [("text_content",
      VStr "We are a SaaS platform with 120 employees founded in 2014")]
  = Some {| e_success := true;
            e_data := [("industry", VStr "Software");
                       ("employees", VStr "51-200");
                       ("revenue_band", VStr "$10M-50M");
                       ("founded_year", VInt 2014)];
            e_method := HEURISTIC;
            e_confidence := f0_3 +. f0_2 +. f0_1 +. f0_15;
            e_processing_time := 0 |}
  /\ F64.gtb (f0_3 +. f0_2 +. f0_1 +. f0_15) f0_7 = true.
Proof. split; vm_compute; reflexivity. Qed.

(** ** What the matcher hands to its continuation *)

Lemma rmatch_plus {R : Type} (ic : bool) (r : regex) (s : string)
      (cap : option string) (k : string -> option string -> option R) :
  rmatch ic (Plus r) s cap k
  = plus_loop (rmatch ic r) k (String.length s) s cap.
Proof. reflexivity. Qed.

Lemma orelse_some {A : Type} (a b : option A) (x : A) :
  orelse a b = Some x -> a = Some x \/ b = Some x.
Proof. destruct a; simpl; intros H; [left | right]; exact H. Qed.

Lemma length_app (a b : string) :
  String.length (a ++ b) = (String.length a + String.length b)%nat.
Proof. induction a as [|c a IH]; simpl; [reflexivity | rewrite IH; reflexivity]. Qed.

Lemma app_assoc_str (a b c : string) : (a ++ b) ++ c = a ++ b ++ c.
Proof. induction a as [|x a IH]; simpl; [reflexivity | rewrite IH; reflexivity]. Qed.

Section MatcherFacts.
Variable ic : bool.
Context {R : Type}.
Implicit Types (k : string -> option string -> option R).

(** A pattern without a group hands on the group text that it got. *)
Lemma rmatch_nogrp (r : regex) :
  nogrp r = true ->
  forall s cap k x,
    rmatch ic r s cap k = Some x -> exists s', k s' cap = Some x.
Proof.
  induction r as [|c|c|a IHa b IHb|a IHa b IHb|a IHa|a IHa|a IHa];
    simpl; intros Hn s cap k x H.
  - eauto.
  - destruct s as [|y s']; [discriminate|].
    destruct (chr_eq ic c y); [eauto | discriminate].
  - destruct s as [|y s']; [discriminate|].
    destruct (in_cls c y); [eauto | discriminate].
  - apply andb_prop in Hn as [Ha Hb].
    apply (IHa Ha) in H as [s' H]. apply (IHb Hb) in H. exact H.
  - apply andb_prop in Hn as [Ha Hb].
    apply orelse_some in H as [H|H]; [apply (IHa Ha) in H | apply (IHb Hb) in H];
      exact H.
  - apply orelse_some in H as [H|H]; [apply (IHa Hn) in H; exact H | eauto].
  - change (plus_loop (rmatch ic a) k (String.length s) s cap = Some x) in H.
    revert H. generalize (String.length s). intros n. revert s cap.
    induction n as [|n IHn]; intros s cap H; simpl in H;
      apply (IHa Hn) in H as [s' H]; [eauto|].
    destruct (Nat.ltb (String.length s') (String.length s)); [|eauto].
    apply orelse_some in H as [H|H]; [apply IHn in H; exact H | eauto].
  - discriminate.
Qed.

(** A pattern of bounded length takes a prefix of the text within its
    bounds, and hands on the group text that it got. *)
Lemma rmatch_bounds (r : regex) :
  forall lo hi, bounds r = Some (lo, hi) ->
  forall s cap k x,
    rmatch ic r s cap k = Some x ->
    exists w s', s = w ++ s'
                 /\ (lo <= String.length w <= hi)%nat
                 /\ k s' cap = Some x.
Proof.
  induction r as [|c|c|a IHa b IHb|a IHa b IHb|a IHa|a IHa|a IHa];
    simpl; intros lo hi Hb' s cap k x H.
  - injection Hb' as <- <-. exists "", s. simpl. auto.
  - injection Hb' as <- <-. destruct s as [|y s']; [discriminate|].
    destruct (chr_eq ic c y); [|discriminate].
    exists (String y ""), s'. simpl. auto.
  - injection Hb' as <- <-. destruct s as [|y s']; [discriminate|].
    destruct (in_cls c y); [|discriminate].
    exists (String y ""), s'. simpl. auto.
  - destruct (bounds a) as [[la ha]|]; [|discriminate].
    destruct (bounds b) as [[lb hb]|]; [|discriminate].
    injection Hb' as <- <-.
    apply (IHa _ _ eq_refl) in H as (w1 & s1 & -> & L1 & H).
    apply (IHb _ _ eq_refl) in H as (w2 & s2 & -> & L2 & H).
    exists (w1 ++ w2), s2. rewrite length_app.
    split; [symmetry; apply app_assoc_str | split; [lia | exact H]].
  - destruct (bounds a) as [[la ha]|]; [|discriminate].
    destruct (bounds b) as [[lb hb]|]; [|discriminate].
    injection Hb' as <- <-.
    apply orelse_some in H as [H|H];
      [apply (IHa _ _ eq_refl) in H | apply (IHb _ _ eq_refl) in H];
      destruct H as (w & s' & -> & L & H); exists w, s';
      (split; [reflexivity | split; [lia | exact H]]).
  - destruct (bounds a) as [[la ha]|]; [|discriminate].
    injection Hb' as <- <-.
    apply orelse_some in H as [H|H].
    + apply (IHa _ _ eq_refl) in H as (w & s' & -> & L & H).
      exists w, s'. split; [reflexivity | split; [lia | exact H]].
    + exists "", s. simpl. split; [reflexivity | split; [lia | exact H]].
  - discriminate.
  - discriminate.
Qed.
End MatcherFacts.

Lemma substring_prefix (w s : string) :
  substring 0 (String.length (w ++ s) - String.length s) (w ++ s) = w.
Proof.
  rewrite length_app.
  replace (String.length w + String.length s - String.length s)%nat
    with (String.length w) by lia.
  induction w as [|c w IH]; simpl.
  - destruct s; reflexivity.
  - rewrite IH. reflexivity.
Qed.

(** The text of a group of bounded length is within the bounds. *)
Lemma rmatch_group {R : Type} (ic : bool) (r : regex) (lo hi : nat) :
  bounds r = Some (lo, hi) ->
  forall s cap (k : string -> option string -> option R) x,
    rmatch ic (Grp r) s cap k = Some x ->
    exists w s', (lo <= String.length w <= hi)%nat /\ k s' (Some w) = Some x.
Proof.
  intros Hb s cap k x H. simpl in H.
  apply (rmatch_bounds ic r lo hi Hb) in H as (w & s' & -> & L & H).
  rewrite substring_prefix in H. eauto.
Qed.

Lemma findall_first_inv (ic : bool) (r : regex) (s m : string) :
  findall_first ic r s = Some m ->
  exists s0 cap,
    rmatch ic r s0 None (fun _ cap => Some cap) = Some cap
    /\ m = match cap with Some c => c | None => "" end.
Proof.
  induction s as [|c s IH]; simpl.
  - destruct (rmatch ic r "" None _) as [cap|] eqn:E; [|discriminate].
    intros H. injection H as <-. eauto.
  - destruct (rmatch ic r (String c s) None _) as [cap|] eqn:E.
    + intros H. injection H as <-. eauto.
    + exact IH.
Qed.

(** ** The founding year *)

(** A pattern that ends with its group. *)
Lemma group_at_end (ic : bool) (a g : regex) (lo hi : nat) :
  nogrp a = true -> bounds g = Some (lo, hi) ->
  forall text m,
    findall_first ic (Cat a (Grp g)) text = Some m ->
    (lo <= String.length m <= hi)%nat.
Proof.
  intros Ha Hg text m H.
  apply findall_first_inv in H as (s0 & cap & H & ->).
  change (rmatch ic a s0 None
            (fun s' cap' => rmatch ic (Grp g) s' cap' (fun _ c => Some c))
          = Some cap) in H.
  apply (rmatch_nogrp ic a Ha) in H as [s' H].
  apply (rmatch_group ic g lo hi Hg) in H as (w & s'' & L & H).
  injection H as <-. exact L.
Qed.

(** A pattern that starts with its group. *)
Lemma group_at_start (ic : bool) (g b c : regex) (lo hi : nat) :
  bounds g = Some (lo, hi) -> nogrp b = true -> nogrp c = true ->
  forall text m,
    findall_first ic (Cat (Cat (Grp g) b) c) text = Some m ->
    (lo <= String.length m <= hi)%nat.
Proof.
  intros Hg Hb Hc text m H.
  apply findall_first_inv in H as (s0 & cap & H & ->).
  change (rmatch ic (Grp g) s0 None
            (fun s' cap' => rmatch ic b s' cap'
               (fun s'' cap'' => rmatch ic c s'' cap'' (fun _ c => Some c)))
          = Some cap) in H.
  apply (rmatch_group ic g lo hi Hg) in H as (w & s' & L & H).
  apply (rmatch_nogrp ic b Hb) in H as [s'' H].
  apply (rmatch_nogrp ic c Hc) in H as [s''' H].
  injection H as <-. exact L.
Qed.

(** The year texts of the four patterns have three or four characters. *)
Lemma founded_patterns_texts :
  Forall (fun p => forall text m,
              findall_first true p text = Some m ->
              (3 <= String.length m <= 4)%nat)
         founded_patterns.
Proof.
  unfold founded_patterns.
  repeat apply Forall_cons; [| | | | apply Forall_nil].
  - apply group_at_end; reflexivity.
  - apply group_at_end; reflexivity.
  - intros text m H.
    apply (group_at_start true _ _ _ 4 4) in H; [lia | reflexivity ..].
  - intros text m H.
    apply (group_at_end true _ _ 4 4) in H; [lia | reflexivity ..].
Qed.

(** The branch for a text of two characters is never taken then. *)
Lemma expand_year_returns (m : string) :
  (3 <= String.length m)%nat -> exists year_str, expand_year m = Ret year_str.
Proof.
  intros L. unfold expand_year.
  destruct (startswith "'" m); [eauto|].
  destruct (Nat.eqb (String.length m) 2) eqn:E; [|eauto].
  apply Nat.eqb_eq in E. lia.
Qed.

Lemma accept_year_range (year_str : string) (year : Z) :
  accept_year year_str = Some year -> 1900 <= year <= 2030.
Proof.
  unfold accept_year. destruct (int year_str) as [y|]; [|discriminate].
  destruct ((1900 <=? y) && (y <=? 2030))%bool eqn:E; [|discriminate].
  intros H. injection H as <-.
  apply andb_prop in E as [E1 E2]. split; [apply Z.leb_le | apply Z.leb_le];
    assumption.
Qed.

Lemma founded_year_loop_range (text : string) (patterns : list regex) :
  Forall (fun p => forall text m,
              findall_first true p text = Some m ->
              (3 <= String.length m <= 4)%nat) patterns ->
  match founded_year_loop text patterns with
  | Ret None => True
  | Ret (Some year) => 1900 <= year <= 2030
  | Raise => False
  end.
Proof.
  induction 1 as [|p patterns Hp _ IH]; simpl; [exact I|].
  destruct (findall_first true p text) as [m|] eqn:E; [|exact IH].
  destruct (expand_year_returns m) as [year_str Ey];
    [apply (Hp text m E) |].
  rewrite Ey. simpl.
  destruct (accept_year year_str) as [year|] eqn:Ea; [|exact IH].
  exact (accept_year_range _ _ Ea).
Qed.


Example founded_49_50 :
  _extract_founded_year "founded in '49" = Ret None
  /\ _extract_founded_year "founded in '50" = Ret None
  /\ _extract_founded_year "founded in '05" = Ret (Some 2005).
Proof. repeat split; vm_compute; reflexivity. Qed.

(** The texts "founded in 'NN", for NN from 00 to 49. *)
Example founded_in_two_digits :
  Forall (fun n =>
            _extract_founded_year ("founded in '" ++ two_digits n)
            = Ret (if Nat.leb n 30 then Some (2000 + Z.of_nat n) else None))
         (seq 0 50).
Proof. repeat constructor; vm_compute; reflexivity. Qed.





(** ** Order and sign of binary64 numbers *)

Lemma leb_zero_nonneg (x : F64.float) : F64.leb F64.zero x = nonneg x.
Proof. destruct x as [s|s| |s m e]; try destruct s; reflexivity. Qed.

Lemma compare_antisym (x y : F64.float) (c : comparison) :
  SFcompare x y = Some c -> SFcompare y x = Some (CompOpp c).
Proof.
  destruct x as [sx|sx| |sx mx ex], y as [sy|sy| |sy my ey]; simpl;
    try discriminate;
    try (destruct sx; try destruct sy; intros H; injection H as <-; reflexivity);
    try (destruct sy; intros H; injection H as <-; reflexivity).
  intros H. injection H as <-. f_equal.
  rewrite (Z.compare_antisym ex ey).
  change (Pos.compare_cont Eq my mx) with (Pos.compare my mx).
  change (Pos.compare_cont Eq mx my) with (Pos.compare mx my).
  rewrite (Pos.compare_antisym mx my).
  destruct sx, sy; simpl; try reflexivity;
    destruct (ex ?= ey); simpl; try reflexivity;
    destruct (mx ?= my)%positive; reflexivity.
Qed.

Lemma compare_defined (x y : F64.float) :
  F64.is_nan x = false -> F64.is_nan y = false ->
  exists c, SFcompare x y = Some c.
Proof.
  destruct x as [sx|sx| |sx mx ex], y as [sy|sy| |sy my ey]; simpl;
    try discriminate; eauto.
Qed.

Lemma compare_refl (x : F64.float) :
  F64.is_nan x = false -> SFcompare x x = Some Eq.
Proof.
  destruct x as [s|s| |s m e]; simpl; try discriminate; intros _;
    try (destruct s; reflexivity).
  rewrite Z.compare_refl.
  change (Pos.compare_cont Eq m m) with (Pos.compare m m).
  rewrite Pos.compare_refl. destruct s; reflexivity.
Qed.

Lemma leb_not_nan (x y : F64.float) :
  F64.leb x y = true -> F64.is_nan x = false /\ F64.is_nan y = false.
Proof.
  unfold F64.leb, SFleb.
  destruct x as [sx|sx| |sx mx ex], y as [sy|sy| |sy my ey]; simpl;
    try discriminate; auto.
Qed.

Lemma nonneg_not_nan (x : F64.float) : nonneg x = true -> F64.is_nan x = false.
Proof. destruct x; simpl; [reflexivity | reflexivity | discriminate | reflexivity]. Qed.

(** Among numbers, [x >= c] fails exactly when [x < c]. *)
Lemma not_geb_ltb (x c : F64.float) :
  F64.is_nan x = false -> F64.is_nan c = false ->
  F64.geb x c = false <-> F64.ltb x c = true.
Proof.
  intros Hx Hc. unfold F64.geb, F64.ltb, SFleb, SFltb.
  destruct (compare_defined c x Hc Hx) as [k Hk].
  rewrite Hk, (compare_antisym _ _ _ Hk).
  destruct k; simpl; split; intros H; try reflexivity; discriminate H.
Qed.

Lemma ltb_geb (x c : F64.float) : F64.ltb x c = true -> F64.geb x c = false.
Proof.
  unfold F64.geb, F64.ltb, SFleb, SFltb.
  destruct (SFcompare x c) as [[| |]|] eqn:E; try discriminate.
  intros _. rewrite (compare_antisym _ _ _ E). reflexivity.
Qed.

(** [min(x, c)] is at most [c]. *)
Lemma min_le (x c : F64.float) :
  F64.is_nan x = false -> F64.is_nan c = false ->
  F64.leb (F64.min x c) c = true.
Proof.
  intros Hx Hc. unfold F64.min.
  destruct (F64.ltb c x) eqn:E.
  - unfold F64.leb, SFleb. rewrite (compare_refl c Hc). reflexivity.
  - unfold F64.ltb, SFltb in E. unfold F64.leb, SFleb.
    destruct (compare_defined c x Hc Hx) as [k Hk].
    rewrite Hk in E. rewrite (compare_antisym _ _ _ Hk).
    destruct k; simpl; try reflexivity; discriminate E.
Qed.

Lemma min_nonneg (x c : F64.float) :
  nonneg x = true -> nonneg c = true -> nonneg (F64.min x c) = true.
Proof. intros Hx Hc. unfold F64.min. destruct (F64.ltb c x); assumption. Qed.

(** Shifting and rounding keep a mantissa that is not negative so. *)
Lemma shr_1_nonneg (mrs : shr_record) : 0 <= shr_m mrs -> 0 <= shr_m (shr_1 mrs).
Proof.
  destruct mrs as [m r s]. simpl.
  destruct m as [|[p|p|]|[p|p|]]; simpl; lia.
Qed.

Lemma iter_pos_nonneg (p : positive) (mrs : shr_record) :
  0 <= shr_m mrs -> 0 <= shr_m (iter_pos shr_1 p mrs).
Proof.
  revert mrs. induction p as [p IH|p IH|]; intros mrs H; simpl.
  - apply IH, IH, shr_1_nonneg, H.
  - apply IH, IH, H.
  - apply shr_1_nonneg, H.
Qed.

Lemma shr_nonneg (mrs : shr_record) (e n : Z) :
  0 <= shr_m mrs -> 0 <= shr_m (fst (shr mrs e n)).
Proof.
  intros H. unfold shr. destruct n as [|p|p]; simpl; try exact H.
  apply iter_pos_nonneg, H.
Qed.

Lemma shr_record_of_loc_m (m : Z) (l : location) :
  shr_m (shr_record_of_loc m l) = m.
Proof. destruct l as [|[| |]]; reflexivity. Qed.

Lemma shr_fexp_nonneg (m e : Z) (l : location) :
  0 <= m -> 0 <= shr_m (fst (shr_fexp F64.prec F64.emax m e l)).
Proof.
  intros H. unfold shr_fexp. apply shr_nonneg.
  rewrite shr_record_of_loc_m. exact H.
Qed.

Lemma round_nearest_even_nonneg (m : Z) (l : location) :
  0 <= m -> 0 <= round_nearest_even m l.
Proof.
  intros H. unfold round_nearest_even.
  destruct l as [|[| |]]; try destruct (Z.even m); lia.
Qed.

(** Rounding a mantissa that is not negative gives a number that is not
    negative. *)
Lemma binary_round_aux_nonneg (m e : Z) (l : location) :
  0 <= m -> nonneg (binary_round_aux F64.prec F64.emax false m e l) = true.
Proof.
  intros H. unfold binary_round_aux.
  pose proof (shr_fexp_nonneg m e l H) as H1.
  destruct (shr_fexp F64.prec F64.emax m e l) as [mrs' e'].
  simpl in H1.
  pose proof (round_nearest_even_nonneg _ (loc_of_shr_record mrs') H1) as H2.
  pose proof (shr_fexp_nonneg _ e' loc_Exact H2) as H3.
  destruct (shr_fexp F64.prec F64.emax _ e' loc_Exact) as [mrs'' e''].
  simpl in H3.
  destruct (shr_m mrs'') as [|p|p]; [reflexivity| |lia].
  destruct (e'' <=? F64.emax - F64.prec); reflexivity.
Qed.

Lemma binary_round_nonneg (m : positive) (e : Z) :
  nonneg (binary_round F64.prec F64.emax false m e) = true.
Proof.
  unfold binary_round.
  destruct (shl_align m e _) as [mz ez].
  apply binary_round_aux_nonneg. lia.
Qed.

Lemma of_Z_nonneg (n : Z) : 0 <= n -> nonneg (F64.of_Z n) = true.
Proof.
  intros H. unfold F64.of_Z, binary_normalize.
  destruct n as [|p|p]; [reflexivity | apply binary_round_nonneg | lia].
Qed.

Lemma add_nonneg (x y : F64.float) :
  nonneg x = true -> nonneg y = true -> nonneg (x +. y) = true.
Proof.
  destruct x as [sx|sx| |sx mx ex], y as [sy|sy| |sy my ey]; simpl;
    try discriminate; try (destruct sx, sy; simpl; (reflexivity || discriminate)).
  destruct sx, sy; try discriminate. intros _ _.
  unfold F64.add, SFadd. simpl cond_Zopp. unfold binary_normalize.
  simpl Z.add. apply binary_round_nonneg.
Qed.

(** The product with a positive finite number. *)
Lemma mul_nonneg (x y : F64.float) (m : positive) (e : Z) :
  y = S754_finite false m e ->
  nonneg x = true -> nonneg (x *. y) = true /\ nonneg (y *. x) = true.
Proof.
  intros -> Hx.
  destruct x as [sx|sx| |sx mx ex]; simpl in *; try discriminate;
    try (destruct sx; simpl in *; try discriminate; split; reflexivity).
  destruct sx; [discriminate|].
  split; apply binary_round_aux_nonneg; lia.
Qed.

(** The quotient of a number above zero by a positive finite number. *)
Lemma div_nonneg (x y : F64.float) (m : positive) (e : Z) :
  y = S754_finite false m e ->
  nonneg x = true -> nonneg (F64.div x y) = true.
Proof.
  intros -> Hx.
  destruct x as [sx|sx| |sx mx ex]; simpl in *; try discriminate;
    try (destruct sx; simpl in *; try discriminate; reflexivity).
  destruct sx; [discriminate|].
  unfold F64.div, SFdiv.
  destruct (SFdiv_core_binary F64.prec F64.emax (Z.pos mx) ex (Z.pos m) e)
    as [[mz ez] lz] eqn:E.
  apply binary_round_aux_nonneg.
  unfold SFdiv_core_binary in E.
  match type of E with
  | (let '(q, r) := Z.div_eucl ?a ?b in _) = _ =>
      assert (Ha : 0 <= a);
      [| pose proof (Z.div_pos a b Ha ltac:(lia)) as Hq;
         unfold Z.div in Hq; destruct (Z.div_eucl a b) as [q r];
         injection E as <- _ _; exact Hq]
  end.
  match goal with |- 0 <= match ?s with _ => _ end =>
    destruct s as [|p|p]; [lia | apply Z.shiftl_nonneg; lia | lia] end.
Qed.

(** ** The score *)

(** [score_lead] with the default criteria, unfolded. *)
Lemma score_lead_default (lead : Lead) :
  score_lead lead None
  = {| total_score := F64.min (points_sum lead) f100_0;
       criteria_scores :=
         [ ("industry_match", industry_points lead);
           ("company_size", size_points lead);
           ("email_quality", quality_points (email_confidence lead));
           ("scrape_quality", quality_points (scrape_confidence lead));
           ("enrichment_quality", quality_points (enrichment_confidence lead));
           ("linkedin_presence", linkedin_points lead) ];
       result_label := _classify_lead (F64.min (points_sum lead) f100_0);
       raw_score := points_sum lead |}.
Proof. reflexivity. Qed.

Lemma classify_cases (score : F64.float) :
  _classify_lead score
  = if F64.geb score (F64.of_Z 80) then "Hot Lead"
    else if F64.geb score (F64.of_Z 60) then "Warm Lead"
    else if F64.geb score (F64.of_Z 40) then "Cold Lead"
    else "Disqualified".
Proof. reflexivity. Qed.

Lemma compare_pos_finite (m1 m2 : positive) (e1 e2 : Z) :
  SFcompare (S754_finite false m1 e1) (S754_finite false m2 e2)
  = Some match e1 ?= e2 with
         | Lt => Lt
         | Gt => Gt
         | Eq => (m1 ?= m2)%positive
         end.
Proof. reflexivity. Qed.

Lemma leb_trans_nonneg (x y z : F64.float) :
  nonneg x = true ->
  F64.leb x y = true -> F64.leb y z = true -> F64.leb x z = true.
Proof.
  unfold F64.leb, SFleb.
  destruct x as [sx|sx| |sx mx ex]; try discriminate;
    destruct y as [sy|sy| |sy my ey]; try discriminate;
    destruct z as [sz|sz| |sz mz ez]; try discriminate;
    try (destruct sx); try (destruct sy); try (destruct sz);
    try discriminate; try reflexivity.
  intros _. rewrite !compare_pos_finite.
  destruct (Z.compare_spec ex ey) as [E1|E1|E1]; try discriminate;
    destruct (Z.compare_spec ey ez) as [E2|E2|E2]; try discriminate;
    destruct (Z.compare_spec ex ez) as [E3|E3|E3]; try lia;
    try reflexivity.
  destruct (Pos.compare_spec mx my) as [F1|F1|F1]; try discriminate;
    destruct (Pos.compare_spec my mz) as [F2|F2|F2]; try discriminate;
    destruct (Pos.compare_spec mx mz) as [F3|F3|F3]; try lia;
    reflexivity.
Qed.

(** A number that is at least 80 is at least 60, and so on. *)
Lemma geb_of_Z_weaken (x : F64.float) :
  (F64.geb x (F64.of_Z 80) = true -> F64.geb x (F64.of_Z 60) = true)
  /\ (F64.geb x (F64.of_Z 60) = true -> F64.geb x (F64.of_Z 40) = true).
Proof.
  unfold F64.geb. split; intros H.
  - apply (leb_trans_nonneg _ (F64.of_Z 80)); [reflexivity | reflexivity | exact H].
  - apply (leb_trans_nonneg _ (F64.of_Z 60)); [reflexivity | reflexivity | exact H].
Qed.

Lemma geb_not_nan (x c : F64.float) :
  F64.geb x c = true -> F64.is_nan x = false.
Proof. intros H. apply leb_not_nan in H. apply H. Qed.

(** The bands of the label, for any score. *)
Lemma classify_bands (score : F64.float) :
  (_classify_lead score = "Hot Lead" <-> F64.geb score (F64.of_Z 80) = true)
  /\ (_classify_lead score = "Warm Lead"
      <-> F64.geb score (F64.of_Z 60) = true
          /\ F64.ltb score (F64.of_Z 80) = true)
  /\ (_classify_lead score = "Cold Lead"
      <-> F64.geb score (F64.of_Z 40) = true
          /\ F64.ltb score (F64.of_Z 60) = true)
  /\ (_classify_lead score = "Disqualified"
      <-> F64.geb score (F64.of_Z 40) = false).
Proof.
  rewrite classify_cases.
  destruct (geb_of_Z_weaken score) as [W1 W2].
  destruct (F64.geb score (F64.of_Z 80)) eqn:E80;
    destruct (F64.geb score (F64.of_Z 60)) eqn:E60;
    destruct (F64.geb score (F64.of_Z 40)) eqn:E40;
    try (specialize (W1 eq_refl); discriminate W1);
    try (specialize (W2 eq_refl); discriminate W2);
    clear W1 W2;
    repeat match goal with
           | |- _ /\ _ => split
           | |- _ <-> _ => split; intros ?H
           | H : _ /\ _ |- _ => destruct H as [?H ?H]
           | H : F64.ltb _ _ = true |- _ => apply ltb_geb in H
           | |- F64.ltb _ _ = true =>
               apply not_geb_ltb;
               [eapply geb_not_nan; eassumption | reflexivity | assumption]
           end;
    congruence.
Qed.

(** The loop of [score_lead]: the recorded scores and the running
    total. *)
Lemma score_loop_folds (lead : Lead) (criteria : list ScoringCriteria) :
  forall scores total,
    score_loop lead criteria scores total
    = (fold_left (fun d c => scores_set d (name c) (_evaluate_criterion lead c))
                 criteria scores,
       fold_left (fun t c => t +. _evaluate_criterion lead c) criteria total).
Proof.
  induction criteria as [|c criteria IH]; intros scores total;
    cbn [score_loop fold_left]; [reflexivity | apply IH].
Qed.

Lemma scores_set_fresh (l : list (string * F64.float)) (k : string)
      (x : F64.float) :
  ~ In k (map fst l) -> scores_set l k x = (l ++ [(k, x)])%list.
Proof.
  induction l as [|[k' x'] l IH]; cbn [scores_set map fst app In];
    intros N; [reflexivity|].
  destruct (String.eqb k k') eqn:E.
  - apply String.eqb_eq in E. subst k'. exfalso. apply N. left. reflexivity.
  - rewrite IH; [reflexivity|]. intros I. apply N. right. exact I.
Qed.

(** With criteria of different names, a score is recorded for each, in
    the order of the list. *)
Lemma scores_recorded (lead : Lead) (criteria : list ScoringCriteria) :
  forall scores,
    NoDup (map fst scores ++ map name criteria) ->
    fold_left (fun d c => scores_set d (name c) (_evaluate_criterion lead c))
              criteria scores
    = (scores
       ++ map (fun c => (name c, _evaluate_criterion lead c)) criteria)%list.
Proof.
  induction criteria as [|c criteria IH]; intros scores N;
    cbn [fold_left map].
  - rewrite app_nil_r. reflexivity.
  - cbn [map] in N.
    rewrite scores_set_fresh
      by (apply NoDup_remove_2 in N; intros I; apply N, in_or_app; left; exact I).
    rewrite IH.
    + rewrite <- app_assoc. reflexivity.
    + rewrite map_app. cbn [map fst]. rewrite <- app_assoc. exact N.
Qed.

Lemma sum_scores_map (lead : Lead) (criteria : list ScoringCriteria) :
  forall total,
    fold_left (fun t kv => t +. snd kv)
              (map (fun c => (name c, _evaluate_criterion lead c)) criteria)
              total
    = fold_left (fun t c => t +. _evaluate_criterion lead c) criteria total.
Proof.
  induction criteria as [|c criteria IH]; intros total; cbn [map fold_left snd];
    [reflexivity | apply IH].
Qed.

(** C6: for the default criteria and for any custom ones, the total is
    the least of 100 and the sum of the scores of the criteria, added
    in their order from 0.0; with criteria of different names, as the
    default ones are, the recorded scores are theirs and the sum is the
    sum of the recorded scores.  The label follows the bands: Hot from
    80, Warm from 60 to below 80, Cold from 40 to below 60,
    Disqualified otherwise. *)
Theorem score_total_and_label :
  forall (lead : Lead) (custom_criteria : option (list ScoringCriteria)),
    let criteria :=
      match custom_criteria with
      | Some (c :: l) => c :: l
      | _ => default_criteria
      end in
    let r := score_lead lead custom_criteria in
    raw_score r
    = fold_left (fun total c => total +. _evaluate_criterion lead c)
                criteria f0_0
    /\ total_score r = F64.min (raw_score r) f100_0
    /\ (NoDup (map name criteria) ->
        map fst (criteria_scores r) = map name criteria
        /\ map snd (criteria_scores r)
           = map (_evaluate_criterion lead) criteria
        /\ raw_score r = sum_scores (criteria_scores r))
    /\ NoDup (map name default_criteria)
    /\ (result_label r = "Hot Lead"
        <-> F64.geb (total_score r) (F64.of_Z 80) = true)
    /\ (result_label r = "Warm Lead"
        <-> F64.geb (total_score r) (F64.of_Z 60) = true
            /\ F64.ltb (total_score r) (F64.of_Z 80) = true)
    /\ (result_label r = "Cold Lead"
        <-> F64.geb (total_score r) (F64.of_Z 40) = true
            /\ F64.ltb (total_score r) (F64.of_Z 60) = true)
    /\ (result_label r = "Disqualified"
        <-> F64.geb (total_score r) (F64.of_Z 40) = false).
Proof.
  intros lead custom_criteria criteria r.
  assert (E : r = {| total_score :=
                       F64.min (snd (score_loop lead criteria [] f0_0)) f100_0;
                     criteria_scores := fst (score_loop lead criteria [] f0_0);
                     result_label :=
                       _classify_lead
                         (F64.min (snd (score_loop lead criteria [] f0_0))
                                  f100_0);
                     raw_score := snd (score_loop lead criteria [] f0_0) |}).
  { unfold r, score_lead. fold criteria.
    destruct (score_loop lead criteria [] f0_0). reflexivity. }
  rewrite E. cbn [total_score criteria_scores result_label raw_score].
  rewrite score_loop_folds. cbn [fst snd].
  split; [reflexivity | split; [reflexivity | split; [|split]]].
  - intros N. rewrite scores_recorded by exact N. cbn [app].
    rewrite !map_map. cbn [fst snd].
    split; [reflexivity | split; [reflexivity|]].
    unfold sum_scores. rewrite sum_scores_map. reflexivity.
  - unfold default_criteria. cbn [map name].
    repeat (constructor; [cbn [In]; intuition discriminate|]). constructor.
  - apply classify_bands.
Qed.

Lemma score_total_and_label_witness :
  map fst (criteria_scores
             (score_lead (lead_of (Some "Acme") (Some "Software") None) None))
  = ["industry_match"; "company_size"; "email_quality"; "scrape_quality";
     "enrichment_quality"; "linkedin_presence"].
Proof.
  pose proof (score_total_and_label
                (lead_of (Some "Acme") (Some "Software") None) None)
    as (_ & _ & H & N & _).
  exact (proj1 (H N)).
Defined.

(** ** The confidences *)


Lemma between_0_min (hi score : F64.float) :
  nonneg score = true -> nonneg hi = true ->
  between_0 hi (F64.min score hi) = true.
Proof.
  intros Hs Hh. unfold between_0.
  rewrite leb_zero_nonneg, (min_nonneg _ _ Hs Hh).
  apply min_le; apply nonneg_not_nan; assumption.
Qed.

Lemma between_0_weaken (hi hi' x : F64.float) :
  F64.leb hi hi' = true -> between_0 hi x = true -> between_0 hi' x = true.
Proof.
  unfold between_0. intros Hh H. apply andb_prop in H as [H0 H1].
  rewrite H0. simpl. rewrite leb_zero_nonneg in H0.
  exact (leb_trans_nonneg _ _ _ H0 H1 Hh).
Qed.

Lemma bump_nonneg (b : bool) (inc score : F64.float) :
  nonneg inc = true -> nonneg score = true -> nonneg (bump b inc score) = true.
Proof.
  intros Hi Hs. unfold bump. destruct b; [apply add_nonneg|]; assumption.
Qed.

Lemma bumps_nonneg {A : Type} (f : A -> bool) (inc : F64.float) (l : list A)
      (score : F64.float) :
  nonneg inc = true -> nonneg score = true ->
  nonneg (fold_left (fun score x => bump (f x) inc score) l score) = true.
Proof.
  intros Hi. revert score. induction l as [|x l IH]; intros score Hs; simpl.
  - exact Hs.
  - apply IH, bump_nonneg; assumption.
Qed.

Lemma json_ld_confidence_in_unit (data : dict) :
  in_unit (_calculate_json_ld_confidence data) = true.
Proof.
  unfold _calculate_json_ld_confidence. apply between_0_min; [|reflexivity].
  apply bumps_nonneg; [reflexivity|].
  repeat (apply bump_nonneg; [reflexivity|]). reflexivity.
Qed.

Lemma meta_confidence_in_unit (data : dict) :
  in_unit (_calculate_meta_confidence data) = true.
Proof.
  unfold _calculate_meta_confidence. apply between_0_min; [|reflexivity].
  repeat (apply bump_nonneg; [reflexivity|]). reflexivity.
Qed.

Lemma playwright_confidence_in_unit (data : dict) :
  in_unit (_calculate_playwright_confidence data) = true.
Proof.
  unfold _calculate_playwright_confidence. apply between_0_min; [|reflexivity].
  repeat (apply bump_nonneg; [reflexivity|]). reflexivity.
Qed.

(** The fallback's confidence is one of the 64 values of the headless
    tier's, times 0.8: at most 0.8. *)
Lemma fallback_confidence_in_unit (data : dict) :
  between_0 f0_8 (_calculate_playwright_confidence data *. f0_8) = true.
Proof.
  unfold _calculate_playwright_confidence.
  generalize (get_truthy data "title")
             (get_truthy data "meta_description" || get_truthy data "og_description")%bool
             (get_truthy data "email") (get_truthy data "phone")
             (get_truthy data "links" && Nat.ltb 5 (links_len data))%bool
             (get_truthy data "potential_company_name").
  intros b1 b2 b3 b4 b5 b6.
  destruct b1, b2, b3, b4, b5, b6; vm_compute; reflexivity.
Qed.

Lemma json_ld_tier_in_unit (w : World) :
  in_unit (confidence (_extract_json_ld w)) = true.
Proof.
  unfold _extract_json_ld.
  destruct (session w); simpl; [|reflexivity].
  destruct (get_json_ld w) as [msg|status page]; [reflexivity|].
  destruct (negb (status =? 200)); [reflexivity|].
  destruct page as [[|s scripts]|msg]; try reflexivity.
  destruct (collect_json_ld (s :: scripts) []) as [[|kv all_data]|msg];
    try reflexivity.
  apply json_ld_confidence_in_unit.
Qed.

Lemma meta_tier_in_unit (urljoin : string -> try string) (w : World) :
  in_unit (confidence (_extract_meta_data urljoin w)) = true.
Proof.
  unfold _extract_meta_data.
  destruct (session w); simpl; [|reflexivity].
  destruct (get_meta w) as [msg|status page]; [reflexivity|].
  destruct (negb (status =? 200)); [reflexivity|].
  destruct page as [soup|msg]; [|reflexivity].
  destruct (meta_data urljoin soup) as [[|kv data]|msg] eqn:E;
    try reflexivity.
  apply meta_confidence_in_unit.
Qed.

Lemma fallback_tier_in_unit (w : World) :
  between_0 f0_8 (confidence (_scrape_with_requests_fallback w)) = true.
Proof.
  unfold _scrape_with_requests_fallback.
  destruct (requests_get w) as [msg|status page]; [reflexivity|].
  destruct (negb (status =? 200)); [reflexivity|].
  destruct page as [soup|msg]; [|reflexivity].
  destruct (netloc w) as [domain_netloc|msg]; [|reflexivity].
  destruct (with_company_name domain_netloc (plain_data soup)) as [|kv data];
    [reflexivity|].
  apply fallback_confidence_in_unit.
Qed.

Lemma playwright_tier_in_unit (w : World) :
  in_unit (confidence (snd (_scrape_with_playwright w))) = true.
Proof.
  assert (F : in_unit (confidence (_scrape_with_requests_fallback w)) = true)
    by (apply (between_0_weaken f0_8); [reflexivity | apply fallback_tier_in_unit]).
  unfold _scrape_with_playwright.
  destruct (browser w) as [|msg|msg|status data]; simpl.
  - reflexivity.
  - destruct (is_platform_error msg); simpl; [exact F | reflexivity].
  - destruct (is_platform_error msg); simpl; [exact F | reflexivity].
  - destruct status as [st|]; [destruct (negb (st =? 200))|];
      try destruct data as [[|kv d]|]; simpl; try reflexivity;
      apply playwright_confidence_in_unit.
Qed.

Lemma found_nonneg (k : string) (v : option value) (inc : F64.float)
      (acc : dict * F64.float) :
  nonneg inc = true -> nonneg (snd acc) = true ->
  nonneg (snd (found k v inc acc)) = true.
Proof.
  intros Hi Ha. unfold found. destruct v; simpl; [apply add_nonneg|]; assumption.
Qed.

Lemma heuristic_confidence (lead : Lead) (scraped_data : dict) :
  match _heuristic_enrichment lead scraped_data with
  | Some r => between_0 f0_9 (e_confidence r) = true
  | None => True
  end.
Proof.
  unfold _heuristic_enrichment, heuristic_body, ebind.
  destruct (_get_text_for_analysis lead scraped_data) as [text|]; [|exact I].
  destruct (_estimate_employees (lower text)) as [emp|]; [|exact I].
  destruct (_extract_founded_year text) as [year|]; [|exact I].
  match goal with |- context [match fst ?a with _ => _ end] =>
    assert (N : nonneg (snd a) = true); [|destruct (fst a); [exact I|]] end.
  { apply found_nonneg; [reflexivity|].
    apply found_nonneg; [reflexivity|].
    apply found_nonneg; [reflexivity|].
    destruct (truthy emp);
      repeat (apply found_nonneg; [reflexivity|]); reflexivity. }
  cbv [e_confidence]. apply between_0_min; [exact N | reflexivity].
Qed.

Lemma llm_confidence (env : LlmEnv) (lead : Lead) (scraped_data : dict) :
  match _llm_enrichment env lead scraped_data with
  | Some r => between_0 f0_8 (e_confidence r) = true
  | None => True
  end.
Proof.
  unfold _llm_enrichment.
  destruct (negb (langchain_installed env)); [exact I|].
  destruct (_ || _)%bool; [exact I|].
  destruct (_get_text_for_analysis lead scraped_data) as [text|]; [|exact I].
  destruct (chain_invoke env _ _ _) as [| | |parsed]; try exact I.
  destruct (filter not_none parsed) as [|kv l]; [exact I|].
  cbv [e_confidence]. apply between_0_min; [|reflexivity].
  apply add_nonneg; [reflexivity|].
  apply (mul_nonneg _ f0_1 _ _ eq_refl).
  apply of_Z_nonneg. lia.
Qed.

(** C10: the confidence of every tier of the scraper, and so of
    [scrape], is between 0 and 1 (that of the plain-request fallback at
    most 0.8); the confidence of the heuristic strategy is between 0 and
    0.9 and that of the language-model strategy between 0 and 0.8. *)
Theorem confidences_in_unit :
  (forall w : World, in_unit (confidence (_extract_json_ld w)) = true)
  /\ (forall (urljoin : string -> try string) (w : World),
         in_unit (confidence (_extract_meta_data urljoin w)) = true)
  /\ (forall w : World,
         in_unit (confidence (snd (_scrape_with_playwright w))) = true)
  /\ (forall w : World,
         in_unit (confidence (_scrape_with_requests_fallback w)) = true)
  /\ (forall (urljoin : string -> try string) (w : World) (elapsed : F64.float),
         in_unit (confidence (snd (scrape urljoin w elapsed))) = true)
  /\ (forall (lead : Lead) (scraped_data : dict),
         match _heuristic_enrichment lead scraped_data with
         | Some r => between_0 f0_9 (e_confidence r) = true
                     /\ in_unit (e_confidence r) = true
         | None => True
         end)
  /\ (forall (env : LlmEnv) (lead : Lead) (scraped_data : dict),
         match _llm_enrichment env lead scraped_data with
         | Some r => between_0 f0_8 (e_confidence r) = true
                     /\ in_unit (e_confidence r) = true
         | None => True
         end).
Proof.
  split; [exact json_ld_tier_in_unit|].
  split; [exact meta_tier_in_unit|].
  split; [exact playwright_tier_in_unit|].
  split; [intros w; apply (between_0_weaken f0_8);
          [reflexivity | apply fallback_tier_in_unit]|].
  split.
  { intros urljoin w elapsed.
    destruct (scrape_first_gate urljoin w elapsed) as [E _]. rewrite E.
    destruct (_ && _)%bool; [apply json_ld_tier_in_unit|].
    destruct (_ && _)%bool; [apply meta_tier_in_unit|].
    apply playwright_tier_in_unit. }
  split.
  - intros lead scraped_data.
    pose proof (heuristic_confidence lead scraped_data) as H.
    destruct (_heuristic_enrichment lead scraped_data) as [r|]; [|exact I].
    split; [exact H | apply (between_0_weaken f0_9); [reflexivity | exact H]].
  - intros env lead scraped_data.
    pose proof (llm_confidence env lead scraped_data) as H.
    destruct (_llm_enrichment env lead scraped_data) as [r|]; [|exact I].
    split; [exact H | apply (between_0_weaken f0_8); [reflexivity | exact H]].
Qed.

(** The bounds are reached. *)
Example heuristic_cap_reached :
  F64.min (f0_0 +. f0_3 +. f0_2 +. f0_1 +. f0_15 +. f0_1 +. f0_15) f0_9 = f0_9
  /\ F64.min (f0_5 +. (F64.of_Z 6 *. f0_1)) f0_8 = f0_8.
Proof. split; vm_compute; reflexivity. Qed.

(** * Further properties *)

(** ** The scorer *)

Lemma geb_nonneg (x c : F64.float) :
  nonneg c = true -> F64.geb x c = true -> nonneg x = true.
Proof.
  unfold F64.geb, SFleb.
  destruct c as [sc|sc| |sc mc ec]; try discriminate;
    destruct x as [sx|sx| |sx mx ex]; try reflexivity;
    try (destruct sc); try (destruct sx); try discriminate; try reflexivity.
Qed.

Lemma quality_points_nonneg (c : F64.float) : nonneg (quality_points c) = true.
Proof.
  unfold quality_points.
  destruct (F64.geb c f0_6) eqn:E; [|reflexivity].
  apply (mul_nonneg _ f15_0 _ _ eq_refl).
  apply (div_nonneg _ f1_0 _ _ eq_refl).
  exact (geb_nonneg c f0_6 eq_refl E).
Qed.

Lemma points_sum_nonneg (lead : Lead) : nonneg (points_sum lead) = true.
Proof.
  unfold points_sum.
  repeat apply add_nonneg; try apply quality_points_nonneg; try reflexivity.
  - unfold industry_points. destruct (one_of _ _); reflexivity.
  - unfold size_points. destruct (one_of _ _); reflexivity.
  - unfold linkedin_points. destruct (truthy _); reflexivity.
Qed.

(** The score of every lead, whatever floats its confidences are (NaN
    and infinities too), is a number from 0 to 100. *)
Theorem score_in_range :
  forall lead : Lead,
    between_0 f100_0 (total_score (score_lead lead None)) = true.
Proof.
  intros lead. rewrite score_lead_default. cbv [total_score].
  apply between_0_min; [apply points_sum_nonneg | reflexivity].
Qed.

Lemma evaluate_ignores_weight (lead : Lead) (w : F64.float) (c : ScoringCriteria) :
  _evaluate_criterion lead (with_weight w c) = _evaluate_criterion lead c.
Proof. reflexivity. Qed.

Lemma score_loop_ignores_weights (lead : Lead) (f : ScoringCriteria -> F64.float)
      (criteria : list ScoringCriteria) :
  forall scores total,
    score_loop lead (map (fun c => with_weight (f c) c) criteria) scores total
    = score_loop lead criteria scores total.
Proof.
  induction criteria as [|c criteria IH]; intros scores total; [reflexivity|].
  cbn [map score_loop]. rewrite evaluate_ignores_weight.
  change (name (with_weight (f c) c)) with (name c). apply IH.
Qed.

(** The weights of the criteria are never used: giving the criteria
    other weights gives the same score, label and breakdown. *)
Theorem score_ignores_weights :
  forall (lead : Lead) (f : ScoringCriteria -> F64.float)
         (criteria : list ScoringCriteria),
    score_lead lead (Some (map (fun c => with_weight (f c) c) criteria))
    = score_lead lead (Some criteria).
Proof.
  intros lead f criteria. unfold score_lead.
  destruct criteria as [|c criteria]; [reflexivity|].
  change (map (fun c0 => with_weight (f c0) c0) (c :: criteria))
    with (with_weight (f c) c
          :: map (fun c0 => with_weight (f c0) c0) criteria).
  cbv iota beta.
  change (with_weight (f c) c :: map (fun c0 => with_weight (f c0) c0) criteria)
    with (map (fun c0 => with_weight (f c0) c0) (c :: criteria)).
  rewrite score_loop_ignores_weights. reflexivity.
Qed.

Lemma score_unweighted (lead : Lead) (criteria : list ScoringCriteria) :
  score_lead lead (Some criteria)
  = score_lead lead (Some (map (with_weight f0_0) criteria)).
Proof.
  unfold score_lead.
  destruct criteria as [|c criteria]; [reflexivity|].
  change (map (with_weight f0_0) (c :: criteria))
    with (with_weight f0_0 c :: map (with_weight f0_0) criteria).
  cbv iota beta.
  change (with_weight f0_0 c :: map (with_weight f0_0) criteria)
    with (map (fun c0 => with_weight ((fun _ => f0_0) c0) c0) (c :: criteria)).
  rewrite score_loop_ignores_weights. reflexivity.
Qed.

Lemma unweighted_temp_criteria (custom_weights : list (string * F64.float)) :
  map (with_weight f0_0) (temp_criteria custom_weights)
  = map (with_weight f0_0) (criteria_named (map fst custom_weights)).
Proof.
  induction custom_weights as [|[n w] rest IH]; [reflexivity|].
  cbn [temp_criteria map fst criteria_named].
  destruct (original_criterion n) as [original|]; [|exact IH].
  cbn [map]. rewrite IH. reflexivity.
Qed.

Lemma unweighted_normalize (criteria : list ScoringCriteria) :
  map (with_weight f0_0) (normalize_weights criteria)
  = map (with_weight f0_0) criteria.
Proof.
  unfold normalize_weights.
  destruct (F64.gtb (sum_weights criteria) F64.zero); [|reflexivity].
  rewrite map_map. reflexivity.
Qed.

(** [calculate_custom_score] uses the custom weights for their names
    only: the score is that of the default criteria of these names, and
    the values of the weights change nothing. *)
Theorem custom_score_ignores_weight_values :
  forall (temp_lead : Lead) (custom_weights : list (string * F64.float)),
    calculate_custom_score temp_lead custom_weights
    = score_lead temp_lead (Some (criteria_named (map fst custom_weights))).
Proof.
  intros temp_lead custom_weights. unfold calculate_custom_score.
  rewrite score_unweighted, unweighted_normalize, unweighted_temp_criteria.
  symmetry. apply score_unweighted.
Qed.

(** What [get_scoring_config] returns passes the validation of
    [update_scoring_config]; a configuration without criteria does not. *)
Theorem scoring_config_round_trip :
  forall organization_id : Z,
    update_scoring_config organization_id (get_scoring_config organization_id)
    = true
    /\ update_scoring_config organization_id [] = false.
Proof. intros organization_id. split; vm_compute; reflexivity. Qed.

(** ** The heuristics of the enricher *)

Lemma best_industry_first_best (text : string) :
  forall (l done : list (string * list string)) (best : option (string * nat)),
    match best with
    | None => forall x, In x done -> keyword_score text (snd x) = 0%nat
    | Some (n, sc) =>
        exists keywords before after,
          done = (before ++ (n, keywords) :: after)%list
          /\ keyword_score text keywords = sc /\ (0 < sc)%nat
          /\ (forall x, In x before -> (keyword_score text (snd x) < sc)%nat)
          /\ (forall x, In x after -> (keyword_score text (snd x) <= sc)%nat)
    end ->
    match best_industry text l best with
    | None => forall x, In x (done ++ l)%list -> keyword_score text (snd x) = 0%nat
    | Some (n, sc) =>
        exists keywords before after,
          (done ++ l)%list = (before ++ (n, keywords) :: after)%list
          /\ keyword_score text keywords = sc /\ (0 < sc)%nat
          /\ (forall x, In x before -> (keyword_score text (snd x) < sc)%nat)
          /\ (forall x, In x after -> (keyword_score text (snd x) <= sc)%nat)
    end.
Proof.
  induction l as [|[name keywords] l IH]; intros done best Hinv.
  - cbn [best_industry]. rewrite app_nil_r. exact Hinv.
  - cbn [best_industry].
    replace (done ++ (name, keywords) :: l)%list
      with ((done ++ [(name, keywords)]) ++ l)%list
      by (rewrite <- app_assoc; reflexivity).
    apply IH.
    destruct (Nat.ltb 0 (keyword_score text keywords)) eqn:Epos.
    + apply Nat.ltb_lt in Epos.
      destruct best as [[bn bs]|].
      * destruct Hinv as (kw & before & after & -> & Hs & Hp & Hb & Ha).
        destruct (Nat.ltb bs (keyword_score text keywords)) eqn:Elt.
        -- apply Nat.ltb_lt in Elt.
           exists keywords, (before ++ (bn, kw) :: after)%list, [].
           split; [reflexivity|]. split; [reflexivity|]. split; [exact Epos|].
           split; [|intros x []].
           intros x Hx. apply in_app_or in Hx as [Hx|[<-|Hx]].
           ++ specialize (Hb x Hx). lia.
           ++ simpl. lia.
           ++ specialize (Ha x Hx). lia.
        -- apply Nat.ltb_ge in Elt.
           exists kw, before, (after ++ [(name, keywords)])%list.
           split; [rewrite <- app_assoc; reflexivity|].
           split; [exact Hs|]. split; [exact Hp|]. split; [exact Hb|].
           intros x Hx. apply in_app_or in Hx as [Hx|[<-|[]]].
           ++ exact (Ha x Hx).
           ++ simpl. exact Elt.
      * exists keywords, done, [].
        split; [reflexivity|]. split; [reflexivity|]. split; [exact Epos|].
        split; [|intros x []].
        intros x Hx. rewrite (Hinv x Hx). exact Epos.
    + apply Nat.ltb_ge in Epos.
      destruct best as [[bn bs]|].
      * destruct Hinv as (kw & before & after & -> & Hs & Hp & Hb & Ha).
        exists kw, before, (after ++ [(name, keywords)])%list.
        split; [rewrite <- app_assoc; reflexivity|].
        split; [exact Hs|]. split; [exact Hp|]. split; [exact Hb|].
        intros x Hx. apply in_app_or in Hx as [Hx|[<-|[]]].
        -- exact (Ha x Hx).
        -- simpl. lia.
      * intros x Hx. apply in_app_or in Hx as [Hx|[<-|[]]].
        -- exact (Hinv x Hx).
        -- simpl. lia.
Qed.

(** [_infer_industry] returns the first industry of the table with the
    greatest number of keywords in the text, and nothing exactly when no
    keyword of any industry is in the text. *)
Theorem infer_industry_first_best :
  forall text : string,
    match _infer_industry text with
    | Some n => first_best text industry_keywords n
    | None =>
        forall n keywords k,
          In (n, keywords) industry_keywords -> In k keywords ->
          contains k text = false
    end.
Proof.
  intros text. unfold _infer_industry.
  pose proof (best_industry_first_best text industry_keywords [] None) as H.
  cbn [app] in H. specialize (H (fun x (F : In x []) => match F with end)).
  destruct (best_industry text industry_keywords None) as [[n sc]|];
    cbn [option_map fst].
  - destruct H as (kw & before & after & E & Hs & Hp & Hb & Ha).
    exists kw, before, after. rewrite Hs. auto.
  - intros n keywords k Hin Hk.
    specialize (H (n, keywords) Hin). cbn [snd] in H.
    unfold keyword_score in H.
    destruct (contains k text) eqn:E; [|reflexivity].
    assert (Hf : In k (filter (fun k0 => contains k0 text) keywords))
      by (apply filter_In; split; assumption).
    destruct (filter (fun k0 => contains k0 text) keywords);
      [destruct Hf | discriminate H].
Qed.

(** A repetition of a class takes a non-empty run of its characters. *)
Lemma plus_cls_consumes (ic : bool) (c : cls) :
  consumes ic (Plus (Cls c)) (fun w => w <> "" /\ all_in (in_cls c) w = true).
Proof.
  intros R s cap k x H. rewrite rmatch_plus in H.
  revert H. generalize (String.length s). intros n. revert s.
  induction n as [|n IH]; intros s H; cbn [plus_loop rmatch] in H;
    destruct s as [|y s1]; try discriminate H;
    destruct (in_cls c y) eqn:Ey; try discriminate H.
  - exists (String y ""), s1. cbn. rewrite Ey. repeat split; [discriminate | exact H].
  - destruct (Nat.ltb (String.length s1) (String.length (String y s1))).
    + apply orelse_some in H as [H|H].
      * apply IH in H as (w & s' & -> & [_ Hw] & H).
        exists (String y w), s'. cbn. rewrite Ey, Hw.
        repeat split; [discriminate | exact H].
      * exists (String y ""), s1. cbn. rewrite Ey.
        repeat split; [discriminate | exact H].
    + exists (String y ""), s1. cbn. rewrite Ey.
      repeat split; [discriminate | exact H].
Qed.

Lemma captures_grp (ic : bool) (r : regex) (P : string -> Prop) :
  consumes ic r P -> captures ic (Grp r) P.
Proof.
  intros Hr R s cap k x H. cbn [rmatch] in H.
  apply Hr in H as (w & s' & -> & Hw & H).
  rewrite substring_prefix in H. eauto.
Qed.

Lemma captures_cat_l (ic : bool) (a b : regex) (P : string -> Prop) :
  captures ic a P -> nogrp b = true -> captures ic (Cat a b) P.
Proof.
  intros Ha Hb R s cap k x H. cbn [rmatch] in H.
  apply Ha in H as (s' & w & Hw & H).
  apply (rmatch_nogrp ic b Hb) in H as [s'' H]. eauto.
Qed.

Lemma captures_cat_r (ic : bool) (a b : regex) (P : string -> Prop) :
  nogrp a = true -> captures ic b P -> captures ic (Cat a b) P.
Proof.
  intros Ha Hb R s cap k x H. cbn [rmatch] in H.
  apply (rmatch_nogrp ic a Ha) in H as [s' H].
  apply Hb in H. exact H.
Qed.

Lemma findall_first_captures (ic : bool) (r : regex) (P : string -> Prop)
      (text m : string) :
  captures ic r P -> findall_first ic r text = Some m -> P m.
Proof.
  intros Hr H. apply findall_first_inv in H as (s0 & cap & H & ->).
  apply Hr in H as (s' & w & Hw & H). injection H as <-. exact Hw.
Qed.

Lemma int_digits_total (s : string) :
  all_in is_digit s = true -> forall acc, exists n, int_digits acc s = Some n.
Proof.
  induction s as [|c s IH]; intros H acc; cbn [int_digits].
  - eauto.
  - cbn [all_in] in H. apply andb_prop in H as [Hc Hs].
    rewrite Hc. apply IH, Hs.
Qed.

(** [int] raises on a run of digits only beyond the limit of the
    digits. *)
Lemma int_of_digits (s : string) :
  s <> "" -> all_in is_digit s = true ->
  (String.length s <= int_max_str_digits)%nat ->
  exists n, int s = Ret n.
Proof.
  intros Hne Hd Hl. unfold int. destruct s as [|c s]; [contradiction|].
  replace (Nat.ltb int_max_str_digits (String.length (String c s))) with false
    by (symmetry; apply Nat.ltb_ge; exact Hl).
  destruct (int_digits_total _ Hd 0) as [n ->]. eauto.
Qed.

Lemma int_beyond_limit (s : string) :
  (int_max_str_digits < String.length s)%nat -> int s = Raise.
Proof.
  intros Hl. unfold int. destruct s as [|c s]; [reflexivity|].
  replace (Nat.ltb int_max_str_digits (String.length (String c s))) with true
    by (symmetry; apply Nat.ltb_lt; exact Hl).
  reflexivity.
Qed.

Lemma substring_length_le (m : nat) (s : string) :
  (String.length (substring 0 m s) <= String.length s)%nat.
Proof.
  revert s. induction m as [|m IH]; intros s; destruct s as [|c s];
    cbn [substring String.length]; try lia.
  specialize (IH s). lia.
Qed.

Section GroupLength.
Variable ic : bool.
Context {R : Type}.
Variable n : nat.

(** The text of the group is not longer than the text that is matched. *)
Lemma rmatch_group_length (r : regex) :
  forall (s : string) (cap : option string)
         (k : string -> option string -> option R) (x : R),
    (String.length s <= n)%nat ->
    (forall w, cap = Some w -> (String.length w <= n)%nat) ->
    rmatch ic r s cap k = Some x ->
    exists s' cap',
      (String.length s' <= String.length s)%nat
      /\ (forall w, cap' = Some w -> (String.length w <= n)%nat)
      /\ k s' cap' = Some x.
Proof.
  induction r as [|c|c|a IHa b IHb|a IHa b IHb|a IHa|a IHa|a IHa];
    cbn [rmatch]; intros s cap k x Hs Hc H.
  - exists s, cap. auto.
  - destruct s as [|y s']; [discriminate|].
    destruct (chr_eq ic c y); [|discriminate].
    exists s', cap. cbn [String.length]. auto.
  - destruct s as [|y s']; [discriminate|].
    destruct (in_cls c y); [|discriminate].
    exists s', cap. cbn [String.length]. auto.
  - apply (IHa _ _ _ _ Hs Hc) in H as (s1 & cap1 & L1 & C1 & H).
    apply IHb in H as (s2 & cap2 & L2 & C2 & H); [|lia | exact C1].
    exists s2, cap2. split; [lia | auto].
  - apply orelse_some in H as [H|H]; [apply IHa in H | apply IHb in H]; auto.
  - apply orelse_some in H as [H|H]; [apply IHa in H; auto|].
    exists s, cap. auto.
  - change (plus_loop (rmatch ic a) k (String.length s) s cap = Some x) in H.
    revert H. generalize (String.length s) at 1. intros fuel.
    revert s cap Hs Hc.
    induction fuel as [|fuel IHf]; intros s cap Hs Hc H; cbn [plus_loop] in H;
      apply (IHa _ _ _ _ Hs Hc) in H as (s1 & cap1 & L1 & C1 & H);
      [exists s1, cap1; auto|].
    destruct (Nat.ltb (String.length s1) (String.length s));
      [|exists s1, cap1; auto].
    apply orelse_some in H as [H|H]; [|exists s1, cap1; auto].
    apply IHf in H as (s2 & cap2 & L2 & C2 & H); [|lia | exact C1].
    exists s2, cap2. split; [lia | auto].
  - apply (IHa _ _ _ _ Hs Hc) in H as (s1 & cap1 & L1 & C1 & H).
    exists s1, (Some (substring 0 (String.length s - String.length s1) s)).
    split; [exact L1 | split; [|exact H]].
    intros w E. injection E as <-.
    pose proof (substring_length_le (String.length s - String.length s1) s).
    lia.
Qed.
End GroupLength.

Lemma findall_first_length (ic : bool) (r : regex) (text m : string) :
  findall_first ic r text = Some m ->
  (String.length m <= String.length text)%nat.
Proof.
  induction text as [|c text IH]; cbn [findall_first].
  - destruct (rmatch ic r "" None _) as [cap|] eqn:E; [|discriminate].
    intros H. injection H as <-.
    apply (rmatch_group_length ic 0 r) in E as (s' & cap' & _ & C & E);
      [|cbn; lia | discriminate].
    injection E as <-. destruct cap' as [w|]; [apply C; reflexivity | cbn; lia].
  - destruct (rmatch ic r (String c text) None _) as [cap|] eqn:E.
    + intros H. injection H as <-.
      apply (rmatch_group_length ic (String.length (String c text)) r) in E
        as (s' & cap' & _ & C & E); [|lia | discriminate].
      injection E as <-.
      destruct cap' as [w|]; [apply C; reflexivity | cbn; lia].
    + intros H. specialize (IH H). cbn [String.length]. lia.
Qed.

Lemma employee_patterns_digits :
  Forall (fun p => captures false p
                     (fun w => w <> "" /\ all_in is_digit w = true))
         employee_patterns.
Proof.
  pose proof (captures_grp false _ _ (plus_cls_consumes false Digit)) as G.
  unfold employee_patterns.
  repeat apply Forall_cons; [| | | | apply Forall_nil].
  - repeat (apply captures_cat_l; [|reflexivity]). exact G.
  - apply captures_cat_r; [reflexivity | exact G].
  - repeat (apply captures_cat_l; [|reflexivity]). exact G.
  - repeat (apply captures_cat_l; [|reflexivity]). exact G.
Qed.

Lemma band_of_count_known (count : Z) : In (band_of_count count) employee_bands.
Proof.
  unfold band_of_count, employee_bands.
  repeat match goal with |- context [if ?b then _ else _] => destruct b end;
    cbn; auto 6.
Qed.

Lemma first_band_known (text : string) (l : list (string * list string))
      (b : string) :
  first_band text l = Some b -> In b (map fst l).
Proof.
  induction l as [|[size_range keywords] l IH]; cbn [first_band map fst];
    [discriminate|].
  destruct (existsb _ keywords).
  - intros H. injection H as <-. left. reflexivity.
  - intros H. right. exact (IH H).
Qed.

Lemma first_count_known (text : string) (patterns : list regex) :
  Forall (fun p => captures false p
                     (fun w => w <> "" /\ all_in is_digit w = true)) patterns ->
  match first_count text patterns with
  | Ret None => True
  | Ret (Some b) => In b employee_bands
  | Raise =>
      exists p m,
        In p patterns
        /\ findall_first false p text = Some m
        /\ all_in is_digit m = true
        /\ (int_max_str_digits < String.length m <= String.length text)%nat
  end.
Proof.
  induction 1 as [|p patterns Hp _ IH]; cbn [first_count]; [exact I|].
  destruct (findall_first false p text) as [m|] eqn:E.
  - destruct (findall_first_captures _ _ _ _ _ Hp E) as [Hne Hd].
    destruct (Nat.ltb int_max_str_digits (String.length m)) eqn:L.
    + apply Nat.ltb_lt in L. rewrite (int_beyond_limit m L). cbn [ebind].
      exists p, m. pose proof (findall_first_length _ _ _ _ E).
      repeat split; [left; reflexivity | exact E | exact Hd | exact L | lia].
    + apply Nat.ltb_ge in L.
      destruct (int_of_digits m Hne Hd L) as [count ->]. cbn [ebind].
      apply band_of_count_known.
  - destruct (first_count text patterns) as [[b|]|]; try exact IH.
    destruct IH as (q & m & I & F & D & L).
    exists q, m. repeat split; [right; exact I | exact F | exact D | lia | lia].
Qed.

Lemma estimate_employees_cases (text : string) :
  match _estimate_employees text with
  | Ret None => True
  | Ret (Some b) => In b employee_bands
  | Raise => employees_overflow text
  end.
Proof.
  unfold _estimate_employees.
  destruct (first_band text employee_keywords) as [b|] eqn:E.
  - exact (first_band_known _ _ _ E).
  - apply first_count_known, employee_patterns_digits.
Qed.

(** [_estimate_employees] returns nothing or one of the five bands, and
    it raises only when the first match of an employee pattern is a run
    of more than 4300 digits, more than [int] takes: never on a text of
    at most 4300 characters.  It does raise on 4301 digits before
    " employees". *)
Theorem estimate_employees_band :
  (forall text : string,
      match _estimate_employees text with
      | Ret None => True
      | Ret (Some b) => In b employee_bands
      | Raise => employees_overflow text
      end)
  /\ (forall text : string,
         (String.length text <= int_max_str_digits)%nat ->
         _estimate_employees text <> Raise)
  /\ _estimate_employees (long_number ++ " employees") = Raise.
Proof.
  split; [exact estimate_employees_cases | split].
  - intros text L H. pose proof (estimate_employees_cases text) as C.
    rewrite H in C. destruct C as (p & m & _ & _ & _ & B). lia.
  - vm_compute. reflexivity.
Qed.

Lemma estimate_employees_band_witness :
  _estimate_employees "a team of 12" <> Raise.
Proof.
  apply (proj1 (proj2 estimate_employees_band) "a team of 12").
  unfold int_max_str_digits. cbn [String.length]. lia.
Defined.

(** Looking up after an assignment. *)
Lemma dict_get_set (d : dict) (k k' : string) (v : value) :
  dict_get (dict_set d k v) k'
  = if String.eqb k' k then Some v else dict_get d k'.
Proof.
  induction d as [|[k0 v0] d IH]; cbn [dict_set dict_get].
  - destruct (String.eqb k' k); reflexivity.
  - destruct (String.eqb k k0) eqn:E0; cbn [dict_get].
    + apply String.eqb_eq in E0. subst k0.
      destruct (String.eqb k' k); reflexivity.
    + rewrite IH. destruct (String.eqb k' k0) eqn:E1; [|reflexivity].
      apply String.eqb_eq in E1. subst k0.
      destruct (String.eqb k' k) eqn:E2; [|reflexivity].
      apply String.eqb_eq in E2. subst k. rewrite String.eqb_refl in E0.
      discriminate E0.
Qed.

Lemma dict_get_found (k k' : string) (v : option value) (inc : F64.float)
      (acc : dict * F64.float) :
  dict_get (fst (found k v inc acc)) k'
  = match v with
    | Some x => if String.eqb k' k then Some x else dict_get (fst acc) k'
    | None => dict_get (fst acc) k'
    end.
Proof. destruct v; cbn [found fst]; [apply dict_get_set | reflexivity]. Qed.

Lemma revenue_of_band (b : string) :
  In b employee_bands -> exists r, _estimate_revenue_from_employees b = Some r.
Proof.
  intros H. repeat (destruct H as [<-|H]; [vm_compute; eauto|]). destruct H.
Qed.

Lemma band_truthy (b : string) : In b employee_bands -> truthy (Some b) = true.
Proof.
  intros H. repeat (destruct H as [<-|H]; [reflexivity|]). destruct H.
Qed.


Lemma some_str_truthy (s : string) :
  truthy (Some s) = true -> some_str (Some s) = Some (VStr s).
Proof. intros H. unfold some_str. rewrite H. reflexivity. Qed.

(** What the heuristic strategy returns keeps the invariants of the
    lead: an employee band is one of the five and comes with the revenue
    band of the table, and without one there is no revenue band; a
    founding year is from 1900 to 2030. *)
Theorem heuristic_data_invariants :
  forall (lead : Lead) (scraped_data : dict),
    match _heuristic_enrichment lead scraped_data with
    | None => True
    | Some r =>
        e_success r = true /\ e_data r <> []
        /\ match dict_get (e_data r) "employees" with
           | Some v =>
               exists b, v = VStr b /\ In b employee_bands
                         /\ dict_get (e_data r) "revenue_band"
                            = option_map VStr (_estimate_revenue_from_employees b)
                         /\ _estimate_revenue_from_employees b <> None
           | None => dict_get (e_data r) "revenue_band" = None
           end
        /\ match dict_get (e_data r) "founded_year" with
           | Some v => exists year, v = VInt year /\ 1900 <= year <= 2030
           | None => True
           end
    end.
Proof.
  intros lead scraped_data.
  unfold _heuristic_enrichment, heuristic_body, ebind.
  destruct (_get_text_for_analysis lead scraped_data) as [text|]; [|exact I].
  pose proof (estimate_employees_cases (lower text)) as Hemp.
  destruct (_estimate_employees (lower text)) as [emp|]; [|exact I].
  pose proof (founded_year_loop_range text _ founded_patterns_texts) as Hyear.
  change (founded_year_loop text founded_patterns)
    with (_extract_founded_year text) in Hyear.
  destruct (_extract_founded_year text) as [year|]; [|exact I].
  set (vi := some_str (_infer_industry (lower text))).
  set (vn := some_str (_extract_contact_person text)).
  set (vt := some_str (_extract_contact_title text)).
  match goal with |- context [match fst ?a with _ => _ end] =>
    set (acc := a) end.
  assert (Hget :
            match dict_get (fst acc) "employees" with
            | Some v =>
                exists b, v = VStr b /\ In b employee_bands
                          /\ dict_get (fst acc) "revenue_band"
                             = option_map VStr (_estimate_revenue_from_employees b)
                          /\ _estimate_revenue_from_employees b <> None
            | None => dict_get (fst acc) "revenue_band" = None
            end
            /\ match dict_get (fst acc) "founded_year" with
               | Some v => exists y, v = VInt y /\ 1900 <= y <= 2030
               | None => True
               end).
  { unfold acc. clear acc.
    assert (Hy : match some_year year with
                 | Some v => exists y, v = VInt y /\ 1900 <= y <= 2030
                 | None => True
                 end).
    { destruct year as [y|]; cbn [some_year]; [|exact I].
      destruct (y =? 0); [exact I | eauto]. }
    destruct (some_year year) as [vy|].
    all: destruct emp as [b|].
    all: try (pose proof (band_truthy b Hemp) as Ht;
              destruct (revenue_of_band b Hemp) as [rev Hrev];
              assert (Hrt : truthy (Some rev) = true)
                by (revert Hrev; clear; unfold _estimate_revenue_from_employees;
                    repeat match goal with
                           | |- context [if ?c then _ else _] => destruct c
                           end;
                    intros H; try discriminate H; injection H as <-; reflexivity);
              assert (Eb : or_else (Some b) "" = b)
                by (destruct b; [discriminate Ht | reflexivity]);
              rewrite Ht, Eb, Hrev;
              rewrite (some_str_truthy b Ht), (some_str_truthy rev Hrt)).
    all: try (change (truthy None) with false; cbv iota;
              change (some_str None) with (@None value)).
    all: rewrite !dict_get_found.
    all: repeat match goal with
                | |- context [String.eqb ?a ?b] =>
                    let v := eval vm_compute in (String.eqb a b) in
                    change (String.eqb a b) with v
                end.
    all: cbv iota.
    all: destruct vi, vn, vt; cbv iota; cbn [fst dict_get].
    all: (split; [|first [exact Hy | exact I]]).
    all: first [ reflexivity
               | exists b; rewrite Hrev;
                 repeat split; [exact Hemp | discriminate] ]. }
  destruct Hget as [Hget_emp Hget_year].
  destruct (fst acc) as [|kv data] eqn:Edata; [exact I|].
  cbv [e_success e_data].
  repeat split; [discriminate | exact Hget_emp | exact Hget_year].
Qed.

(** ** The scraper *)

Lemma lower_char_not_upper (c : ascii) : is_upper (lower_char c) = false.
Proof. destruct c as [[] [] [] [] [] [] [] []]; reflexivity. Qed.

Lemma lower_has_no_upper (s : string) :
  all_in (fun c => negb (is_upper c)) (lower s) = true.
Proof.
  induction s as [|c s IH]; cbn [lower all_in]; [reflexivity|].
  rewrite lower_char_not_upper, IH. reflexivity.
Qed.

Lemma prefix_all_in (P : ascii -> bool) (p t : string) :
  String.prefix p t = true -> all_in P t = true -> all_in P p = true.
Proof.
  revert t. induction p as [|c p IH]; intros t Hp Ht; [reflexivity|].
  destruct t as [|y t]; [discriminate Hp|].
  cbn [String.prefix] in Hp.
  destruct (ascii_dec c y) as [<-|]; [|discriminate Hp].
  cbn [all_in] in Ht |- * . apply andb_prop in Ht as [Hc Ht].
  rewrite Hc, (IH t Hp Ht). reflexivity.
Qed.

Lemma contains_all_in (P : ascii -> bool) (p t : string) :
  contains p t = true -> all_in P t = true -> all_in P p = true.
Proof.
  induction t as [|y t IH]; rewrite contains_unfold;
    destruct (String.prefix p _) eqn:E; intros Hc Ht;
    try (exact (prefix_all_in P p _ E Ht)); try discriminate Hc.
  cbn [all_in] in Ht. apply andb_prop in Ht as [_ Ht]. exact (IH Hc Ht).
Qed.

(** A word with a capital letter is in no lowered text. *)
Lemma capital_never_in_lower (p s : string) :
  all_in (fun c => negb (is_upper c)) p = false -> contains p (lower s) = false.
Proof.
  intros Hp. destruct (contains p (lower s)) eqn:E; [|reflexivity].
  rewrite (contains_all_in _ _ _ E (lower_has_no_upper s)) in Hp.
  discriminate Hp.
Qed.

(** The business properties [employeeCount] and [contactPoint] are never
    counted by [_calculate_json_ld_confidence]: they are looked for,
    capitals and all, in the lowered text of the data.  The confidence
    is that of the five properties in lower case. *)
Theorem json_ld_capital_properties_never_count :
  forall data : dict,
    _calculate_json_ld_confidence data = json_ld_score lowercase_properties data
    /\ contains "employeeCount" (lower (str_dict data)) = false
    /\ contains "contactPoint" (lower (str_dict data)) = false.
Proof.
  intros data.
  assert (E1 : contains "employeeCount" (lower (str_dict data)) = false)
    by (apply capital_never_in_lower; reflexivity).
  assert (E2 : contains "contactPoint" (lower (str_dict data)) = false)
    by (apply capital_never_in_lower; reflexivity).
  split; [|split; assumption].
  unfold _calculate_json_ld_confidence, json_ld_score, business_properties,
    lowercase_properties.
  cbn [fold_left]. rewrite E1, E2. reflexivity.
Qed.

Lemma dict_set_not_empty (d : dict) (k : string) (v : value) :
  dict_set d k v <> [].
Proof.
  destruct d as [|[k0 v0] d]; cbn [dict_set]; [discriminate|].
  destruct (String.eqb k k0); discriminate.
Qed.

Lemma dict_get_set_same (d : dict) (k : string) (v : value) :
  dict_get (dict_set d k v) k = Some v.
Proof. rewrite dict_get_set, String.eqb_refl. reflexivity. Qed.

Lemma meta_links_joined (urljoin : string -> try string)
      (hrefs : list string) :
  (forall href, In href hrefs -> exists joined, urljoin href = Done joined) ->
  forall links, exists links', meta_links urljoin hrefs links = Done links'.
Proof.
  induction hrefs as [|href hrefs IH]; intros J links; cbn [meta_links];
    [eauto|].
  assert (J' : forall h, In h hrefs -> exists joined, urljoin h = Done joined)
    by (intros h I; apply J; right; exact I).
  destruct (startswith "http://" href || startswith "https://" href)%bool;
    [apply IH, J'|].
  destruct (startswith "/" href); [|apply IH, J'].
  destruct (J href (or_introl eq_refl)) as [joined ->]. apply IH, J'.
Qed.

Lemma meta_data_links (urljoin : string -> try string) (soup : MetaPage) :
  match meta_links urljoin (hrefs soup) [] with
  | Done links =>
      exists d, meta_data urljoin soup = Done d
                /\ d <> []
                /\ dict_get d "links" = Some (VList links)
  | Failed msg => meta_data urljoin soup = Failed msg
  end.
Proof.
  unfold meta_data.
  destruct (meta_links urljoin (hrefs soup) []) as [links|msg];
    [|reflexivity].
  eexists. split; [reflexivity|].
  split; [apply dict_set_not_empty | apply dict_get_set_same].
Qed.

(** The meta tier never fails for want of data: the data always have
    the [links] key, so the failure "No meta data found" cannot occur.
    With an open session the tier reports a success exactly when the
    response is a 200, its body is read and parsed, and [urljoin]
    raises on none of the links that it is given; every failure is one
    of the session, the GET, the status, the parsing or [urljoin]. *)
Theorem meta_tier_succeeds_on_200 :
  forall (urljoin : string -> try string) (w : World),
    let result := _extract_meta_data urljoin w in
    (success result = true
     <-> exists soup links,
           session w = true
           /\ get_meta w = Responded 200 (Done soup)
           /\ meta_links urljoin (hrefs soup) [] = Done links
           /\ error_message result = None
           /\ dict_get (data result) "links" = Some (VList links)
           /\ confidence result = _calculate_meta_confidence (data result))
    /\ (success result = false
        <-> exists msg,
              result = failure STRUCTURED_DATA f0_0 msg
              /\ ((session w = false /\ msg = "Session is not initialized")
                  \/ (session w = true /\ get_meta w = Threw msg)
                  \/ (exists status page,
                         session w = true
                         /\ get_meta w = Responded status page
                         /\ status <> 200
                         /\ msg = "HTTP " ++ str_Z status)
                  \/ (session w = true
                      /\ get_meta w = Responded 200 (Failed msg))
                  \/ (exists soup,
                         session w = true
                         /\ get_meta w = Responded 200 (Done soup)
                         /\ meta_links urljoin (hrefs soup) [] = Failed msg)))
    /\ (forall soup,
           session w = true ->
           get_meta w = Responded 200 (Done soup) ->
           (forall href, In href (hrefs soup) ->
                         exists joined, urljoin href = Done joined) ->
           success result = true).
Proof.
  intros urljoin w result.
  assert (C : (exists soup links,
                  session w = true
                  /\ get_meta w = Responded 200 (Done soup)
                  /\ meta_links urljoin (hrefs soup) [] = Done links
                  /\ success result = true
                  /\ error_message result = None
                  /\ dict_get (data result) "links" = Some (VList links)
                  /\ confidence result
                     = _calculate_meta_confidence (data result))
              \/ (success result = false
                  /\ exists msg,
                       result = failure STRUCTURED_DATA f0_0 msg
                       /\ ((session w = false
                            /\ msg = "Session is not initialized")
                           \/ (session w = true /\ get_meta w = Threw msg)
                           \/ (exists status page,
                                  session w = true
                                  /\ get_meta w = Responded status page
                                  /\ status <> 200
                                  /\ msg = "HTTP " ++ str_Z status)
                           \/ (session w = true
                               /\ get_meta w = Responded 200 (Failed msg))
                           \/ (exists soup,
                                  session w = true
                                  /\ get_meta w = Responded 200 (Done soup)
                                  /\ meta_links urljoin (hrefs soup) []
                                     = Failed msg)))).
  { unfold result, _extract_meta_data.
    destruct (session w) eqn:S; cbn [negb].
    2:{ right. split; [reflexivity|]. eexists. split; [reflexivity|]. auto. }
    destruct (get_meta w) as [msg|status page] eqn:G.
    { right. split; [reflexivity|]. eexists. split; [reflexivity|]. auto. }
    destruct (status =? 200) eqn:E; cbn [negb].
    2:{ apply Z.eqb_neq in E. right. split; [reflexivity|].
        eexists. split; [reflexivity|].
        right. right. left. exists status, page. auto. }
    apply Z.eqb_eq in E. subst status.
    destruct page as [soup|msg].
    2:{ right. split; [reflexivity|]. eexists. split; [reflexivity|]. auto 6. }
    pose proof (meta_data_links urljoin soup) as M.
    destruct (meta_links urljoin (hrefs soup) []) as [links|msg] eqn:L.
    - destruct M as (d & -> & N & K).
      destruct d as [|kv d]; [contradiction|].
      left. exists soup, links.
      cbn [extracted success error_message data confidence]. auto 8.
    - rewrite M. right. split; [reflexivity|].
      eexists. split; [reflexivity|].
      right. right. right. right. exists soup. auto. }
  split; [|split].
  - split.
    + intros H. destruct C as [(soup & links & C)|[F _]];
        [|rewrite H in F; discriminate].
      exists soup, links. tauto.
    + intros (soup & links & S & G & L & _).
      destruct C as [(soup' & links' & C)|(F & msg & R & D)]; [tauto|].
      exfalso.
      destruct D as [[S' _]|[[_ G']|[(st & pg & _ & G' & N & _)
                    |[[_ G']|(soup' & _ & G' & L')]]]]; congruence.
  - split.
    + intros H. destruct C as [(soup & links & C)|[_ C]]; [|exact C].
      destruct C as (_ & _ & _ & T & _). rewrite H in T. discriminate.
    + intros (msg & -> & _). reflexivity.
  - intros soup S G J.
    destruct (meta_links_joined urljoin (hrefs soup) J []) as [links L].
    destruct C as [(soup' & links' & C)|(F & msg & R & D)]; [tauto|].
    exfalso.
    destruct D as [[S' _]|[[_ G']|[(st & pg & _ & G' & N & _)
                  |[[_ G']|(soup' & _ & G' & L')]]]]; congruence.
Qed.

Lemma meta_tier_succeeds_on_200_witness :
  success (_extract_meta_data join_acme (empty_world true)) = true.
Proof.
  apply (proj2 (proj2 (meta_tier_succeeds_on_200 join_acme (empty_world true)))
               empty_page eq_refl eq_refl).
  intros href [].
Defined.

(** A link that [urljoin] refuses makes the tier fail after a 200. *)
Example meta_tier_bad_link :
  _extract_meta_data join_strict bad_link_world
  = failure STRUCTURED_DATA f0_0 "Invalid IPv6 URL".
Proof. reflexivity. Qed.

Lemma fallback_confidence_floor (d : dict) :
  F64.leb (f0_3 *. f0_8) (_calculate_playwright_confidence d *. f0_8) = true.
Proof.
  unfold _calculate_playwright_confidence.
  generalize (get_truthy d "title")
             (get_truthy d "meta_description"
              || get_truthy d "og_description")%bool
             (get_truthy d "email") (get_truthy d "phone")
             (get_truthy d "links" && Nat.ltb 5 (links_len d))%bool
             (get_truthy d "potential_company_name").
  intros b1 b2 b3 b4 b5 b6.
  destruct b1, b2, b3, b4, b5, b6; vm_compute; reflexivity.
Qed.

(** The plain-request fallback never fails for want of data: the data
    always have keys, so the failure "No data extracted by requests
    fallback", the only one with the confidence 0.2, cannot occur.  The
    fallback reports a success, with a confidence of at least
    0.3 * 0.8, exactly when the response is a 200, its body is parsed
    and [urlparse] takes the URL; every failure has the confidence 0.0
    and is one of the GET, the status, the parsing or [urlparse]. *)
Theorem fallback_succeeds_on_200 :
  forall w : World,
    let result := _scrape_with_requests_fallback w in
    method result = REQUESTS
    /\ (success result = true
        <-> exists soup domain_netloc,
              requests_get w = Responded 200 (Done soup)
              /\ netloc w = Done domain_netloc
              /\ error_message result = None
              /\ data result = with_company_name domain_netloc (plain_data soup)
              /\ F64.leb (f0_3 *. f0_8) (confidence result) = true)
    /\ (success result = false
        <-> exists msg,
              success result = false
              /\ data result = []
              /\ confidence result = f0_0
              /\ error_message result = Some msg
              /\ (requests_get w = Threw msg
                  \/ (exists status page,
                         requests_get w = Responded status page
                         /\ status <> 200
                         /\ msg = "HTTP " ++ str_Z status)
                  \/ requests_get w = Responded 200 (Failed msg)
                  \/ (exists soup,
                         requests_get w = Responded 200 (Done soup)
                         /\ netloc w = Failed msg))).
Proof.
  intros w result.
  assert (C : (exists soup domain_netloc,
                  requests_get w = Responded 200 (Done soup)
                  /\ netloc w = Done domain_netloc
                  /\ success result = true
                  /\ method result = REQUESTS
                  /\ error_message result = None
                  /\ data result
                     = with_company_name domain_netloc (plain_data soup)
                  /\ F64.leb (f0_3 *. f0_8) (confidence result) = true)
              \/ (method result = REQUESTS
                  /\ exists msg,
                       success result = false
                       /\ data result = []
                       /\ confidence result = f0_0
                       /\ error_message result = Some msg
                       /\ (requests_get w = Threw msg
                           \/ (exists status page,
                                  requests_get w = Responded status page
                                  /\ status <> 200
                                  /\ msg = "HTTP " ++ str_Z status)
                           \/ requests_get w = Responded 200 (Failed msg)
                           \/ (exists soup,
                                  requests_get w = Responded 200 (Done soup)
                                  /\ netloc w = Failed msg)))).
  { unfold result, _scrape_with_requests_fallback.
    destruct (requests_get w) as [msg|status page] eqn:G.
    { right. split; [reflexivity|]. exists msg. repeat split. auto. }
    destruct (status =? 200) eqn:E; cbn [negb].
    2:{ apply Z.eqb_neq in E. right. split; [reflexivity|].
        exists ("HTTP " ++ str_Z status). repeat split.
        right. left. exists status, page. auto. }
    apply Z.eqb_eq in E. subst status.
    destruct page as [soup|msg].
    2:{ right. split; [reflexivity|]. exists msg. repeat split. auto. }
    destruct (netloc w) as [domain_netloc|msg] eqn:N.
    2:{ right. split; [reflexivity|]. exists msg. repeat split.
        right. right. right. exists soup. auto. }
    assert (K : with_company_name domain_netloc (plain_data soup) <> [])
      by (unfold with_company_name; apply dict_set_not_empty).
    destruct (with_company_name domain_netloc (plain_data soup))
      as [|kv d] eqn:D; [contradiction|].
    left. exists soup, domain_netloc.
    cbn [extracted success method error_message data confidence].
    repeat split; [symmetry; exact D | apply fallback_confidence_floor]. }
  split; [|split].
  - destruct C as [(soup & dn & C)|(M & _)]; [tauto | exact M].
  - split.
    + intros H. destruct C as [(soup & dn & C)|(_ & msg & F & _)];
        [|rewrite H in F; discriminate].
      exists soup, dn. tauto.
    + intros (soup & dn & G & N & _).
      destruct C as [(soup' & dn' & C)|(_ & msg & F & _ & _ & _ & D)];
        [tauto|].
      exfalso.
      destruct D as [G'|[(st & pg & G' & N' & _)|[G'|(soup' & G' & N')]]];
        congruence.
  - split.
    + intros H. destruct C as [(soup & dn & C)|[_ C]]; [|exact C].
      destruct C as (_ & _ & T & _). rewrite H in T. discriminate.
    + intros (msg & F & _). exact F.
Qed.

Lemma fallback_succeeds_on_200_witness :
  success (_scrape_with_requests_fallback (empty_world true)) = true.
Proof.
  apply (proj2 (proj1 (proj2 (fallback_succeeds_on_200 (empty_world true))))).
  exists empty_plain_page, "". repeat split.
Defined.

(** A URL that [urlparse] refuses makes the fallback fail after a 200. *)
Example fallback_bad_url :
  _scrape_with_requests_fallback bad_link_world
  = failure REQUESTS f0_0 "Invalid IPv6 URL".
Proof. reflexivity. Qed.

Lemma scrape_tiers (urljoin : string -> try string) (w : World)
      (elapsed : F64.float) :
  let r1 := _extract_json_ld w in
  let r2 := _extract_meta_data urljoin w in
  let r3 := _scrape_with_playwright w in
  scrape urljoin w elapsed
  = (if (success r1 && F64.gtb (confidence r1) f0_7)%bool
     then ([JSON_LD], set_time r1 elapsed)
     else if (success r2 && F64.gtb (confidence r2) f0_5)%bool
     then ([JSON_LD; STRUCTURED_DATA], set_time r2 elapsed)
     else (JSON_LD :: STRUCTURED_DATA :: fst r3, set_time (snd r3) elapsed)).
Proof.
  intros r1 r2 r3.
  unfold scrape, gate, tbind, ran, tret. fold r1 r2 r3.
  destruct (success r1 && F64.gtb (confidence r1) f0_7)%bool; [reflexivity|].
  destruct (success r2 && F64.gtb (confidence r2) f0_5)%bool; [reflexivity|].
  destruct r3 as [t3 res3]. simpl. rewrite app_nil_r. reflexivity.
Qed.

(** A scraper whose session was not opened gets nothing from its two
    HTTP tiers: [scrape] runs them, then returns what the headless tier
    (or its fallback) returns. *)
Theorem scrape_without_session
        (urljoin : string -> try string) (w : World) (elapsed : F64.float)
        (Hsession : session w = false) :
  _extract_json_ld w = failure JSON_LD f0_0 "Session is not initialized"
  /\ _extract_meta_data urljoin w
     = failure STRUCTURED_DATA f0_0 "Session is not initialized"
  /\ scrape urljoin w elapsed
     = (JSON_LD :: STRUCTURED_DATA :: fst (_scrape_with_playwright w),
        set_time (snd (_scrape_with_playwright w)) elapsed).
Proof.
  assert (E1 : _extract_json_ld w
               = failure JSON_LD f0_0 "Session is not initialized")
    by (unfold _extract_json_ld; rewrite Hsession; reflexivity).
  assert (E2 : _extract_meta_data urljoin w
               = failure STRUCTURED_DATA f0_0 "Session is not initialized")
    by (unfold _extract_meta_data; rewrite Hsession; reflexivity).
  split; [exact E1 | split; [exact E2|]].
  rewrite scrape_tiers, E1, E2. reflexivity.
Qed.

Lemma scrape_without_session_witness :
  fst (scrape join_acme (empty_world false) f0_0)
  = [JSON_LD; STRUCTURED_DATA; PLAYWRIGHT; REQUESTS].
Proof.
  rewrite (proj2 (proj2 (scrape_without_session join_acme
                           (empty_world false) f0_0 eq_refl))).
  reflexivity.
Defined.

Lemma fallback_method (w : World) :
  method (_scrape_with_requests_fallback w) = REQUESTS.
Proof.
  unfold _scrape_with_requests_fallback.
  destruct (requests_get w) as [msg|status page]; [reflexivity|].
  destruct (negb (status =? 200)); [reflexivity|].
  destruct page as [soup|msg]; [|reflexivity].
  destruct (netloc w) as [domain_netloc|msg]; [|reflexivity].
  destruct (with_company_name domain_netloc (plain_data soup)); reflexivity.
Qed.

(** [scrape] returns a failure only from its last tier: a result without
    success has the method of the headless tier or of its fallback. *)
Theorem scrape_failure_is_last_tier :
  forall (urljoin : string -> try string) (w : World) (elapsed : F64.float),
    let result := snd (scrape urljoin w elapsed) in
    success result = true
    \/ method result = PLAYWRIGHT \/ method result = REQUESTS.
Proof.
  intros urljoin w elapsed.
  pose proof (playwright_or_fallback w) as H.
  rewrite scrape_tiers.
  assert (L : method (snd (_scrape_with_playwright w)) = PLAYWRIGHT
              \/ method (snd (_scrape_with_playwright w)) = REQUESTS).
  { destruct (_scrape_with_playwright w) as [t3 res3]. cbn [snd].
    destruct H as [[_ H]|[_ H]]; [left; exact H|].
    right. rewrite H. apply fallback_method. }
  destruct (success (_extract_json_ld w) && _)%bool eqn:G1.
  - left. apply andb_prop in G1 as [G1 _]. exact G1.
  - destruct (success (_extract_meta_data urljoin w) && _)%bool eqn:G2.
    + left. apply andb_prop in G2 as [G2 _]. exact G2.
    + right. exact L.
Qed.

(** ** The messenger *)

Lemma lower_app (a b : string) : lower (a ++ b) = lower a ++ lower b.
Proof.
  induction a as [|c a IH]; cbn [lower append]; [reflexivity|].
  rewrite IH. reflexivity.
Qed.

(** After [_validate_response] the text names the company that the
    context knows, whatever the language model wrote, and it still ends
    with what the model wrote. *)
Theorem validate_response_names_company
        (response : string) (context : Context)
        (Hknown : c_company_name context <> "their company") :
  contains (lower (c_company_name context))
           (lower (_validate_response response context)) = true
  /\ exists greeting, _validate_response response context = greeting ++ response.
Proof.
  unfold _validate_response.
  apply String.eqb_neq in Hknown. rewrite Hknown. cbn [negb].
  destruct (contains (lower (c_company_name context)) (lower response)) eqn:E;
    cbn [negb].
  - split; [exact E | exists ""; reflexivity].
  - split.
    + rewrite !lower_app. apply contains_later, contains_here.
    + exists ("Hi " ++ c_company_name context ++ " team," ++ nl ++ nl).
      rewrite !app_assoc_str. reflexivity.
Qed.

Lemma validate_response_names_company_witness :
  contains "acme" (lower (_validate_response "We make anvils." acme_context))
  = true.
Proof.
  exact (proj1 (validate_response_names_company "We make anvils." acme_context
                  ltac:(discriminate))).
Defined.

(** [_make_professional] always gives a message with the closing
    "Best regards,". *)
Theorem make_professional_has_closing :
  forall sender_org message : string,
    contains "Best regards," (_make_professional sender_org message) = true.
Proof.
  intros sender_org message. unfold _make_professional.
  destruct (contains "Best regards," (replace "Hi " "Dear " message)) eqn:E;
    cbn [negb]; [exact E|].
  do 3 apply contains_later. apply contains_here.
Qed.

(** Splitting into lines and joining again gives the text back. *)
Lemma split_lines_not_empty (s : string) : split_lines s <> [].
Proof.
  destruct s as [|c s]; cbn [split_lines]; [discriminate|].
  destruct (Ascii.eqb c (ascii_of_nat 10)); [discriminate|].
  destruct (split_lines s); discriminate.
Qed.

Lemma join_cons (x : string) (l : list string) :
  l <> [] -> join nl (x :: l) = x ++ nl ++ join nl l.
Proof. destruct l; [contradiction | reflexivity]. Qed.

Theorem join_split_lines :
  forall s : string, join nl (split_lines s) = s.
Proof.
  induction s as [|c s IH]; [reflexivity|].
  cbn [split_lines].
  destruct (Ascii.eqb c (ascii_of_nat 10)) eqn:E.
  - apply Ascii.eqb_eq in E. subst c.
    rewrite join_cons by apply split_lines_not_empty. rewrite IH. reflexivity.
  - pose proof (split_lines_not_empty s) as N.
    destruct (split_lines s) as [|line lines]; [contradiction|].
    destruct lines as [|l2 lines].
    + cbn [join] in IH |- * . rewrite IH. reflexivity.
    + rewrite join_cons in IH by discriminate.
      rewrite join_cons by discriminate.
      cbn [append]. rewrite IH. reflexivity.
Qed.

Lemma app_empty_str (s : string) : s ++ "" = s.
Proof. induction s as [|c s IH]; cbn [append]; [|rewrite IH]; reflexivity. Qed.

Lemma split_lines_one_line (s : string) :
  Forall (fun line => one_line line = true) (split_lines s).
Proof.
  induction s as [|c s IH]; cbn [split_lines].
  - constructor; [reflexivity | constructor].
  - destruct (Ascii.eqb c (ascii_of_nat 10)) eqn:E.
    + constructor; [reflexivity | exact IH].
    + destruct (split_lines s) as [|line lines].
      * constructor; [|constructor].
        unfold one_line. cbn [all_in]. rewrite E. reflexivity.
      * inversion IH as [|? ? H1 H2]; subst.
        constructor; [|exact H2].
        unfold one_line in * . cbn [all_in]. rewrite E, H1. reflexivity.
Qed.

Lemma split_lines_alone (x : string) :
  one_line x = true -> split_lines x = [x].
Proof.
  induction x as [|c x IH]; intros H; [reflexivity|].
  unfold one_line in * . cbn [all_in] in H.
  apply andb_prop in H as [Hc Hx]. apply negb_true_iff in Hc.
  cbn [split_lines]. rewrite Hc, (IH Hx). reflexivity.
Qed.

Lemma split_lines_first (x rest : string) :
  one_line x = true ->
  split_lines (x ++ nl ++ rest) = x :: split_lines rest.
Proof.
  induction x as [|c x IH]; intros H.
  - reflexivity.
  - unfold one_line in * . cbn [all_in] in H.
    apply andb_prop in H as [Hc Hx]. apply negb_true_iff in Hc.
    cbn [append split_lines]. rewrite Hc.
    change (String.append x (nl ++ rest)) with (x ++ nl ++ rest).
    rewrite (IH Hx). reflexivity.
Qed.

Lemma split_lines_join (l : list string) :
  l <> [] -> Forall (fun line => one_line line = true) l ->
  split_lines (join nl l) = l.
Proof.
  induction l as [|x l IH]; intros N H; [contradiction|].
  inversion H as [|? ? Hx Hl]; subst.
  destruct l as [|y l].
  - cbn [join]. apply split_lines_alone, Hx.
  - rewrite join_cons by discriminate.
    rewrite split_lines_first by exact Hx.
    rewrite IH by (discriminate || exact Hl). reflexivity.
Qed.

Lemma Forall_first (A : Type) (P : A -> Prop) (n : nat) (l : list A) :
  Forall P l -> Forall P (firstn n l).
Proof.
  revert l. induction n as [|n IH]; intros l H; [constructor|].
  destruct H as [|x l Hx Hl]; cbn [firstn]; constructor; auto.
Qed.

Lemma join_firstn_prefix (n : nat) (l : list string) :
  (0 < n)%nat -> exists rest, join nl l = join nl (firstn n l) ++ rest.
Proof.
  revert l. induction n as [|n IH]; intros l Hn; [lia|].
  destruct l as [|x l]; [exists ""; reflexivity|].
  cbn [firstn].
  destruct l as [|y l].
  - rewrite firstn_nil. exists "". cbn [join]. symmetry. apply app_empty_str.
  - destruct n as [|n].
    + cbn [firstn]. rewrite join_cons by discriminate.
      exists (nl ++ join nl (y :: l)). reflexivity.
    + destruct (IH (y :: l)) as [rest E]; [lia|].
      rewrite (join_cons x (y :: l)) by discriminate.
      rewrite (join_cons x (firstn (S n) (y :: l)))
        by (cbn [firstn]; discriminate).
      rewrite E. exists rest. rewrite !app_assoc_str. reflexivity.
Qed.

(** [_make_short] keeps the first four lines of the message and nothing
    else: the lines of its result are the first four lines of the
    message, so they are at most four, and the result is the beginning
    of the message. *)
Theorem make_short_first_four_lines :
  forall message : string,
    split_lines (_make_short message) = firstn 4 (split_lines message)
    /\ (List.length (split_lines (_make_short message)) <= 4)%nat
    /\ exists rest, message = _make_short message ++ rest.
Proof.
  intros message.
  assert (A : split_lines (_make_short message) = firstn 4 (split_lines message)).
  { unfold _make_short.
    destruct (Nat.ltb 4 (List.length (split_lines message))) eqn:E.
    - apply Nat.ltb_lt in E. apply split_lines_join.
      + destruct (split_lines message) as [|? [|? [|? [|? ?]]]];
          cbn [List.length firstn] in * ; try lia; discriminate.
      + apply Forall_first, split_lines_one_line.
    - apply Nat.ltb_ge in E. symmetry. apply firstn_all2. exact E. }
  split; [exact A | split].
  - rewrite A. apply firstn_le_length.
  - unfold _make_short.
    destruct (Nat.ltb 4 (List.length (split_lines message))).
    + destruct (join_firstn_prefix 4 (split_lines message)) as [rest E]; [lia|].
      exists rest. rewrite <- E. symmetry. apply join_split_lines.
    + exists "". symmetry. apply app_empty_str.
Qed.

(** ** The endpoints that create and read leads *)

Lemma create_all_spec (u : User) (urls : list string) :
  forall (acc : list Lead) (srv : Server),
  exists created,
    fst (create_all u urls acc srv) = (acc ++ created)%list
    /\ map website created = urls
    /\ Forall (fun l => organization_id l = user_organization_id u
                        /\ owner_id l = user_id u
                        /\ created_day l = today (db srv)) created
    /\ leads (db (snd (create_all u urls acc srv)))
       = (leads (db srv) ++ created)%list
    /\ background_tasks (snd (create_all u urls acc srv))
       = (background_tasks srv ++ map lead_id created)%list
    /\ subscriptions (db (snd (create_all u urls acc srv)))
       = subscriptions (db srv)
    /\ today (db (snd (create_all u urls acc srv))) = today (db srv).
Proof.
  induction urls as [|url urls IH]; intros acc srv.
  - exists []. cbn [create_all fst snd map]. rewrite !app_nil_r.
    repeat split; constructor.
  - cbn [create_all]. unfold create_lead.
    set (row := new_lead _ _ _ url _).
    set (srv1 := {| db := _; background_tasks := _ |}).
    destruct (IH (acc ++ [row])%list srv1) as (created & E1 & E2 & E3 & E4 & E5 & E6 & E7).
    exists (row :: created).
    rewrite E1, E4, E5, E6, E7. cbn [map]. rewrite E2.
    unfold srv1. cbn [db leads background_tasks subscriptions today].
    rewrite <- !app_assoc. cbn [app].
    repeat split.
    constructor; [repeat split; reflexivity | exact E3].
Qed.

(** When the bulk endpoint answers with leads, they are one per URL, in
    the order of the URLs, each of the caller's organization and owned
    by the caller, dated today; they are appended to the table, one
    processing job is enqueued for each, in the same order, and nothing
    else changes. *)
Theorem bulk_create_success
        (env : Environ) (current_user : User) (urls : list string)
        (srv srv' : Server) (created : list Lead)
        (Hok : create_leads_from_urls env current_user urls srv
               = (OK created, srv')) :
  map website created = urls
  /\ Forall (fun l => organization_id l = user_organization_id current_user
                      /\ owner_id l = user_id current_user
                      /\ created_day l = today (db srv)) created
  /\ leads (db srv') = (leads (db srv) ++ created)%list
  /\ background_tasks srv' = (background_tasks srv ++ map lead_id created)%list
  /\ subscriptions (db srv') = subscriptions (db srv).
Proof.
  unfold create_leads_from_urls in Hok.
  destruct urls as [|url urls']; [discriminate|].
  destruct (negb (can_create_lead _ _ _)); [discriminate|].
  destruct (_ <? _); [discriminate|].
  destruct (create_all_spec current_user (url :: urls') [] srv)
    as (c & E1 & E2 & E3 & E4 & E5 & E6 & _).
  destruct (create_all current_user (url :: urls') [] srv) as [c' s'].
  cbn [fst snd app] in E1, E4, E5, E6.
  injection Hok as -> ->. subst c.
  repeat split; assumption.
Qed.

Lemma bulk_create_success_witness :
  map website
      (match fst (create_leads_from_urls environ0 user0 ["u1"; "u2"]
                    (server_with 7)) with
       | OK l => l
       | HTTPException _ _ => []
       end)
  = ["u1"; "u2"].
Proof.
  exact (proj1 (bulk_create_success environ0 user0 ["u1"; "u2"] (server_with 7)
                  _ _ eq_refl)).
Defined.

Lemma cap_of_subscriptions (env : Environ) (d d' : Db) (org : Z) :
  subscriptions d' = subscriptions d ->
  max_leads_per_day (get_organization_usage env d' org)
  = max_leads_per_day (get_organization_usage env d org).
Proof.
  intros E. unfold get_organization_usage, first_subscription. rewrite E.
  destruct (find _ (subscriptions d)) as [s|];
    repeat match goal with |- context [if ?b then _ else _] => destruct b end;
    reflexivity.
Qed.

Lemma daily_usage_app (d d' : Db) (u : User) (created : list Lead) (org : Z) :
  leads d' = (leads d ++ created)%list ->
  today d' = today d ->
  Forall (made_by u (today d)) created ->
  _get_daily_usage d' org
  = _get_daily_usage d org
    + (if user_organization_id u =? org
       then Z.of_nat (List.length created) else 0).
Proof.
  intros El Et F. unfold _get_daily_usage. rewrite El, Et, filter_app, List.length_app.
  rewrite Nat2Z.inj_add. f_equal. clear El Et.
  induction F as [|l created (Ho & _ & Hd) F IH]; cbn [filter List.length].
  - destruct (_ =? _); reflexivity.
  - rewrite Ho, Hd, Z.eqb_refl, andb_true_r.
    destruct (user_organization_id u =? org) eqn:E; cbn [List.length].
    + rewrite !Nat2Z.inj_succ, IH, ?E. reflexivity.
    + rewrite IH, ?E. reflexivity.
Qed.

(** What one request does to the server. *)
Lemma handle_spec (env : Environ) (srv : Server) (r : request) :
  exists created,
    leads (db (handle env srv r)) = (leads (db srv) ++ created)%list
    /\ background_tasks (handle env srv r)
       = (background_tasks srv ++ map lead_id created)%list
    /\ subscriptions (db (handle env srv r)) = subscriptions (db srv)
    /\ today (db (handle env srv r)) = today (db srv)
    /\ Forall (made_by (requester r) (today (db srv))) created
    /\ (created <> [] ->
        _get_daily_usage (db srv) (user_organization_id (requester r))
        + Z.of_nat (List.length created)
        <= max_leads_per_day
             (get_organization_usage env (db srv)
                (user_organization_id (requester r)))).
Proof.
  assert (Same : exists created : list Lead,
             leads (db srv) = (leads (db srv) ++ created)%list
             /\ background_tasks srv
                = (background_tasks srv ++ map lead_id created)%list
             /\ subscriptions (db srv) = subscriptions (db srv)
             /\ today (db srv) = today (db srv)
             /\ Forall (made_by (requester r) (today (db srv))) created
             /\ (created <> [] ->
                 _get_daily_usage (db srv) (user_organization_id (requester r))
                 + Z.of_nat (List.length created)
                 <= max_leads_per_day
                      (get_organization_usage env (db srv)
                         (user_organization_id (requester r))))).
  { exists []. cbn [map]. rewrite !app_nil_r.
    repeat split; try constructor. intros N. contradiction. }
  destruct (remaining_is_cap_less_usage env (db srv)
              (user_organization_id (requester r))) as [Hr Hc].
  destruct r as [u urls|u lead]; cbn [handle requester] in * .
  - unfold create_leads_from_urls.
    destruct urls as [|url urls']; [exact Same|].
    rewrite Hc.
    destruct (0 <? _) eqn:Pos; cbn [negb]; [|exact Same].
    destruct (_ <? Z.of_nat _) eqn:Room; [exact Same|].
    apply Z.ltb_lt in Pos. apply Z.ltb_ge in Room.
    destruct (create_all_spec u (url :: urls') [] srv)
      as (c & E1 & E2 & E3 & E4 & E5 & E6 & E7).
    destruct (create_all u (url :: urls') [] srv) as [c' s'].
    cbn [fst snd app] in * . subst c'.
    exists c. repeat split; try assumption.
    intros _. rewrite <- (length_map website c), E2. lia.
  - unfold create_lead_endpoint.
    destruct (user_organization_id u =? lc_organization_id lead) eqn:Eo;
      cbn [negb]; [|exact Same].
    destruct (user_id u =? lc_owner_id lead) eqn:Ew; cbn [negb]; [|exact Same].
    rewrite Hc.
    destruct (0 <? _) eqn:Pos; cbn [negb]; [|exact Same].
    apply Z.ltb_lt in Pos. apply Z.eqb_eq in Eo, Ew.
    unfold create_lead. cbn [snd db leads background_tasks subscriptions today].
    eexists [_]. cbn [map lead_id new_lead].
    repeat split; try reflexivity.
    + constructor; [|constructor].
      repeat split; cbn [new_lead organization_id owner_id created_day];
        congruence.
    + intros _. cbn [List.length]. lia.
Qed.

(** Every lead that the two creating endpoints add has its processing
    job: after any requests, handled one after another, the table is
    the old one followed by the new leads, the job queue is the old one
    followed by the ids of the new leads in the same order, and each
    new lead has the organization and the owner of the user of one of
    the requests. *)
Theorem served_leads_have_jobs :
  forall (env : Environ) (requests : list request) (srv : Server),
  exists created,
    leads (db (serve env requests srv)) = (leads (db srv) ++ created)%list
    /\ background_tasks (serve env requests srv)
       = (background_tasks srv ++ map lead_id created)%list
    /\ Forall (fun l => exists r, In r requests
                                  /\ made_by (requester r) (today (db srv)) l)
              created.
Proof.
  intros env requests. unfold serve.
  induction requests as [|r requests IH]; intros srv; cbn [fold_left].
  - exists []. cbn [map]. rewrite !app_nil_r. repeat split. constructor.
  - destruct (handle_spec env srv r) as (c1 & L1 & B1 & _ & T1 & F1 & _).
    destruct (IH (handle env srv r)) as (c2 & L2 & B2 & F2).
    exists (c1 ++ c2)%list.
    rewrite L2, B2, L1, B1, map_app, <- !app_assoc.
    repeat split. apply Forall_app. split.
    + eapply Forall_impl; [|exact F1].
      intros l H. exists r. split; [left; reflexivity | exact H].
    + eapply Forall_impl; [|exact F2].
      intros l (r' & I & H). exists r'.
      split; [right; exact I | rewrite <- T1; exact H].
Qed.

(** The daily cap is an invariant of the two creating endpoints: an
    organization that has not more leads today than its plan allows
    still has not after any requests of any users, handled one after
    another on that day. *)
Theorem served_within_cap
        (env : Environ) (requests : list request) (srv : Server) (org : Z)
        (Hcap : _get_daily_usage (db srv) org
                <= max_leads_per_day (get_organization_usage env (db srv) org)) :
  _get_daily_usage (db (serve env requests srv)) org
  <= max_leads_per_day
       (get_organization_usage env (db (serve env requests srv)) org).
Proof.
  revert srv Hcap. unfold serve.
  induction requests as [|r requests IH]; intros srv Hcap; cbn [fold_left];
    [exact Hcap|].
  apply IH.
  destruct (handle_spec env srv r) as (c & L & _ & S & T & F & Room).
  rewrite (cap_of_subscriptions env _ _ org S).
  rewrite (daily_usage_app _ _ (requester r) c org L T F).
  destruct (user_organization_id (requester r) =? org) eqn:E; [|lia].
  apply Z.eqb_eq in E. rewrite E in Room.
  destruct c as [|l c]; [cbn [List.length]; lia|].
  apply Room. discriminate.
Qed.

Lemma served_within_cap_witness :
  _get_daily_usage
    (db (serve environ0
           [Bulk user0 ["u1"; "u2"];
            Single user0 {| lc_website := "u3"; lc_organization_id := 1;
                            lc_owner_id := 1 |};
            Bulk user0 ["u4"; "u5"];
            Single user0 {| lc_website := "u6"; lc_organization_id := 1;
                            lc_owner_id := 1 |}]
           (server_with 7))) 1
  <= 10.
Proof.
  apply (served_within_cap environ0
           [Bulk user0 ["u1"; "u2"];
            Single user0 {| lc_website := "u3"; lc_organization_id := 1;
                            lc_owner_id := 1 |};
            Bulk user0 ["u4"; "u5"];
            Single user0 {| lc_website := "u6"; lc_organization_id := 1;
                            lc_owner_id := 1 |}]
           (server_with 7) 1).
  vm_compute. discriminate.
Defined.

Lemma Forall_skip (A : Type) (P : A -> Prop) (n : nat) (l : list A) :
  Forall P l -> Forall P (skipn n l).
Proof.
  revert l. induction n as [|n IH]; intros l H; [exact H|].
  destruct H as [|x l Hx Hl]; cbn [skipn]; [constructor | auto].
Qed.

(** The reading endpoints never answer with a lead of another
    organization: the lead of [read_lead] is the first row of that id
    and is of the caller's organization, and the leads of [read_leads]
    are rows of the caller's organization, not more than the limit. *)
Theorem read_only_own_organization :
  forall (current_user : User) (d : Db),
    (forall id lead,
        read_lead current_user id d = OK lead ->
        In lead (leads d) /\ lead_id lead = id
        /\ organization_id lead = user_organization_id current_user)
    /\ (forall skip limit,
           Forall (fun lead =>
                     In lead (leads d)
                     /\ organization_id lead = user_organization_id current_user)
                  (read_leads current_user skip limit d)
           /\ (List.length (read_leads current_user skip limit d) <= limit)%nat).
Proof.
  intros u d. split.
  - intros id lead. unfold read_lead, get_lead.
    destruct (find _ (leads d)) as [l|] eqn:F; [|discriminate].
    apply find_some in F as [I E]. apply Z.eqb_eq in E.
    destruct (organization_id l =? user_organization_id u) eqn:O;
      cbn [negb]; [|discriminate].
    intros H. injection H as <-. apply Z.eqb_eq in O. auto.
  - intros skip limit. unfold read_leads, get_leads_by_organization.
    split; [|apply firstn_le_length].
    apply Forall_first, Forall_skip, Forall_forall.
    intros l I. apply filter_In in I as [I E]. apply Z.eqb_eq in E. auto.
Qed.

(** The two feature checks of the service agree with the usage report:
    [can_use_ai_features] and [can_export_data] are the [can_use_ai] and
    [can_export] of [get_organization_usage]. *)
Theorem feature_checks_agree_with_usage :
  forall (env : Environ) (d : Db) (org : Z),
    can_use_ai_features env d org
    = can_use_ai (get_organization_usage env d org)
    /\ can_export_data env d org
       = can_export (get_organization_usage env d org).
Proof.
  intros env d org.
  unfold can_use_ai_features, can_export_data, get_organization_usage.
  destruct (first_subscription d org) as [s|];
    repeat match goal with |- context [if ?b then _ else _] => destruct b end;
    split; reflexivity.
Qed.

(** ** Plans *)

Lemma find_columns (org : Z) (l : list SubscriptionRow) :
  find (fun s => sub_organization_id s =? org) (map columns l)
  = option_map columns (find (of_organization org) l).
Proof.
  induction l as [|r l IH]; [reflexivity|].
  cbn [map find]. unfold of_organization at 1.
  destruct (_ =? org); [reflexivity | exact IH].
Qed.

Lemma find_update_first (org org' : Z)
      (f : SubscriptionRow -> SubscriptionRow) (l : list SubscriptionRow) :
  (forall r, sub_organization_id (columns (f r)) = sub_organization_id (columns r)) ->
  find (of_organization org') (update_first (of_organization org) f l)
  = if org' =? org
    then option_map f (find (of_organization org) l)
    else find (of_organization org') l.
Proof.
  intros Hf. induction l as [|r l IH]; cbn [update_first find].
  - destruct (org' =? org); reflexivity.
  - destruct (of_organization org r) eqn:E; cbn [find].
    + unfold of_organization in * . rewrite Hf.
      apply Z.eqb_eq in E. rewrite E.
      destruct (org' =? org) eqn:O.
      * apply Z.eqb_eq in O. subst org'. rewrite !Z.eqb_refl. reflexivity.
      * rewrite Z.eqb_sym, O. reflexivity.
    + rewrite IH. unfold of_organization in * .
      destruct (org' =? org) eqn:O.
      * apply Z.eqb_eq in O. subst org'. rewrite E. reflexivity.
      * reflexivity.
Qed.

Lemma find_app_row (p : SubscriptionRow -> bool) (l : list SubscriptionRow)
      (r : SubscriptionRow) :
  find p (l ++ [r])
  = match find p l with Some x => Some x | None => if p r then Some r else None end.
Proof.
  induction l as [|x l IH]; cbn [app find]; [reflexivity|].
  destruct (p x); [reflexivity | exact IH].
Qed.

Lemma update_first_length (p : SubscriptionRow -> bool)
      (f : SubscriptionRow -> SubscriptionRow) (l : list SubscriptionRow) :
  List.length (update_first p f l) = List.length l.
Proof.
  induction l as [|r l IH]; cbn [update_first]; [reflexivity|].
  destruct (p r); cbn [List.length]; [|rewrite IH]; reflexivity.
Qed.

Lemma usage_of_first (env : Environ) (d d' : Db) (org : Z) :
  leads d' = leads d -> today d' = today d ->
  option_map plan_name (first_subscription d' org)
  = option_map plan_name (first_subscription d org) ->
  get_organization_usage env d' org = get_organization_usage env d org.
Proof.
  intros L T P. unfold get_organization_usage, _get_daily_usage.
  rewrite L, T.
  destruct (first_subscription d' org) as [s'|],
           (first_subscription d org) as [s|];
    cbn [option_map] in P; try discriminate; [|reflexivity].
  injection P as ->. reflexivity.
Qed.

Lemma assigned_rows (timestamp : Z) (b : Billing) (org org' : Z) (plan : string) :
  existsb (String.eqb plan) valid_plans = true ->
  option_map plan_name
    (first_subscription
       (db_of (snd (assign_plan_to_organization timestamp b org plan))) org')
  = if org' =? org then Some plan
    else option_map plan_name (first_subscription (db_of b) org').
Proof.
  intros V. unfold assign_plan_to_organization. rewrite V. cbn [negb snd].
  unfold first_subscription, db_of. cbn [subscriptions rows].
  rewrite !find_columns.
  destruct (find (of_organization org) (rows b)) as [r|] eqn:F.
  - rewrite (find_update_first org org') by reflexivity.
    destruct (org' =? org) eqn:O; [|reflexivity].
    rewrite F. reflexivity.
  - rewrite find_app_row.
    unfold of_organization at 2. cbn [columns sub_organization_id].
    rewrite (Z.eqb_sym org org').
    destruct (org' =? org) eqn:O.
    + apply Z.eqb_eq in O. subst org'. rewrite F. reflexivity.
    + destruct (find (of_organization org') (rows b)); reflexivity.
Qed.

Lemma assigned_tables (timestamp : Z) (b : Billing) (org : Z) (plan : string) :
  b_leads (snd (assign_plan_to_organization timestamp b org plan)) = b_leads b
  /\ b_today (snd (assign_plan_to_organization timestamp b org plan)) = b_today b.
Proof.
  unfold assign_plan_to_organization.
  destruct (negb _); split; reflexivity.
Qed.

(** [assign_plan_to_organization] and the usage report: a plan that is
    not one of free, pro and enterprise is refused and nothing is
    written; one of the three is accepted, the usage report of the
    organization then names this plan, the reports of the other
    organizations are what they were, and a row is added only if the
    organization had none. *)
Theorem assign_plan_then_usage
        (env : Environ) (timestamp : Z) (b : Billing) (org : Z) (plan : string)
        (Hplan : In plan valid_plans) :
  let b' := snd (assign_plan_to_organization timestamp b org plan) in
  fst (assign_plan_to_organization timestamp b org plan) = true
  /\ u_plan_name (get_organization_usage env (db_of b') org) = plan
  /\ (forall org', org' <> org ->
        get_organization_usage env (db_of b') org'
        = get_organization_usage env (db_of b) org')
  /\ List.length (rows b')
     = match find (of_organization org) (rows b) with
       | Some _ => List.length (rows b)
       | None => S (List.length (rows b))
       end
  /\ forall other, ~ In other valid_plans ->
       assign_plan_to_organization timestamp b org other = (false, b).
Proof.
  assert (V : existsb (String.eqb plan) valid_plans = true).
  { apply existsb_exists. exists plan.
    split; [exact Hplan | apply String.eqb_refl]. }
  pose proof (assigned_rows timestamp b org) as R.
  destruct (assigned_tables timestamp b org plan) as [L T].
  split; [unfold assign_plan_to_organization; rewrite V; reflexivity|].
  split; [|split; [|split]].
  - specialize (R org plan V). rewrite Z.eqb_refl in R.
    unfold get_organization_usage.
    destruct (first_subscription _ org) as [s|]; [|discriminate R].
    cbn [option_map] in R. injection R as ->.
    repeat match goal with |- context [if ?c then _ else _] => destruct c end;
      reflexivity.
  - intros org' N. apply usage_of_first.
    + exact L.
    + exact T.
    + rewrite (R org' plan V). apply Z.eqb_neq in N. rewrite N. reflexivity.
  - unfold assign_plan_to_organization. rewrite V. cbn [negb snd rows].
    destruct (find (of_organization org) (rows b)) as [r|].
    + apply update_first_length.
    + rewrite List.length_app. cbn [List.length]. lia.
  - intros other N. unfold assign_plan_to_organization.
    destruct (existsb (String.eqb other) valid_plans) eqn:X; [|reflexivity].
    apply existsb_exists in X as (x & I & E).
    apply String.eqb_eq in E. subst x. contradiction.
Qed.

Lemma assign_plan_then_usage_witness :
  u_plan_name
    (get_organization_usage environ0
       (db_of (snd (assign_plan_to_organization 0 billing0 2 "enterprise"))) 2)
  = "enterprise".
Proof.
  apply (assign_plan_then_usage environ0 0 billing0 2 "enterprise").
  right. right. left. reflexivity.
Defined.

(** Cancelling changes no limit: after [cancel_subscription], immediate
    or not, every organization's usage report is what it was, so a
    cancelled pro plan keeps the pro limits; the call is refused exactly
    when the organization has no row, and else the first row of the
    organization gets status "canceled" when immediate. *)
Theorem cancel_keeps_plan_limits :
  forall (env : Environ) (b : Billing) (org : Z) (immediate : bool),
    let b' := snd (cancel_subscription b org immediate) in
    (forall org',
        get_organization_usage env (db_of b') org'
        = get_organization_usage env (db_of b) org')
    /\ (fst (cancel_subscription b org immediate) = false
        <-> find (of_organization org) (rows b) = None)
    /\ (fst (cancel_subscription b org immediate) = true ->
        option_map status (find (of_organization org) (rows b'))
        = Some (if immediate then "canceled" else "active")
        /\ option_map cancel_at_period_end (find (of_organization org) (rows b'))
           = Some (negb immediate)).
Proof.
  intros env b org immediate. unfold cancel_subscription.
  destruct (find (of_organization org) (rows b)) as [r|] eqn:F; cbn [fst snd].
  - split; [|split].
    + intros org'. apply usage_of_first; [reflexivity | reflexivity |].
      unfold first_subscription, db_of. cbn [subscriptions rows].
      rewrite !find_columns. f_equal.
      rewrite (find_update_first org org') by reflexivity.
      destruct (org' =? org) eqn:O; [|reflexivity].
      apply Z.eqb_eq in O. subst org'. rewrite F. reflexivity.
    + split; discriminate.
    + intros _. cbn [rows].
      rewrite (find_update_first org org) by reflexivity.
      rewrite Z.eqb_refl, F. split; reflexivity.
  - split; [reflexivity | split; [split; reflexivity | discriminate]].
Qed.

(** ** The lead update and the pipeline *)

Lemma same_scores_refl (lead : Lead) : same_scores lead lead.
Proof. repeat split. Qed.

Lemma same_scores_trans (a b c : Lead) :
  same_scores a b -> same_scores b c -> same_scores a c.
Proof.
  unfold same_scores. intros H1 H2.
  repeat match goal with H : _ /\ _ |- _ => destruct H as [? H] end.
  repeat split; congruence.
Qed.

Lemma setattr_same_scores (lead : Lead) (a : assignment) :
  same_scores lead (setattr lead a).
Proof.
  destruct a as [k s|k n|k b]; cbn [setattr];
    repeat match goal with |- context [if ?c then _ else _] => destruct c end;
    repeat split.
Qed.

Lemma update_lead_same_scores (set : list assignment) (lead : Lead) :
  same_scores lead (update_lead lead set).
Proof.
  unfold update_lead. revert lead.
  induction set as [|a set IH]; intros lead; cbn [fold_left].
  - apply same_scores_refl.
  - eapply same_scores_trans; [apply setattr_same_scores | apply IH].
Qed.

(** No update of a lead changes its score, its label, a confidence or a
    source, its organization or its owner: whatever the data and the
    validation, a lead that [update_lead] has written has these as
    before. *)
Theorem update_keeps_scores
        (validate_str : field -> exn (option string))
        (validate_int : field -> exn (option Z))
        (validate_bool : field -> exn (option bool))
        (update_data : list (string * field)) (lead lead' : Lead)
        (Hdone : apply_update validate_str validate_int validate_bool
                              update_data lead = Ret lead') :
  same_scores lead lead'.
Proof.
  unfold apply_update in Hdone.
  destruct (LeadUpdate_of _ _ _ update_data) as [set|]; [|discriminate].
  cbn in Hdone. injection Hdone as <-. apply update_lead_same_scores.
Qed.

Lemma update_keeps_scores_witness :
  same_scores (new_lead 1 1 1 "https://acme.io" 0)
              (set_company_name (new_lead 1 1 1 "https://acme.io" 0)
                                (Some "Acme")).
Proof.
  exact (update_keeps_scores strict_str strict_int strict_bool
           [("company_name", FVal (VStr "Acme")); ("score", FFloat f100_0)]
           (new_lead 1 1 1 "https://acme.io" 0) _ eq_refl).
Defined.

Lemma score_step_unchanged
      (validate_str : field -> exn (option string))
      (validate_int : field -> exn (option Z))
      (validate_bool : field -> exn (option bool)) (lead : Lead) :
  score_step validate_str validate_int validate_bool lead = Ret lead.
Proof. reflexivity. Qed.

(** The score that the pipeline computes is never stored: the scoring
    step never raises and leaves the lead as it is, because [score] and
    [qualification_label] are not fields of [LeadUpdate]. *)
Theorem score_step_stores_nothing :
  forall (validate_str : field -> exn (option string))
         (validate_int : field -> exn (option Z))
         (validate_bool : field -> exn (option bool)) (lead : Lead),
    score_step validate_str validate_int validate_bool lead = Ret lead.
Proof. reflexivity. Qed.

Section Pipeline.
Variable validate_str : field -> exn (option string).
Variable validate_int : field -> exn (option Z).
Variable validate_bool : field -> exn (option bool).

Lemma enrichment_step_same_scores (can_use_ai : bool) (env : LlmEnv)
      (elapsed : Z) (lead lead1 : Lead) (scraped_data : dict) :
  enrichment_step (lead_update_schema validate_str validate_int validate_bool)
                  can_use_ai env elapsed lead scraped_data = Ret lead1 ->
  same_scores lead lead1.
Proof.
  unfold enrichment_step, lead_update_schema.
  destruct (if can_use_ai then _ else None) as [r|].
  - destruct (LeadUpdate_of _ _ _ _) as [set|]; [|discriminate].
    cbn. intros H. injection H as <-. apply update_lead_same_scores.
  - intros H. injection H as <-. apply same_scores_refl.
Qed.

Lemma message_step_same_scores (can_use_ai : bool) (sender_org : string)
      (llm : Lead -> option string) (lead lead' : Lead) :
  message_step validate_str validate_int validate_bool can_use_ai sender_org
               llm lead = Ret lead' ->
  same_scores lead lead'.
Proof.
  unfold message_step.
  destruct (truthy _).
  - unfold apply_update.
    destruct (LeadUpdate_of _ _ _ _) as [set|]; [|discriminate].
    cbn. intros H. injection H as <-. apply update_lead_same_scores.
  - intros H. injection H as <-. apply same_scores_refl.
Qed.
End Pipeline.

Lemma zero_confidence_label (lead : Lead) :
  zero_confidences lead ->
  (result_label (score_lead lead None) = "Cold Lead"
   \/ result_label (score_lead lead None) = "Disqualified")
  /\ F64.leb (total_score (score_lead lead None)) (F64.of_Z 55) = true.
Proof.
  intros (E1 & E2 & E3). rewrite score_lead_default.
  cbn [result_label total_score]. unfold points_sum.
  rewrite E1, E2, E3.
  unfold industry_points, size_points, linkedin_points.
  destruct (one_of (industry lead) _), (one_of (employees lead) _),
           (truthy (linkedin_url lead));
    vm_compute; auto.
Qed.

(** The pipeline, from the enrichment to the message, stores no score:
    when it completes, the lead has the score, the label and the
    confidences that it had.  And a lead whose confidences are 0.0, as
    [create_lead] makes them, is scored in step 3 as a "Cold Lead" or
    as "Disqualified", with not more than 55 points, whatever the
    enrichment found. *)
Theorem pipeline_stores_no_score
        (validate_str : field -> exn (option string))
        (validate_int : field -> exn (option Z))
        (validate_bool : field -> exn (option bool))
        (ai_for_enrichment ai_for_message : bool) (env : LlmEnv) (elapsed : Z)
        (sender_org : string) (llm : Lead -> option string)
        (lead lead' : Lead) (scraped_data : dict)
        (Hdone : process_steps validate_str validate_int validate_bool
                   ai_for_enrichment ai_for_message env elapsed sender_org llm
                   lead scraped_data = Ret lead') :
  same_scores lead lead'
  /\ exists enriched,
       enrichment_step
         (lead_update_schema validate_str validate_int validate_bool)
         ai_for_enrichment env elapsed lead scraped_data = Ret enriched
       /\ (zero_confidences lead ->
           (result_label (score_lead enriched None) = "Cold Lead"
            \/ result_label (score_lead enriched None) = "Disqualified")
           /\ F64.leb (total_score (score_lead enriched None)) (F64.of_Z 55)
              = true).
Proof.
  unfold process_steps in Hdone.
  destruct (enrichment_step _ _ _ _ _ _) as [enriched|] eqn:E; [|discriminate].
  cbn [ebind] in Hdone.
  rewrite score_step_unchanged in Hdone. cbn [ebind] in Hdone.
  pose proof (enrichment_step_same_scores _ _ _ _ _ _ _ _ _ E) as S1.
  pose proof (message_step_same_scores _ _ _ _ _ _ _ _ Hdone) as S2.
  split; [exact (same_scores_trans _ _ _ S1 S2)|].
  exists enriched. split; [reflexivity|].
  intros (Z1 & Z2 & Z3). apply zero_confidence_label.
  destruct S1 as (_ & _ & C1 & C2 & C3 & _).
  repeat split; congruence.
Qed.

Lemma pipeline_stores_no_score_witness :
  score (set_outreach_message (new_lead 1 1 1 "https://acme.io" 0)
           (Some "No outreach message generated - AI features not available on your plan"))
  = f0_0.
Proof.
  exact (proj1 (proj1 (pipeline_stores_no_score strict_str strict_int strict_bool
                  false false no_credential 0 "Our Company" (fun _ => None)
                  (new_lead 1 1 1 "https://acme.io" 0) _ [] eq_refl))).
Defined.

(** ** API keys *)

Lemma prefix_empty (s : string) : String.prefix "" s = true.
Proof. destruct s; reflexivity. Qed.

Lemma startswith_app (p a b : string) :
  (String.length p <= String.length a)%nat ->
  startswith p (a ++ b) = startswith p a.
Proof.
  unfold startswith. revert a.
  induction p as [|c p IH]; intros a H; [rewrite !prefix_empty; reflexivity|].
  destruct a as [|c' a]; cbn [String.length] in H; [lia|].
  cbn [append String.prefix].
  destruct (ascii_dec c c'); [apply IH; lia | reflexivity].
Qed.

Lemma length_ge_split (n : nat) (s : string) :
  (n <= String.length s)%nat ->
  exists a b, s = a ++ b /\ String.length a = n.
Proof.
  revert s. induction n as [|n IH]; intros s H.
  - exists "", s. split; reflexivity.
  - destruct s as [|c s]; cbn [String.length] in H; [lia|].
    destruct (IH s) as (a & b & E & L); [lia|].
    exists (String c a), b. subst s. split; [reflexivity|].
    cbn [String.length]. rewrite L. reflexivity.
Qed.

(** [verify_api_key] reads the first eleven characters of the key and
    nothing else: whatever follows them, the answer is the same, so the
    secret part of a key beyond its eight-character prefix is never
    checked. *)
Theorem api_key_checks_prefix_only
        (get_user : Z -> option User) (keys : list APIKey)
        (api_key rest : string)
        (Hlen : (11 <= String.length api_key)%nat) :
  verify_api_key get_user keys (api_key ++ rest)
  = verify_api_key get_user keys api_key.
Proof.
  destruct (length_ge_split 11 api_key Hlen) as (a & b & E & L). subst api_key.
  unfold verify_api_key.
  rewrite app_assoc_str.
  rewrite (startswith_app "lb_" a (b ++ rest)) by (rewrite L; cbn; lia).
  rewrite (startswith_app "lb_" a b) by (rewrite L; cbn; lia).
  rewrite !length_app, L.
  replace (Nat.ltb (11 + String.length (b ++ rest)) 11) with false
    by (symmetry; apply Nat.ltb_ge; lia).
  replace (Nat.ltb (11 + String.length b) 11) with false
    by (symmetry; apply Nat.ltb_ge; lia).
  assert (P : forall t, substring 3 8 (a ++ t) = substring 3 8 a).
  { intros t.
    do 11 (destruct a as [|? a]; [discriminate L|]).
    destruct a; [destruct t; reflexivity | discriminate L]. }
  rewrite !P. reflexivity.
Qed.

Lemma api_key_checks_prefix_only_witness :
  verify_api_key (fun _ => Some user0)
    [ {| key_prefix := "abcdefgh"; key_user_id := 1; key_is_active := true;
         key_is_revoked := false |} ]
    ("lb_abcdefgh" ++ "anything")
  = Some user0.
Proof.
  rewrite (api_key_checks_prefix_only (fun _ => Some user0) _ "lb_abcdefgh"
             "anything" ltac:(cbn; lia)).
  reflexivity.
Defined.

Lemma generated_prefix (k : APIKey) :
  generated k -> startswith "lb_" (key_prefix k) = true.
Proof.
  intros [token E]. rewrite E. unfold generate_key, startswith. cbn [snd].
  change (substring 0 8 ("lb_" ++ token)) with ("lb_" ++ substring 0 5 token).
  apply prefix_app.
Qed.

Lemma startswith_cut (token : string) :
  startswith "lb_" (substring 0 8 token) = startswith "lb_" token.
Proof.
  unfold startswith.
  destruct token as [|a [|b [|c token]]]; cbn [substring String.prefix];
    repeat match goal with
           | |- context [ascii_dec ?x ?y] => destruct (ascii_dec x y)
           end;
    rewrite ?prefix_empty; reflexivity.
Qed.

(** A key that [create_api_key] has just made is refused by
    [verify_api_key]: the row keeps the first eight characters of the
    key, "lb_" and five of the token, but the lookup is by the eight
    characters after "lb_".  In a table of rows made this way the key of
    a token is not found, unless the token itself begins with "lb_". *)
Theorem generated_key_is_refused
        (get_user : Z -> option User) (keys : list APIKey) (token : string)
        (user : Z)
        (Hkeys : Forall generated keys)
        (Htoken : startswith "lb_" token = false) :
  verify_api_key get_user (snd (create_api_key keys token user))
                 (fst (create_api_key keys token user))
  = None.
Proof.
  unfold create_api_key, generate_key. cbn [fst snd].
  unfold verify_api_key.
  destruct (negb _ || _)%bool; [reflexivity|].
  change (substring 3 8 ("lb_" ++ token)) with (substring 0 8 token).
  unfold get_api_key_by_prefix.
  destruct (find _ _) as [k|] eqn:F; [|reflexivity].
  apply find_some in F as [I E]. apply String.eqb_eq in E.
  assert (G : generated k).
  { apply in_app_or in I as [I|[<-|[]]].
    - rewrite Forall_forall in Hkeys. apply Hkeys, I.
    - exists token. reflexivity. }
  apply generated_prefix in G. rewrite E, startswith_cut, Htoken in G.
  discriminate.
Qed.

Lemma generated_key_is_refused_witness :
  verify_api_key (fun _ => Some user0)
    (snd (create_api_key [] "Zm9vYmFyYmF6cXV4" 1))
    (fst (create_api_key [] "Zm9vYmFyYmF6cXV4" 1))
  = None.
Proof.
  exact (generated_key_is_refused (fun _ => Some user0) [] "Zm9vYmFyYmF6cXV4" 1
           (Forall_nil _) eq_refl).
Defined.

(** ** Tokens and the current user *)

(** The type that a token gets is the one of the function that made it,
    whatever the data: for a signing that decodes what it encoded, a
    token of [create_access_token] with a subject is verified, with
    this subject, and a token of [create_refresh_token] is refused by
    [verify_token]. *)
Theorem token_types
        (jwt_encode : dict -> string) (jwt_decode : string -> option dict)
        (data : dict) (expire : Z) (sub : value)
        (Hsub : dict_get data "sub" = Some sub)
        (Hnot_none : sub <> VNone)
        (Haccess :
           jwt_decode (create_access_token jwt_encode data expire)
           = Some (dict_set (dict_set data "exp" (VInt expire))
                            "type" (VStr "access")))
        (Hrefresh :
           jwt_decode (create_refresh_token jwt_encode data expire)
           = Some (dict_set (dict_set data "exp" (VInt expire))
                            "type" (VStr "refresh"))) :
  verify_token jwt_decode (create_access_token jwt_encode data expire)
  = OK {| td_user_id := sub; td_token_type := VStr "access" |}
  /\ verify_token jwt_decode (create_refresh_token jwt_encode data expire)
     = HTTPException 401 "Invalid token".
Proof.
  unfold verify_token. rewrite Haccess, Hrefresh.
  unfold get_or_none. rewrite !dict_get_set.
  cbn [String.eqb Ascii.eqb Bool.eqb andb]. rewrite Hsub.
  split.
  - destruct sub; try reflexivity. contradiction.
  - destruct sub; reflexivity.
Qed.

Lemma token_types_witness :
  verify_token toy_decode
    (create_access_token toy_encode [("sub", VStr "1")] 0)
  = OK {| td_user_id := VStr "1"; td_token_type := VStr "access" |}.
Proof.
  exact (proj1 (token_types toy_encode toy_decode [("sub", VStr "1")] 0
                  (VStr "1") eq_refl ltac:(discriminate) eq_refl eq_refl)).
Defined.

(** [get_current_user] answers only with a user that is active and that
    the subject of an access token names, so the check of
    [get_current_active_user] after it never fails: its 400 cannot
    occur. *)
Theorem current_user_is_active
        (jwt_decode : string -> option dict) (get_user : value -> option User)
        (token : string) (user : User)
        (Hok : get_current_user jwt_decode get_user token = OK user) :
  is_active user = true
  /\ get_current_active_user user = OK user
  /\ exists payload sub,
       jwt_decode token = Some payload
       /\ dict_get payload "sub" = Some sub
       /\ dict_get payload "type" = Some (VStr "access")
       /\ get_user sub = Some user.
Proof.
  unfold get_current_user, verify_token in Hok.
  destruct (jwt_decode token) as [payload|] eqn:D; [|discriminate].
  unfold get_or_none in Hok.
  destruct (dict_get payload "sub") as [sub|] eqn:Esub; [|discriminate].
  destruct (is_none sub) eqn:N; [discriminate|]. cbn [orb] in Hok.
  destruct (dict_get payload "type") as [[| s | |  | ]|] eqn:Etype;
    try discriminate.
  cbn [is_str] in Hok.
  destruct (String.eqb s "access") eqn:T; [|discriminate].
  apply String.eqb_eq in T. subst s. cbn [negb td_user_id] in Hok.
  destruct (get_user sub) as [u|] eqn:U; [|discriminate].
  destruct (is_active u) eqn:A; [|discriminate].
  cbn [negb] in Hok. injection Hok as <-.
  split; [exact A | split].
  - unfold get_current_active_user. rewrite A. reflexivity.
  - exists payload, sub. repeat split; assumption.
Qed.

Lemma current_user_is_active_witness :
  get_current_active_user user0 = OK user0.
Proof.
  exact (proj1 (proj2 (current_user_is_active toy_decode (fun _ => Some user0)
                         "access" user0 eq_refl))).
Defined.
